(** * outage-data-ua: extraction, record store and batch scheduling

    A shallow embedding of [scripts/parse_fact.js],
    [scripts/batch_render.mjs] and [scripts/lib/renderer.mjs], with the
    properties their specification states about them and further
    properties of the code.

    JavaScript strings are sequences of UTF-16 code units, numbers that the
    scripts count with (attempt counters, status codes, nesting depths,
    epoch milliseconds) are integers, and objects keep their keys in
    insertion order. *)

From Stdlib Require Import ZArith NArith Lia Ascii String.
From Stdlib Require Import Permutation.
From Stdlib Require QArith Qround.
From stdpp Require Import base option list gmap.

Open Scope Z_scope.

(** ** JavaScript strings *)

Module JsString.

(** One UTF-16 code unit, and a string of them. *)
Abbreviation jschar := N (only parsing).
Abbreviation jsstring := (list N) (only parsing).

(** An ASCII literal of the source as a JavaScript string. *)
Definition u16 (s : string) : jsstring :=
  List.map N_of_ascii (list_ascii_of_string s).

Definition ch (a : ascii) : jschar := N_of_ascii a.

(** An ASCII literal in which the apostrophe stands for the double
    quote. *)
Definition dq (s : string) : jsstring :=
  List.map (fun c => if N.eqb c 39 then 34%N else c) (u16 s).

(** [s.startsWith(m)] *)
Fixpoint startsWith (s m : jsstring) : bool :=
  match m, s with
  | [], _ => true
  | _ :: _, [] => false
  | a :: m', b :: s' => N.eqb a b && startsWith s' m'
  end.

(** [s.indexOf(m)]: the first index at which [m] occurs in [s]; [None]
    stands for the source's [-1]. *)
Fixpoint indexOf (s m : jsstring) : option nat :=
  if startsWith s m then Some 0%nat
  else match s with
       | [] => None
       | _ :: s' => S <$> indexOf s' m
       end.

(** [s.slice(from, to)] for [0 <= from], [0 <= to]. *)
Definition slice (s : jsstring) (from to : nat) : jsstring :=
  take (to - from) (drop from s).

(** The code units that the regular expression [\s] accepts: the
    ECMAScript WhiteSpace and LineTerminator productions. *)
Definition isWhitespace (c : jschar) : bool :=
  ((9 <=? c) && (c <=? 13) || (c =? 32) || (c =? 160) || (c =? 5760)
   || (8192 <=? c) && (c <=? 8202) || (c =? 8232) || (c =? 8233)
   || (c =? 8239) || (c =? 8287) || (c =? 12288) || (c =? 65279))%N.

(** The decimal digits, which the regular expression [\d] accepts. *)
Definition isDigit (c : N) : bool := ((48 <=? c) && (c <=? 57))%N.

(** The longest prefix of characters that [p] accepts, and the rest. *)
Fixpoint takeWhile (p : N -> bool) (s : jsstring) : jsstring * jsstring :=
  match s with
  | c :: s' =>
    if p c then let (a, b) := takeWhile p s' in (c :: a, b) else ([], s)
  | [] => ([], [])
  end.

(** [s.endsWith(m)] *)
Definition endsWith (s m : jsstring) : bool := startsWith (rev s) (rev m).

Fixpoint trimStart (s : jsstring) : jsstring :=
  match s with
  | c :: s' => if isWhitespace c then trimStart s' else s
  | [] => []
  end.

(** [s.trim()] *)
Definition trim (s : jsstring) : jsstring :=
  rev (trimStart (rev (trimStart s))).

End JsString.

Import JsString.

(** ** Balanced Extractor ([extractDisconObject] of parse_fact.js) *)

Module Extractor.

Record extracted := Extracted {
  jsonLike : jsstring;
  startIndex : nat;
  endIndex : nat
}.

Inductive extractResult :=
| ExtError (error : jsstring)
| ExtOk (e : extracted).

Definition lbrace : jschar := ch "{".
Definition rbrace : jschar := ch "}".
Definition lbrack : jschar := ch "[".
Definition rbrack : jschar := ch "]".

Definition marker (key : jsstring) : jsstring :=
  u16 "DisconSchedule." ++ key ++ u16 " =".

(** [while (i < html.length && /\s/.test(html[i])) i++], run on the text
    from index [i] on. *)
Fixpoint skipWhitespace (rest : jsstring) (i : nat) : nat :=
  match rest with
  | c :: rest' => if isWhitespace c then skipWhitespace rest' (S i) else i
  | [] => i
  end.

(** One turn of the counting [if]/[else if] chain. *)
Definition stepCurly (c : jschar) (depthCurly : Z) : Z :=
  if N.eqb c lbrace then depthCurly + 1
  else if N.eqb c rbrace then depthCurly - 1
  else depthCurly.

Definition stepSquare (c : jschar) (depthSquare : Z) : Z :=
  if N.eqb c lbrace then depthSquare
  else if N.eqb c rbrace then depthSquare
  else if N.eqb c lbrack then depthSquare + 1
  else if N.eqb c rbrack then depthSquare - 1
  else depthSquare.

(** The [for (; i < html.length; i++)] loop, run on the text from index
    [i] on: the index at which both counters are zero after counting the
    character there, if the loop reaches one. *)
Fixpoint scan (rest : jsstring) (i : nat) (depthCurly depthSquare : Z)
  : option nat :=
  match rest with
  | [] => None
  | c :: rest' =>
    let depthCurly := stepCurly c depthCurly in
    let depthSquare := stepSquare c depthSquare in
    if (depthCurly =? 0) && (depthSquare =? 0) then Some i
    else scan rest' (S i) depthCurly depthSquare
  end.

Definition extractDisconObject (html key : jsstring) : extractResult :=
  match indexOf html (marker key) with
  | None =>
    ExtError (u16 "Marker `DisconSchedule." ++ key ++ u16 " =` not found")
  | Some idx =>
    let i := (idx + length (marker key))%nat in
    let i := skipWhitespace (drop i html) i in
    let isOpener :=
      match html !! i with
      | Some opener => N.eqb opener lbrace || N.eqb opener lbrack
      | None => false
      end in
    if negb isOpener then
      ExtError (u16 "Expected '{' or '[' after `DisconSchedule." ++ key
                ++ u16 " =`")
    else
      let start := i in
      match scan (drop i html) i 0 0 with
      | Some i =>
        ExtOk {| jsonLike := slice html start (i + 1);
                 startIndex := start;
                 endIndex := (i + 1)%nat |}
      | None =>
        ExtError (u16 "Unbalanced braces while extracting " ++ key
                  ++ u16 " object")
      end
  end.

(** The two counters after counting every character of [w] from zero. *)
Definition depths (w : jsstring) : Z * Z :=
  fold_left (fun d c => (stepCurly c (fst d), stepSquare c (snd d))) w (0, 0).

Definition isDelimiter (c : jschar) : bool :=
  N.eqb c lbrace || N.eqb c rbrace || N.eqb c lbrack || N.eqb c rbrack.

(** Text whose curly and square delimiters are correctly nested. *)
Inductive nested : jsstring -> Prop :=
| nested_nil : nested []
| nested_other c w : isDelimiter c = false -> nested w -> nested (c :: w)
| nested_curly w1 w2 :
    nested w1 -> nested w2 -> nested (lbrace :: w1 ++ rbrace :: w2)
| nested_square w1 w2 :
    nested w1 -> nested w2 -> nested (lbrack :: w1 ++ rbrack :: w2).

(** An opener with the closer of its kind. *)
Definition matching (opener closer : jschar) : Prop :=
  (opener = lbrace /\ closer = rbrace) \/ (opener = lbrack /\ closer = rbrack).

End Extractor.

(** ** JavaScript values *)

Module JsValue.

(** The data a JSON text decodes to. A number is an integer that a
    double holds: the scripts count attempts and compare codes. An array is also an object and can carry named properties next to its
    elements; [JSON.parse] never makes any and [JSON.stringify] does not
    print them. The keys of an object are in the order they were written
    in, also those that look like array indices, which JavaScript lists
    first. *)
#[local] Unset Elimination Schemes.
Inductive value :=
| VNull
| VBool (b : bool)
| VNum (n : Z)
| VStr (s : jsstring)
| VArr (elems : list value) (props : list (jsstring * value))
| VObj (props : list (jsstring * value)).
#[local] Set Elimination Schemes.

Fixpoint streq (a b : jsstring) : bool :=
  match a, b with
  | [], [] => true
  | x :: a', y :: b' => N.eqb x y && streq a' b'
  | _, _ => false
  end.

(** The conversion to boolean of [if], [!], [&&] and [||]. *)
Definition truthy (v : value) : bool :=
  match v with
  | VNull => false
  | VBool b => b
  | VNum n => negb (n =? 0)
  | VStr s => match s with [] => false | _ => true end
  | VArr _ _ | VObj _ => true
  end.

(** A value that may be [undefined]. *)
Definition truthy' (v : option value) : bool :=
  match v with Some v => truthy v | None => false end.

Fixpoint lookupProp (k : jsstring) (l : list (jsstring * value))
  : option value :=
  match l with
  | [] => None
  | (k', v) :: l' => if streq k k' then Some v else lookupProp k l'
  end.

(** Assignment to a property: an existing key keeps its place, a new one
    goes last. *)
Fixpoint assignProp (k : jsstring) (v : value) (l : list (jsstring * value))
  : list (jsstring * value) :=
  match l with
  | [] => [(k, v)]
  | (k', v') :: l' =>
    if streq k k' then (k, v) :: l' else (k', v') :: assignProp k v l'
  end.

(** [o.k] for the property names the scripts read (none of them is an
    index or [length]); [None] is [undefined]. The scripts read a property
    of a value only where it is not [null]. *)
Definition getProp (o : value) (k : jsstring) : option value :=
  match o with
  | VObj props => lookupProp k props
  | VArr _ props => lookupProp k props
  | _ => None
  end.

Definition getProp' (o : option value) (k : jsstring) : option value :=
  match o with Some o => getProp o k | None => None end.

(** [o.k = v] in sloppy mode, for [o] other than [null]: on a number, a
    string or a boolean the assignment is dropped. *)
Definition setProp (o : value) (k : jsstring) (v : value) : value :=
  match o with
  | VObj props => VObj (assignProp k v props)
  | VArr elems props => VArr elems (assignProp k v props)
  | _ => o
  end.

(** [typeof v === 'object'] *)
Definition typeofObject (v : value) : bool :=
  match v with VNull | VArr _ _ | VObj _ => true | _ => false end.

(** [a || b] where [a] may be [undefined]. *)
Definition orElse (a : option value) (b : value) : value :=
  match a with
  | Some v => if truthy v then v else b
  | None => b
  end.

(** The double nearest to an integer, the one with the even significand
    of two that are as near: integers of up to 53 bits are doubles, and a
    longer one is rounded at its 53rd bit. *)
Definition toDouble (z : Z) : Z :=
  let a := Z.abs z in
  if a <? 2 ^ 53 then z
  else
    let e := Z.log2 a - 52 in
    let q := Z.shiftr a e in
    let r := a - Z.shiftl q e in
    let half := Z.shiftl 1 (e - 1) in
    let q' :=
      if r <? half then q
      else if half <? r then q + 1
      else if Z.even q then q else q + 1 in
    Z.sgn z * Z.shiftl q' e.

(** [n + 1] on numbers *)
Definition plusOne (n : Z) : Z := toDouble (n + 1).

(** [String(n)] for a natural number. *)
Fixpoint decimalDigits (fuel n : nat) (acc : jsstring) : jsstring :=
  match fuel with
  | O => acc
  | S fuel' =>
    let acc' := (48 + N.of_nat (n mod 10))%N :: acc in
    if (n / 10 =? 0)%nat then acc' else decimalDigits fuel' (n / 10) acc'
  end.

Definition natToString (n : nat) : jsstring := decimalDigits (S n) n [].

End JsValue.

Import JsValue.

(** ** SHA-256 of a string ([sha256] of parse_fact.js)

    [crypto.createHash('sha256').update(data).digest('hex')]: the digest
    of the UTF-8 encoding of [data], in lowercase hexadecimal. *)

Module Sha256.

(** UTF-8 of a string of UTF-16 code units; a surrogate without its
    partner is encoded as U+FFFD. *)
Definition utf8Of (cp : N) : list N :=
  (if cp <? 128 then [cp]
   else if cp <? 2048 then
     [192 + N.shiftr cp 6; 128 + N.land cp 63]
   else if cp <? 65536 then
     [224 + N.shiftr cp 12; 128 + N.land (N.shiftr cp 6) 63;
      128 + N.land cp 63]
   else
     [240 + N.shiftr cp 18; 128 + N.land (N.shiftr cp 12) 63;
      128 + N.land (N.shiftr cp 6) 63; 128 + N.land cp 63])%N.

Definition isHighSurrogate (c : N) : bool := ((55296 <=? c) && (c <=? 56319))%N.
Definition isLowSurrogate (c : N) : bool := ((56320 <=? c) && (c <=? 57343))%N.

Fixpoint utf8 (s : jsstring) : list N :=
  match s with
  | [] => []
  | c :: rest =>
    if isHighSurrogate c then
      match rest with
      | d :: rest' =>
        if isLowSurrogate d then
          utf8Of (65536 + (c - 55296) * 1024 + (d - 56320))%N ++ utf8 rest'
        else utf8Of 65533%N ++ utf8 rest
      | [] => utf8Of 65533%N
      end
    else if isLowSurrogate c then utf8Of 65533%N ++ utf8 rest
    else utf8Of c ++ utf8 rest
  end.

Definition w32 (x : Z) : Z := x mod 4294967296.
Definition rotr (n x : Z) : Z :=
  w32 (Z.lor (Z.shiftr x n) (Z.shiftl x (32 - n))).
Definition Ch (x y z : Z) : Z :=
  Z.lxor (Z.land x y) (Z.land (Z.lxor x 4294967295) z).
Definition Maj (x y z : Z) : Z :=
  Z.lxor (Z.lxor (Z.land x y) (Z.land x z)) (Z.land y z).
Definition bigSigma0 (x : Z) : Z :=
  Z.lxor (Z.lxor (rotr 2 x) (rotr 13 x)) (rotr 22 x).
Definition bigSigma1 (x : Z) : Z :=
  Z.lxor (Z.lxor (rotr 6 x) (rotr 11 x)) (rotr 25 x).
Definition smallSigma0 (x : Z) : Z :=
  Z.lxor (Z.lxor (rotr 7 x) (rotr 18 x)) (Z.shiftr x 3).
Definition smallSigma1 (x : Z) : Z :=
  Z.lxor (Z.lxor (rotr 17 x) (rotr 19 x)) (Z.shiftr x 10).

Definition K : list Z :=
  [ 1116352408; 1899447441; 3049323471; 3921009573; 961987163; 1508970993;
    2453635748; 2870763221; 3624381080; 310598401; 607225278; 1426881987;
    1925078388; 2162078206; 2614888103; 3248222580; 3835390401; 4022224774;
    264347078; 604807628; 770255983; 1249150122; 1555081692; 1996064986;
    2554220882; 2821834349; 2952996808; 3210313671; 3336571891; 3584528711;
    113926993; 338241895; 666307205; 773529912; 1294757372; 1396182291;
    1695183700; 1986661051; 2177026350; 2456956037; 2730485921; 2820302411;
    3259730800; 3345764771; 3516065817; 3600352804; 4094571909; 275423344;
    430227734; 506948616; 659060556; 883997877; 958139571; 1322822218;
    1537002063; 1747873779; 1955562222; 2024104815; 2227730452; 2361852424;
    2428436474; 2756734187; 3204031479; 3329325298 ].

Definition H0 : list Z :=
  [ 1779033703; 3144134277; 1013904242; 2773480762;
    1359893119; 2600822924; 528734635; 1541459225 ].

(** The message with its padding: a one bit, zeros, and the length in bits
    as a 64-bit big-endian number. *)
Definition bigEndian (bytes : nat) (x : Z) : list Z :=
  List.map (fun i => Z.land (Z.shiftr x (8 * Z.of_nat i)) 255)
           (rev (seq 0 bytes)).

Definition pad (msg : list Z) : list Z :=
  let len := Z.of_nat (length msg) in
  let zeros := Z.to_nat ((55 - len) mod 64) in
  msg ++ 128 :: repeat 0 zeros ++ bigEndian 8 (8 * len).

Fixpoint wordsOf (bytes : list Z) : list Z :=
  match bytes with
  | a :: b :: c :: d :: rest =>
    (a * 16777216 + b * 65536 + c * 256 + d) :: wordsOf rest
  | _ => []
  end.

(** The message schedule, newest word first. *)
Fixpoint extend (n : nat) (w : list Z) : list Z :=
  match n with
  | O => w
  | S n' =>
    let x := w32 (smallSigma1 (nth 1 w 0) + nth 6 w 0
                  + smallSigma0 (nth 14 w 0) + nth 15 w 0) in
    extend n' (x :: w)
  end.

Definition schedule (block : list Z) : list Z := rev (extend 48 (rev block)).

Definition round (st : list Z) (kw : Z * Z) : list Z :=
  match st with
  | [a; b; c; d; e; f; g; h] =>
    let t1 := h + bigSigma1 e + Ch e f g + fst kw + snd kw in
    let t2 := bigSigma0 a + Maj a b c in
    [w32 (t1 + t2); a; b; c; w32 (d + t1); e; f; g]
  | _ => st
  end.

Definition compress (h : list Z) (block : list Z) : list Z :=
  let st := fold_left round (combine K (schedule block)) h in
  List.map (fun p => w32 (fst p + snd p)) (combine h st).

Fixpoint blocks (n : nat) (ws : list Z) : list (list Z) :=
  match n with
  | O => []
  | S n' =>
    match ws with
    | [] => []
    | _ => take 16 ws :: blocks n' (drop 16 ws)
    end
  end.

Definition digestWords (msg : list Z) : list Z :=
  let ws := wordsOf (pad msg) in
  fold_left compress (blocks (length ws) ws) H0.

Definition hexDigit (x : Z) : N :=
  if x <? 10 then Z.to_N (48 + x) else Z.to_N (87 + x).

Definition hexWord (x : Z) : jsstring :=
  List.map (fun i => hexDigit (Z.land (Z.shiftr x (4 * Z.of_nat i)) 15))
           (rev (seq 0 8)).

Definition sha256 (data : jsstring) : jsstring :=
  concat (List.map hexWord (digestWords (List.map Z.of_N (utf8 data)))).

End Sha256.

(** ** The process: files, clock, console *)

Module Process.

Inductive node :=
| File (content : jsstring)
| Dir.

(** What a run can observe and change. [ticks] counts the readings of the
    clock, [console] holds the lines written to it, oldest first, and
    [evals] the texts handed to the [Function] constructor. *)
Record world := World {
  files : gmap (list N) node;
  ticks : nat;
  console : list jsstring;
  evals : list jsstring
}.

(** How a computation ends: with a value, with a thrown [Error] carrying a
    message, or with the process gone through [process.exit]. *)
Inductive outcome (A : Type) :=
| Return (a : A)
| Throw (message : jsstring)
| Exit (code : Z).

Arguments Return {A} a.
Arguments Throw {A} message.
Arguments Exit {A} code.

Definition M (A : Type) := world -> outcome A * world.

Definition ret {A} (a : A) : M A := fun w => (Return a, w).

Definition bind {A B} (m : M A) (k : A -> M B) : M B :=
  fun w =>
    match m w with
    | (Return a, w') => k a w'
    | (Throw e, w') => (Throw e, w')
    | (Exit c, w') => (Exit c, w')
    end.

Definition throw {A} (message : jsstring) : M A := fun w => (Throw message, w).

(** [process.exit(code)] *)
Definition exit {A} (code : Z) : M A := fun w => (Exit code, w).

(** [try { m } catch (e) { handler e.message }] *)
Definition tryCatch {A} (m : M A) (handler : jsstring -> M A) : M A :=
  fun w =>
    match m w with
    | (Throw e, w') => handler e w'
    | r => r
    end.

(** What the function made by the [Function] constructor did when called:
    it returned a value, or threw an [Error], kept by its message, or
    ended the process, as a text that calls [process.exit] does. *)
Inductive evalOutcome :=
| EvalReturn (v : value)
| EvalThrow (message : jsstring)
| EvalExit (code : Z).

(** The runtime under the scripts. *)
Class Host := {
  (** [JSON.parse]: the value, or the message of the [SyntaxError] *)
  JSON_parse : jsstring -> value + jsstring;
  (** [JSON.stringify(v)], and [JSON.stringify(v, null, 2)] when pretty *)
  JSON_stringify : bool -> value -> jsstring;
  (** [Function('"use strict"; return (' + text + ');')()], taken for
      what it returns or throws or for the code it ends the process
      with; what else the text, run as code, may do to the process (to
      its files, its console, its globals) is not followed, and nothing
      is stated here of a run but under what its evaluations come to *)
  Function_call : jsstring -> evalOutcome;
  (** [new Date().toISOString()] at each reading of the clock *)
  isoTime : nat -> jsstring;
  (** [path.dirname] *)
  path_dirname : jsstring -> jsstring;
  (** [path.join(__dirname, '..', 'data', '_template.json')] *)
  templatePath : jsstring
}.

#[export] Instance M_ret : MRet M := @ret.
#[export] Instance M_bind : MBind M := fun A B k m => bind m k.

(** [new Date().toISOString()] *)
Definition isoNow `{Host} : M jsstring :=
  fun w =>
    (Return (isoTime (ticks w)),
     {| files := files w; ticks := S (ticks w);
        console := console w; evals := evals w |}).

(** [console.error], [console.warn] and [console.log] *)
Definition consoleLine (line : jsstring) : M unit :=
  fun w =>
    (Return tt,
     {| files := files w; ticks := ticks w;
        console := console w ++ [line]; evals := evals w |}).

Definition setFiles (f : gmap (list N) node -> gmap (list N) node) : M unit :=
  fun w =>
    (Return tt,
     {| files := f (files w); ticks := ticks w;
        console := console w; evals := evals w |}).

Definition noteEval (text : jsstring) : M unit :=
  fun w =>
    (Return tt,
     {| files := files w; ticks := ticks w;
        console := console w; evals := evals w ++ [text] |}).

(** [fs.existsSync(file)] *)
Definition existsSync (file : jsstring) : M bool :=
  fun w => (Return (bool_decide (is_Some (files w !! file))), w).

(** [fs.readFileSync(file, 'utf8')] *)
Definition readFileSync (file : jsstring) : M jsstring :=
  fun w =>
    match files w !! file with
    | Some (File content) => (Return content, w)
    | Some Dir =>
      (Throw (u16 "EISDIR: illegal operation on a directory, read"), w)
    | None =>
      (Throw (u16 "ENOENT: no such file or directory, open"), w)
    end.

(** [fs.mkdirSync(dir, { recursive: true })] on the files: nothing where
    [dir] is a directory; [EEXIST] where it is a file; or else the
    directories on the way to it are made, the nearest to the root first,
    and [ENOTDIR] where a file is on the way. A path that is its own
    [path.dirname] is a root, which is always there; [path.dirname] of
    any other path is shorter, so that the length of [dir] bounds the
    way. *)
Fixpoint makeDirs `{Host} (fuel : nat) (dir : jsstring)
    (fs : gmap (list N) node) : gmap (list N) node + jsstring :=
  match fs !! dir with
  | Some Dir => inl fs
  | Some (File _) =>
    inr (u16 "EEXIST: file already exists, mkdir '" ++ dir ++ u16 "'")
  | None =>
    let parent := path_dirname dir in
    if streq parent dir then inl fs
    else
      match fuel with
      | O => inl (<[dir := Dir]> fs)
      | S fuel' =>
        match makeDirs fuel' parent fs with
        | inl fs' => inl (<[dir := Dir]> fs')
        | inr _ =>
          inr (u16 "ENOTDIR: not a directory, mkdir '" ++ dir ++ u16 "'")
        end
      end
  end.

Definition mkdirSync `{Host} (dir : jsstring) : M unit :=
  fun w =>
    match makeDirs (length dir) dir (files w) with
    | inl fs => setFiles (fun _ => fs) w
    | inr message => (Throw message, w)
    end.

(** [fs.writeFileSync(file, content)] *)
Definition writeFileSync (file content : jsstring) : M unit :=
  fun w =>
    match files w !! file with
    | Some Dir =>
      (Throw (u16 "EISDIR: illegal operation on a directory, open"), w)
    | _ => setFiles (insert file (File content)) w
    end.

(** [fs.renameSync(from, to)] *)
Definition renameSync (from to : jsstring) : M unit :=
  fun w =>
    match files w !! from, files w !! to with
    | None, _ =>
      (Throw (u16 "ENOENT: no such file or directory, rename"), w)
    | Some (File _), Some Dir =>
      (Throw (u16 "EISDIR: illegal operation on a directory, rename"), w)
    | Some Dir, Some (File _) =>
      (Throw (u16 "ENOTDIR: not a directory, rename"), w)
    | Some n, _ => setFiles (fun fs => insert to n (delete from fs)) w
    end.

End Process.

Import Process.

(** ** The extraction script (parse_fact.js) *)

Module ParseFact.
Import Extractor.

Section WithHost.
Context `{Host}.

Record args := Args {
  region : option jsstring;
  input : option jsstring;
  output : option jsstring;
  upstream : option jsstring;
  pretty : bool
}.

Definition setRegion (a : args) (v : option jsstring) : args :=
  Args v (input a) (output a) (upstream a) (pretty a).
Definition setInput (a : args) (v : option jsstring) : args :=
  Args (region a) v (output a) (upstream a) (pretty a).
Definition setOutput (a : args) (v : option jsstring) : args :=
  Args (region a) (input a) v (upstream a) (pretty a).
Definition setUpstream (a : args) (v : option jsstring) : args :=
  Args (region a) (input a) (output a) v (pretty a).
Definition setPretty (a : args) : args :=
  Args (region a) (input a) (output a) (upstream a) true.

(** Which option a command-line word names, if it takes a value. *)
Definition valueOption (x : jsstring)
  : option (args -> option jsstring -> args) :=
  if streq x (u16 "--region") then Some setRegion
  else if streq x (u16 "--in") then Some setInput
  else if streq x (u16 "--out") then Some setOutput
  else if streq x (u16 "--upstream") then Some setUpstream
  else None.

(** The loop of [parseArgs] from index [i] on; [argv[++i]] past the end is
    [undefined]. *)
Fixpoint parseArgsFrom (rest : list jsstring) (a : args) : args :=
  match rest with
  | [] => a
  | x :: rest' =>
    match valueOption x with
    | Some set =>
      match rest' with
      | v :: after => parseArgsFrom after (set a (Some v))
      | [] => set a None
      end
    | None =>
      if streq x (u16 "--pretty") then parseArgsFrom rest' (setPretty a)
      else parseArgsFrom rest' a
    end
  end.

Definition parseArgs (argv : list jsstring) : args :=
  parseArgsFrom (drop 2 argv) (Args None None None None false).

(** [!x] for an option that may be [undefined]: a string is falsy when it
    is empty. *)
Definition given (x : option jsstring) : bool :=
  match x with Some (_ :: _) => true | _ => false end.

Definition writeFileAtomic (file content : jsstring) : M unit :=
  let dir := path_dirname file in
  mkdirSync dir;;
  let tmp := file ++ u16 ".tmp" in
  writeFileSync tmp content;;
  renameSync tmp file.

(** [JSON.parse] as a computation that may throw. *)
Definition parseJSON (text : jsstring) : M value :=
  match JSON_parse text with
  | inl v => ret v
  | inr message => throw message
  end.

(** The prior record, or [null]. *)
Definition loadExisting (file : jsstring) : M value :=
  tryCatch (text ← readFileSync file; parseJSON text) (fun _ => ret VNull).

Definition strOrNull (x : option jsstring) : value :=
  match x with Some (c :: s) => VStr (c :: s) | _ => VNull end.

Definition fallbackTemplate (regionId : option jsstring) : value :=
  VObj [ (u16 "regionId", strOrNull regionId);
         (u16 "lastUpdated", VNull);
         (u16 "fact", VNull);
         (u16 "preset", VNull);
         (u16 "lastUpdateStatus",
          VObj [ (u16 "status", VStr (u16 "idle"));
                 (u16 "ok", VBool true);
                 (u16 "code", VNull);
                 (u16 "message", VNull);
                 (u16 "at", VNull);
                 (u16 "attempt", VNum 0) ]);
         (u16 "meta",
          VObj [ (u16 "schemaVersion", VStr (u16 "1.0.0"));
                 (u16 "contentHash", VNull) ]) ].

Definition loadTemplateBase (regionId : option jsstring) : M value :=
  template ← tryCatch (text ← readFileSync templatePath; parseJSON text)
                      (fun _ => ret (fallbackTemplate regionId));
  match template with
  | VNull =>
    throw (u16 "Cannot set properties of null (setting 'regionId')")
  | _ =>
    ret (setProp template (u16 "regionId")
           (orElse (VStr <$> regionId)
              (orElse (getProp template (u16 "regionId")) VNull)))
  end.

(** [(o.lastUpdateStatus && typeof o.lastUpdateStatus.attempt === 'number')
     ? o.lastUpdateStatus.attempt : 0] for [o] other than [null] *)
Definition attemptOf (o : value) : Z :=
  let status := getProp o (u16 "lastUpdateStatus") in
  if truthy' status then
    match getProp' status (u16 "attempt") with
    | Some (VNum n) => n
    | _ => 0
    end
  else 0.

(** The status block of a failed update. *)
Definition errorStatus (code : Z) (message now : jsstring) (attempt : Z)
  : value :=
  VObj [ (u16 "status", VStr (u16 "error"));
         (u16 "ok", VBool false);
         (u16 "code", VNum code);
         (u16 "message", VStr message);
         (u16 "at", VStr now);
         (u16 "attempt", VNum attempt) ].

Definition updateStatusOnError (existingObj : value)
    (regionId _upstream : option jsstring) (code : Z) (message : jsstring)
  : M value :=
  now ← isoNow;
  base ← (if truthy existingObj then ret existingObj
          else loadTemplateBase regionId);
  let prevAttempt := attemptOf base in
  let base := setProp base (u16 "lastUpdateStatus")
                (errorStatus code message now (plusOne prevAttempt)) in
  match getProp base (u16 "meta") with
  | Some meta =>
    if truthy meta && typeofObject meta then
      ret (setProp base (u16 "meta")
             (setProp meta (u16 "schemaVersion")
                (orElse (getProp meta (u16 "schemaVersion"))
                        (VStr (u16 "1.0.0")))))
    else ret base
  | None => ret base
  end.

Inductive parsed :=
| Parsed (value : value) (method : jsstring)
| ParseError (error : jsstring).

Definition tryParseObject (text : jsstring) : M parsed :=
  match JSON_parse text with
  | inl v => ret (Parsed v (u16 "json"))
  | inr _ =>
    noteEval text;;
    match Function_call text with
    | EvalReturn v => ret (Parsed v (u16 "eval"))
    | EvalThrow message =>
      ret (ParseError (u16 "Failed to parse object: " ++ message))
    | EvalExit code => exit code
    end
  end.

Definition buildOutput (regionId : jsstring) (factObj presetObj : value)
  : M value :=
  now ← isoNow;
  ret (VObj [ (u16 "regionId", VStr regionId);
              (u16 "lastUpdated", VStr now);
              (u16 "fact", factObj);
              (u16 "preset", presetObj);
              (u16 "lastUpdateStatus",
               VObj [ (u16 "status", VStr (u16 "parsed"));
                      (u16 "ok", VBool true);
                      (u16 "code", VNum 200);
                      (u16 "message", VNull);
                      (u16 "at", VStr now);
                      (u16 "attempt", VNum 1) ]);
              (u16 "meta",
               VObj [ (u16 "schemaVersion", VStr (u16 "1.0.0"));
                      (u16 "contentHash", VNull) ]) ]).

(** The status block of a successful parse. *)
Definition parsedStatus (now : jsstring) (attempt : Z) : value :=
  VObj [ (u16 "status", VStr (u16 "parsed"));
         (u16 "ok", VBool true);
         (u16 "code", VNum 200);
         (u16 "message", VNull);
         (u16 "at", VStr now);
         (u16 "attempt", VNum attempt) ].

(** What [main] does at each of its three error exits: load the prior
    record, put the error status on it, write it, leave with code 0. *)
Definition exitWithError (a : args) (regionId out : jsstring) (code : Z)
    (message : jsstring) : M unit :=
  existing ← loadExisting out;
  errObj ← updateStatusOnError existing (Some regionId) None code message;
  let jsonText := JSON_stringify (pretty a) errObj in
  writeFileAtomic out jsonText;;
  exit 0.

Definition usage : jsstring :=
  u16 "[ERROR] Usage: --region <id> --in <input.html> --out <output.json> [--upstream <url>] [--pretty]".

(** [main] past its check of the command line. *)
Definition mainBody (a : args) (regionId inp out : jsstring) : M unit :=
    inputExists ← existsSync inp;
    if negb inputExists then
      consoleLine (u16 "[WARN] Input not found: " ++ inp);;
      exitWithError a regionId out 404 (u16 "Input not found: " ++ inp)
    else
      html ← readFileSync inp;
      match extractDisconObject html (u16 "fact") with
      | ExtError error =>
        consoleLine (u16 "[WARN] " ++ error ++ u16 " in " ++ inp);;
        exitWithError a regionId out 422 (error ++ u16 " in " ++ inp)
      | ExtOk factExt =>
        let presetExt := extractDisconObject html (u16 "preset") in
        factParsed ← tryParseObject (jsonLike factExt);
        match factParsed with
        | ParseError error =>
          consoleLine (u16 "[WARN] " ++ error ++ u16 " in " ++ inp);;
          exitWithError a regionId out 422 (error ++ u16 " in " ++ inp)
        | Parsed factValue factMethod =>
          presetParsed ←
            match presetExt with
            | ExtOk pe =>
              pp ← tryParseObject (jsonLike pe);
              match pp with
              | ParseError error =>
                consoleLine (u16 "[WARN] " ++ error ++ u16 " (preset) in "
                             ++ inp);;
                ret VNull
              | Parsed v _ => ret v
              end
            | ExtError _ => ret VNull
            end;
          now ← isoNow;
          outObj ← buildOutput regionId factValue presetParsed;
          existing ← loadExisting out;
          let prevAttempt :=
            if truthy existing then attemptOf existing else 0 in
          let outObj := setProp outObj (u16 "lastUpdateStatus")
                          (parsedStatus now (plusOne prevAttempt)) in
          let hashInput :=
            jsonLike factExt ++ u16 "|"
            ++ match presetExt with
               | ExtError _ => []
               | ExtOk pe => jsonLike pe
               end in
          let hash := Sha256.sha256 hashInput in
          match getProp outObj (u16 "meta") with
          | None =>
            throw (u16 "Cannot set properties of undefined (setting 'contentHash')")
          | Some meta =>
            let outObj := setProp outObj (u16 "meta")
                            (setProp meta (u16 "contentHash") (VStr hash)) in
            let jsonText := JSON_stringify (pretty a) outObj in
            writeFileAtomic out jsonText;;
            consoleLine
              (u16 "[OK] Parsed " ++ regionId ++ [32; 8594; 32]%N ++ out
               ++ u16 " (factMethod=" ++ factMethod
               ++ (if truthy presetParsed then
                     u16 ", presetMethod="
                     ++ match presetExt with
                        | ExtError _ => u16 "n/a"
                        | ExtOk _ => u16 "parsed"
                        end
                   else [])
               ++ u16 ", bytes=" ++ natToString (length jsonText) ++ u16 ")")
          end
        end
      end.

Definition main (argv : list jsstring) : M unit :=
  let a := parseArgs argv in
  match region a, input a, output a with
  | Some (r :: rs), Some (i :: ins), Some (o :: os) =>
    mainBody a (r :: rs) (i :: ins) (o :: os)
  | _, _, _ =>
    consoleLine usage;;
    exit 2
  end.

(** The script run as the main module: [main], and on a crash the attempt
    to put the failure on record before leaving with code 0. *)
Definition onCrash (argv : list jsstring) (message : jsstring) : M unit :=
  consoleLine (u16 "[WARN] parse_fact crashed: " ++ message);;
  tryCatch
    (let a := parseArgs argv in
     let regionId := region a in
     let upstream := upstream a in
     existing ← (match output a with
                 | Some (o :: os) => loadExisting (o :: os)
                 | _ => ret VNull
                 end);
     errObj ← updateStatusOnError existing regionId upstream 500
                (u16 "parse_fact crashed: " ++ message);
     match output a with
     | Some (o :: os) =>
       let jsonText := JSON_stringify (pretty a) errObj in
       writeFileAtomic (o :: os) jsonText
     | _ => ret tt
     end)
    (fun _ => ret tt);;
  exit 0.

Definition script (argv : list jsstring) : M unit :=
  tryCatch (main argv) (onCrash argv).


End WithHost.
End ParseFact.

(** ** Time Normalizer ([toKyivIso] and its helpers in parse_fact.js)

    Instants are milliseconds since the epoch; a number that may be [NaN]
    or [undefined] is an [option Z]. *)

Module TimeNormalizer.

(** The wall clock [Intl.DateTimeFormat] prints for an instant. *)
Record wallClock := WallClock {
  year : Z; month : Z; day : Z; hour : Z; minute : Z; second : Z
}.

(** The time zone database: the wall clock of an instant in a zone, as
    [formatToParts] gives it and [parseInt] reads it. *)
Class Zones := {
  localParts : jsstring -> Z -> wallClock
}.

(** Days since the epoch of a day of the proleptic Gregorian calendar,
    and back. *)
Definition daysFromCivil (y m d : Z) : Z :=
  let y := if m <=? 2 then y - 1 else y in
  let era := y / 400 in
  let yoe := y - era * 400 in
  let doy := (153 * (if 2 <? m then m - 3 else m + 9) + 2) / 5 + d - 1 in
  let doe := yoe * 365 + yoe / 4 - yoe / 100 + doy in
  era * 146097 + doe - 719468.

Definition civilFromDays (z : Z) : Z * Z * Z :=
  let z := z + 719468 in
  let era := z / 146097 in
  let doe := z - era * 146097 in
  let yoe := (doe - doe / 1460 + doe / 36524 - doe / 146096) / 365 in
  let doy := doe - (365 * yoe + yoe / 4 - yoe / 100) in
  let mp := (5 * doy + 2) / 153 in
  let d := doy - (153 * mp + 2) / 5 + 1 in
  let m := if mp <? 10 then mp + 3 else mp - 9 in
  (yoe + era * 400 + (if m <=? 2 then 1 else 0), m, d).

(** [Date.UTC(year, monthIndex, day, hours, minutes, seconds)]: a year
    from 0 to 99 counts from 1900, months carry into years and days into
    months, and a time out of the range of [Date] is [NaN]. *)
Definition DateUTC (y : option Z) (monthIndex d h m s : Z) : option Z :=
  match y with
  | None => None
  | Some y =>
    let y := if (0 <=? y) && (y <=? 99) then 1900 + y else y in
    let ym := y + monthIndex / 12 in
    let mn := monthIndex mod 12 in
    let days := daysFromCivil ym (mn + 1) 1 + d - 1 in
    let t := days * 86400000 + h * 3600000 + m * 60000 + s * 1000 in
    if Z.abs t <=? 8640000000000000 then Some t else None
  end.

(** The UTC fields of [new Date(t)] *)
Definition getUTCFullYear (t : Z) : Z := fst (fst (civilFromDays (t / 86400000))).
Definition getUTCMonth (t : Z) : Z := snd (fst (civilFromDays (t / 86400000))) - 1.
Definition getUTCDate (t : Z) : Z := snd (civilFromDays (t / 86400000)).
Definition getUTCHours (t : Z) : Z := (t mod 86400000) / 3600000.
Definition getUTCMinutes (t : Z) : Z := (t mod 3600000) / 60000.
Definition getUTCSeconds (t : Z) : Z := (t mod 60000) / 1000.

(** [String(n)] for an integer *)
Definition numberToString (n : Z) : jsstring :=
  (if n <? 0 then u16 "-" else []) ++ natToString (Z.to_nat (Z.abs n)).

(** [str.padStart(2, '0')] *)
Definition padStart2 (s : jsstring) : jsstring :=
  repeat 48%N (2 - length s) ++ s.

Definition pad2 (n : Z) : jsstring := padStart2 (numberToString n).

(** [s.split(sep)] for a separator of one character *)
Fixpoint split (sep : N) (s : jsstring) : list jsstring :=
  match s with
  | [] => [[]]
  | c :: s' =>
    if N.eqb c sep then [] :: split sep s'
    else match split sep s' with
         | part :: parts => (c :: part) :: parts
         | [] => [[c]]
         end
  end.

(** [Number(s)] for the texts dates and times are written with: blanks
    around an optional sign and decimal digits, the empty text being 0.
    Any other text is taken to be [NaN]. *)
Definition Number (s : jsstring) : option Z :=
  match trim s with
  | [] => Some 0
  | 45%N :: ds =>
    match takeWhile isDigit ds with
    | (_ :: _, []) => Some (- fold_left (fun a d => 10 * a + (Z.of_N d - 48)) ds 0)
    | _ => None
    end
  | 43%N :: ds | ds =>
    match takeWhile isDigit ds with
    | (_ :: _, []) => Some (fold_left (fun a d => 10 * a + (Z.of_N d - 48)) ds 0)
    | _ => None
    end
  end.

(** [x || d] for a number that may be [NaN] or [undefined] *)
Definition orNumber (x : option Z) (d : Z) : Z :=
  match x with
  | Some n => if n =? 0 then d else n
  | None => d
  end.

(** [arr[i]] of [arr.map(Number)] *)
Definition numberAt (parts : list jsstring) (i : nat) : option Z :=
  match parts !! i with
  | Some s => Number s
  | None => None
  end.

Section WithZones.
Context `{Zones}.

(** The offset of the zone at an instant, in minutes; on an invalid date
    [formatToParts] throws, which is [None]. The instants the normalizer
    asks about are whole minutes, for which the division is exact. *)
Definition tzOffsetMinutes (utcTs : option Z) (timeZone : jsstring)
  : option Z :=
  match utcTs with
  | None => None
  | Some utcTs =>
    let map := localParts timeZone utcTs in
    match DateUTC (Some (year map)) (month map - 1) (day map) (hour map)
                  (minute map) (second map) with
    | Some asUTC => Some ((asUTC - utcTs) / 60000)
    | None => None
    end
  end.

Definition zonedTimeToUtc (dateStr timeStr timeZone : jsstring) : option Z :=
  let ymd := split 45 dateStr in
  let hm := split 58 timeStr in
  let Y := numberAt ymd 0 in
  let M := numberAt ymd 1 in
  let D := numberAt ymd 2 in
  let h := numberAt hm 0 in
  let m := numberAt hm 1 in
  let ts := DateUTC Y (orNumber M 1 - 1) (orNumber D 1) (orNumber h 0)
                    (orNumber m 0) 0 in
  match ts, tzOffsetMinutes ts timeZone with
  | Some ts, Some off => Some (ts - off * 60000)
  | _, _ => None
  end.

Definition formatOffset (totalMinutes : Z) : jsstring :=
  let sign := if 0 <=? totalMinutes then u16 "+" else u16 "-" in
  let a := Z.abs totalMinutes in
  let hh := pad2 (a / 60) in
  let mm := pad2 (a mod 60) in
  sign ++ hh ++ u16 ":" ++ mm.

Definition toKyivIso (dateStr timeStr : jsstring) : option jsstring :=
  let tz := u16 "Europe/Kyiv" in
  match zonedTimeToUtc dateStr timeStr tz with
  | None => None
  | Some utcDate =>
    match tzOffsetMinutes (Some utcDate) tz with
    | None => None
    | Some off =>
      let Y := numberToString (getUTCFullYear utcDate) in
      let M := pad2 (getUTCMonth utcDate + 1) in
      let D := pad2 (getUTCDate utcDate) in
      let h := pad2 (getUTCHours utcDate) in
      let m := pad2 (getUTCMinutes utcDate) in
      let s := pad2 (getUTCSeconds utcDate) in
      let offsetStr := formatOffset off in
      Some (Y ++ u16 "-" ++ M ++ u16 "-" ++ D ++ u16 "T" ++ h ++ u16 ":"
            ++ m ++ u16 ":" ++ s ++ offsetStr)
    end
  end.

End WithZones.

(** The rule of Europe/Kyiv in the time zone database for the years since
    1996: two hours ahead of UTC, three from 01:00 UTC on the last Sunday
    of March to 01:00 UTC on the last Sunday of October. *)
Definition lastSunday (y m : Z) : Z :=
  let d := daysFromCivil y m 31 in
  d - (d + 4) mod 7.

Definition kyivOffsetMinutes (t : Z) : Z :=
  let y := getUTCFullYear t in
  let start := lastSunday y 3 * 86400000 + 3600000 in
  let stop := lastSunday y 10 * 86400000 + 3600000 in
  if (start <=? t) && (t <? stop) then 180 else 120.

Definition wallClockAt (t : Z) : wallClock :=
  WallClock (getUTCFullYear t) (getUTCMonth t + 1) (getUTCDate t)
            (getUTCHours t) (getUTCMinutes t) (getUTCSeconds t).

Definition kyiv : Zones :=
  {| localParts := fun _ t => wallClockAt (t + kyivOffsetMinutes t * 60000) |}.

End TimeNormalizer.

(** ** The batch renderer (batch_render.mjs)

    The repository holds two versions of the script: one that starts the
    single-image renderer as a child process for every outage group, and
    one that renders four templates for every group and two views of all
    groups per region in one browser. What they share comes first. *)

Module BatchRender.

Inductive template := Full | Emergency | Week | Groups | Summary.

(** What a render is given: the arguments of [renderPage] that differ from
    task to task, under the name the task reports with. *)
Record task := Task {
  name : jsstring;
  htmlPath : template;
  jsonPath : jsstring;
  gpvKey : option jsstring;
  outPath : jsstring;
  dayArg : option jsstring
}.

(** An entry of [readdir(dataDir, { withFileTypes: true })]. *)
Record dirent := Dirent {
  entryName : jsstring;
  isFile : bool
}.

(** [--region]: absent, given without a value, or given with one. *)
Inductive regionFilter :=
| NoFilter
| FlagOnly
| Only (region : jsstring).

(** The command line as the script reads it. *)
Record config := Config {
  theme : jsstring;
  scaleText : jsstring;
  onlyRegion : regionFilter;
  specificFiles : list jsstring
}.

(** The paths, the sort and the renderers under the script. *)
Class Renderer := {
  (** [path.join(a, b)] *)
  path_join : jsstring -> jsstring -> jsstring;
  (** [path.basename(p)] and [path.basename(p, '.json')] *)
  path_basename : jsstring -> jsstring;
  path_stem : jsstring -> jsstring;
  (** [path.relative(projectRoot, p)] *)
  path_relative : jsstring -> jsstring;
  dataDir : jsstring;
  imagesDir : jsstring;
  templatePathOf : template -> jsstring;
  (** scripts/full-template.html and scripts/render_png.mjs of the first
      version *)
  templateHtml : jsstring;
  rendererScript : jsstring;
  (** [keys.sort(compare)] with the numeric comparison of the scripts *)
  sortGroups : list jsstring -> list jsstring;
  (** [renderPage]: [None] when it resolves, the message of the error it
      rejects with otherwise *)
  renderPage : task -> option jsstring;
  (** [runRenderer] of the first version: the exit code of the child
      process it resolves with, [None] when a signal ended the child; or
      the message of the error it rejects with, where the directory of
      the image cannot be made or the child cannot be started *)
  runRenderer : jsstring -> jsstring -> jsstring -> option Z + jsstring
}.

Section WithHost.
Context `{Host} `{Renderer}.

Definition isLetter (c upper : N) : bool :=
  (N.eqb c upper || N.eqb c (upper + 32))%N.

(** [/^GPV\d+\.\d+$/i] *)
Definition isGpvKey (k : jsstring) : bool :=
  match k with
  | g :: p :: v :: rest =>
    isLetter g 71 && isLetter p 80 && isLetter v 86
    && match takeWhile isDigit rest with
       | (_ :: _, 46%N :: rest') =>
         match takeWhile isDigit rest' with
         | (_ :: _, []) => true
         | _ => false
         end
       | _ => false
       end
  | _ => false
  end.

Definition isAlnum (c : N) : bool :=
  (isDigit c || (65 <=? c) && (c <=? 90) || (97 <=? c) && (c <=? 122))%N.

Definition lower (c : N) : N :=
  (if (65 <=? c) && (c <=? 90) then c + 32 else c)%N.

(** [s.replace(/[^a-z0-9]+/gi, '-').toLowerCase()] *)
Fixpoint sanitize (s : jsstring) (inRun : bool) : jsstring :=
  match s with
  | [] => []
  | c :: s' =>
    if isAlnum c then lower c :: sanitize s' false
    else if inRun then sanitize s' true
    else 45%N :: sanitize s' true
  end.

Definition gpvToFileName (gpvKey : jsstring) : jsstring :=
  if isGpvKey gpvKey then
    let (major, rest) := takeWhile isDigit (drop 3 gpvKey) in
    let (minor, _) := takeWhile isDigit (drop 1 rest) in
    u16 "gpv-" ++ major ++ u16 "-" ++ minor ++ u16 ".png"
  else u16 "gpv-" ++ sanitize gpvKey false ++ u16 ".png".

(** [base.replace(/\.png$/i, suffix)] *)
Definition replacePng (base suffix : jsstring) : jsstring :=
  match rev base with
  | g :: n :: p :: 46%N :: front =>
    if isLetter p 80 && isLetter n 78 && isLetter g 71
    then rev front ++ suffix else base
  | _ => base
  end.

Definition toEmergencyName (base : jsstring) : jsstring :=
  replacePng base (u16 "-emergency.png").
Definition toWeekName (base : jsstring) : jsstring :=
  replacePng base (u16 "-week.png").
Definition toSummaryName (base : jsstring) : jsstring :=
  replacePng base (u16 "-summary.png").

Definition normalizeRegionId (json : value) (fileStem : jsstring) : jsstring :=
  if truthy json then
    match getProp json (u16 "regionId") with
    | Some (VStr s) =>
      match trim s with
      | [] => fileStem
      | id => id
      end
    | _ => fileStem
    end
  else fileStem.

(** The names of the indices [0 .. n-1]. *)
Definition indexKeys (n : nat) : list jsstring := List.map natToString (seq 0 n).

(** [Object.keys(v)] for [v] other than [null] *)
Definition objectKeys (v : value) : list jsstring :=
  match v with
  | VObj props => List.map fst props
  | VArr elems props => indexKeys (length elems) ++ List.map fst props
  | VStr s => indexKeys (length s)
  | _ => []
  end.

(** The check both versions make on a decoded data file:
    [!json || typeof json !== 'object' || !json.preset || !json.fact]
    skips it. *)
Definition eligible (json : value) : bool :=
  truthy json && typeofObject json
  && truthy' (getProp json (u16 "preset"))
  && truthy' (getProp json (u16 "fact")).

(** [onlyRegion && onlyRegion !== regionId && onlyRegion !== fileStem] *)
Definition filteredOut (f : regionFilter) (regionId fileStem : jsstring)
  : bool :=
  match f with
  | NoFilter => false
  | FlagOnly => true
  | Only r => negb (streq r regionId) && negb (streq r fileStem)
  end.

(** [json?.preset?.data || {}] and the sorted group keys in it *)
Definition presetData (json : value) : value :=
  orElse (getProp' (getProp json (u16 "preset")) (u16 "data")) (VObj []).

Definition gpvKeys (json : value) : list jsstring :=
  sortGroups (List.filter isGpvKey (objectKeys (presetData json))).

(** *** The version with one browser *)

(** The four tasks of one group. *)
Definition groupTasks (jf regionId gpv : jsstring) : list task :=
  let outDir := path_join imagesDir regionId in
  let baseName := gpvToFileName gpv in
  [ Task (u16 "FULL " ++ regionId ++ u16 " " ++ gpv) Full jf (Some gpv)
         (path_join outDir baseName) None;
    Task (u16 "EMERGENCY " ++ regionId ++ u16 " " ++ gpv) Emergency jf
         (Some gpv) (path_join outDir (toEmergencyName baseName)) None;
    Task (u16 "WEEK " ++ regionId ++ u16 " " ++ gpv) Week jf (Some gpv)
         (path_join outDir (toWeekName baseName)) None;
    Task (u16 "SUMMARY " ++ regionId ++ u16 " " ++ gpv) Summary jf (Some gpv)
         (path_join outDir (toSummaryName baseName)) None ].

(** The two views of all groups of a region. *)
Definition regionTasks (jf regionId : jsstring) : list task :=
  let outDir := path_join imagesDir regionId in
  [ Task (u16 "GROUPS/TODAY " ++ regionId) Groups jf None
         (path_join outDir (u16 "gpv-all-today.png")) None;
    Task (u16 "GROUPS/TOMORROW " ++ regionId) Groups jf None
         (path_join outDir (u16 "gpv-all-tomorrow.png"))
         (Some (u16 "tomorrow")) ].

(** One turn of the loop over the data files: the tasks so far, and those
    of this file after them. *)
Definition prepareFile (cfg : config) (jf : jsstring) (tasks : list task)
  : M (list task) :=
  let fileStem := path_stem jf in
  tryCatch
    (buf ← readFileSync jf;
     json ← ParseFact.parseJSON buf;
     if negb (eligible json) then ret tasks
     else
       let regionId := normalizeRegionId json fileStem in
       if filteredOut (onlyRegion cfg) regionId fileStem then ret tasks
       else
         match gpvKeys json with
         | [] =>
           consoleLine (u16 "[WARN] No GPV groups in " ++ jf
                        ++ [32; 226; 8364; 8221; 32]%N ++ u16 "skipping");;
           ret tasks
         | keys =>
           ret (tasks ++ flat_map (groupTasks jf regionId) keys
                ++ regionTasks jf regionId)
         end)
    (fun message =>
       consoleLine (u16 "[WARN] Failed to prepare tasks for " ++ jf
                    ++ u16 ": " ++ message);;
       ret tasks).

Fixpoint prepareAll (cfg : config) (jsonFiles : list jsstring)
    (tasks : list task) : M (list task) :=
  match jsonFiles with
  | [] => ret tasks
  | jf :: rest =>
    tasks ← prepareFile cfg jf tasks;
    prepareAll cfg rest tasks
  end.

(** [runParallel(wrappedTasks, 4)]: every task is run once and counted as
    it ends; the counts do not depend on the order in which the tasks
    end, which is taken here to be the order of the list. *)
Fixpoint runParallel (tasks : list task) (ok failed : nat) : M (nat * nat) :=
  match tasks with
  | [] => ret (ok, failed)
  | t :: rest =>
    match renderPage t with
    | None =>
      consoleLine (u16 "[INFO] Rendered " ++ name t);;
      runParallel rest (S ok) failed
    | Some message =>
      consoleLine (u16 "[ERROR] Task '" ++ name t ++ u16 "' failed: "
                   ++ message);;
      runParallel rest ok (S failed)
    end
  end.

Definition templateNames : list (jsstring * template) :=
  [ (u16 "full", Full); (u16 "emergency", Emergency); (u16 "week", Week);
    (u16 "groups", Groups); (u16 "summary", Summary) ].

Fixpoint checkTemplates (l : list (jsstring * template)) (missing : bool)
  : M bool :=
  match l with
  | [] => ret missing
  | (n, t) :: rest =>
    found ← existsSync (templatePathOf t);
    if negb found then
      consoleLine (u16 "[ERROR] HTML template not found (" ++ n ++ u16 "): "
                   ++ templatePathOf t);;
      checkTemplates rest true
    else checkTemplates rest missing
  end.

(** The data files: the entries that are files named [*.json], and of
    those the ones [--files] names, when it names any. *)
Definition jsonFilesOf (entries : list dirent) : list jsstring :=
  List.map (fun e => path_join dataDir (entryName e))
    (List.filter (fun e => isFile e && endsWith (entryName e) (u16 ".json"))
                 entries).

Definition allowedBy (specific : list jsstring) (p : jsstring) : bool :=
  existsb (fun f => streq (path_basename f) (path_basename p)) specific.

Definition exitStatus (failed : nat) : Z := if (0 <? failed)%nat then 1 else 0.

Definition batchConcurrent (cfg : config) (entries : list dirent) : M unit :=
  missing ← checkTemplates templateNames false;
  if (missing : bool) then exit 1
  else
    let jsonFiles := jsonFilesOf entries in
    jsonFiles ←
      match specificFiles cfg with
      | [] => ret jsonFiles
      | specific =>
        let kept := List.filter (allowedBy specific) jsonFiles in
        consoleLine (u16 "[INFO] Filtering to " ++ natToString (length kept)
                     ++ u16 " specific files from --files argument");;
        ret kept
      end;
    match jsonFiles with
    | [] =>
      consoleLine
        (u16 "[WARN] No JSON files found in data/ (or none matched filter)");;
      exit 0
    | _ =>
      consoleLine (u16 "[INFO] Starting static server and browser...");;
      tasks ← prepareAll cfg jsonFiles [];
      let total := length tasks in
      consoleLine (u16 "[INFO] Found " ++ natToString total
                   ++ u16 " rendering tasks. Executing with concurrency=4...");;
      counts ← runParallel tasks 0 0;
      consoleLine (u16 "[SUMMARY] Rendered: " ++ natToString (fst counts)
                   ++ u16 "/" ++ natToString total ++ u16 " succeeded, "
                   ++ natToString (snd counts) ++ u16 " failed. Theme="
                   ++ theme cfg ++ u16 " Scale=" ++ scaleText cfg);;
      exit (exitStatus (snd counts))
    end.

(** *** The version with a child process per group *)

Record counters := Counters { total : nat; ok : nat; failed : nat }.

(** The loop over the groups of one file. The counters are variables
    of the script, outside the [try] block of the file: what the loop has
    counted stays counted when a render rejects and the loop is left. The
    loop hands back its counts and, where a rejection ended it, the
    message of the rejection for the [catch] of the file. *)
Fixpoint renderGroups (jf regionId : jsstring) (keys : list jsstring)
    (c : counters) : M (counters * option jsstring) :=
  match keys with
  | [] => ret (c, None)
  | gpv :: rest =>
    let c := Counters (S (total c)) (ok c) (failed c) in
    let outDir := path_join imagesDir regionId in
    let outPath := path_join outDir (gpvToFileName gpv) in
    consoleLine (u16 "[INFO] Rendering region='" ++ regionId ++ u16 "' group='"
                 ++ gpv ++ u16 "' -> " ++ path_relative outPath);;
    match runRenderer jf gpv outPath with
    | inl (Some 0) => renderGroups jf regionId rest
                        (Counters (total c) (S (ok c)) (failed c))
    | inl _ => renderGroups jf regionId rest
                 (Counters (total c) (ok c) (S (failed c)))
    | inr message => ret (c, Some message)
    end
  end.

(** One turn of the loop over the data files: the [try] block, and the
    [catch] that prints what was thrown in it or what a render rejected
    with. *)
Definition processFile (cfg : config) (jf : jsstring) (c : counters)
  : M counters :=
  let fileStem := path_stem jf in
  tried ←
    tryCatch
      (buf ← readFileSync jf;
       json ← ParseFact.parseJSON buf;
       if negb (eligible json) then ret (c, None)
       else
         let regionId := normalizeRegionId json fileStem in
         if filteredOut (onlyRegion cfg) regionId fileStem then ret (c, None)
         else
           match gpvKeys json with
           | [] =>
             consoleLine (u16 "[WARN] No GPV groups in " ++ jf
                          ++ [32; 8212; 32]%N ++ u16 "skipping");;
             ret (c, None)
           | keys => renderGroups jf regionId keys c
           end)
      (fun message => ret (c, Some message));
  match snd tried with
  | Some message =>
    consoleLine (u16 "[WARN] Failed to process " ++ jf ++ u16 ": "
                 ++ message);;
    ret (fst tried)
  | None => ret (fst tried)
  end.

Fixpoint processAll (cfg : config) (jsonFiles : list jsstring) (c : counters)
  : M counters :=
  match jsonFiles with
  | [] => ret c
  | jf :: rest =>
    c ← processFile cfg jf c;
    processAll cfg rest c
  end.

Definition batchSubprocess (cfg : config) (entries : list dirent) : M unit :=
  haveTemplate ← existsSync templateHtml;
  if negb haveTemplate then
    consoleLine (u16 "[ERROR] HTML template not found: " ++ templateHtml);;
    exit 1
  else
    haveRenderer ← existsSync rendererScript;
    if negb haveRenderer then
      consoleLine (u16 "[ERROR] Renderer script not found: "
                   ++ rendererScript);;
      exit 1
    else
      match jsonFilesOf entries with
      | [] =>
        consoleLine (u16 "[WARN] No JSON files found in data/");;
        exit 0
      | jsonFiles =>
        c ← processAll cfg jsonFiles (Counters 0 0 0);
        consoleLine (u16 "[SUMMARY] Rendered: " ++ natToString (ok c)
                     ++ u16 "/" ++ natToString (total c) ++ u16 " succeeded, "
                     ++ natToString (failed c) ++ u16 " failed. Theme="
                     ++ theme cfg ++ u16 " Scale=" ++ scaleText cfg);;
        exit (exitStatus (failed c))
      end.

End WithHost.
End BatchRender.

(** ** What a run leaves behind *)

Module Observations.
Import ParseFact.

Section WithHost.
Context `{Host}.

(** What [loadExisting] finds at [file]: the decoded content, or [null]
    where there is no file or its content does not decode. *)
Definition storedRecord (w : world) (file : jsstring) : value :=
  match files w !! file with
  | Some (File text) =>
    match JSON_parse text with
    | inl v => v
    | inr _ => VNull
    end
  | _ => VNull
  end.

(** The attempt count an update starts from: that of the prior record, 0
    where there is none or it has no number there. *)
Definition previousAttempt (existing : value) : Z :=
  if truthy existing then attemptOf existing else 0.

(** [o.lastUpdateStatus.k] *)
Definition statusField (r : value) (k : jsstring) : option value :=
  getProp' (getProp r (u16 "lastUpdateStatus")) k.


Definition isRecord (v : value) : Prop := exists props, v = VObj props.

(** What [file] holds is a record, whenever it decodes to something
    truthy. *)
Definition holdsRecord (w : world) (file : jsstring) : Prop :=
  truthy (storedRecord w file) = true -> isRecord (storedRecord w file).

(** data/_template.json, where it is there and decodes, is a record that
    has not been attempted. *)
Definition templateFresh (w : world) : Prop :=
  forall text t,
    files w !! templatePath = Some (File text) ->
    JSON_parse text = inl t ->
    isRecord t /\ attemptOf t = 0.

(** The files once the directories on the way to [dir] are made, where
    they can be made. *)
Definition madeDirs (dir : jsstring) (fs : gmap (list N) node)
  : gmap (list N) node :=
  match makeDirs (length dir) dir fs with
  | inl fs' => fs'
  | inr _ => fs
  end.

(** [file] can be written: its directory is there or can be made, no
    file being on the way to it, and then neither [file] nor its
    temporary sibling is a directory. *)
Definition writable (w : world) (file : jsstring) : Prop :=
  exists fs,
    makeDirs (length (path_dirname file)) (path_dirname file) (files w)
    = inl fs
    /\ fs !! file <> Some Dir /\ fs !! (file ++ u16 ".tmp") <> Some Dir.

(** What [tryParseObject] makes of a text: the strict decode, or what the
    permissive evaluation returns, or nothing where that throws or ends
    the process. *)
Definition parsedValue (text : jsstring) : option value :=
  match JSON_parse text with
  | inl v => Some v
  | inr _ =>
    match Function_call text with
    | EvalReturn v => Some v
    | EvalThrow _ | EvalExit _ => None
    end
  end.

(** The run over the page at [inp] is ended with [code] from within the
    permissive evaluation: of the fact, which strict decoding refuses, or,
    the fact being parsed, of the preset, which strict decoding
    refuses. *)
Definition endsInEvaluation (w : world) (inp : jsstring) (code : Z) : Prop :=
  exists html factExt,
    files w !! inp = Some (File html)
    /\ Extractor.extractDisconObject html (u16 "fact")
       = Extractor.ExtOk factExt
    /\ ((exists e,
           JSON_parse (Extractor.jsonLike factExt) = inr e
           /\ Function_call (Extractor.jsonLike factExt) = EvalExit code)
        \/ (exists factValue presetExt e,
              parsedValue (Extractor.jsonLike factExt) = Some factValue
              /\ Extractor.extractDisconObject html (u16 "preset")
                 = Extractor.ExtOk presetExt
              /\ JSON_parse (Extractor.jsonLike presetExt) = inr e
              /\ Function_call (Extractor.jsonLike presetExt)
                 = EvalExit code)).

(** data/_template.json, where it is there and decodes, is a record. *)
Definition templateIsRecord (w : world) : Prop :=
  forall text t,
    files w !! templatePath = Some (File text) ->
    JSON_parse text = inl t ->
    isRecord t.

(** The command line names a region, an input and an output. *)
Definition invokedWith (argv : list jsstring) (regionId inp out : jsstring)
  : Prop :=
  region (parseArgs argv) = Some regionId
  /\ input (parseArgs argv) = Some inp
  /\ output (parseArgs argv) = Some out
  /\ regionId <> [] /\ inp <> [] /\ out <> [].


(** The literal text of the preset, empty where none was extracted. *)
Definition presetText (html : jsstring) : jsstring :=
  match Extractor.extractDisconObject html (u16 "preset") with
  | Extractor.ExtError _ => []
  | Extractor.ExtOk pe => Extractor.jsonLike pe
  end.

(** The record of a successful parse. *)
Definition parsedRecord (regionId lastUpdated : jsstring)
    (fact preset : value) (now : jsstring) (attempt : Z) (hash : jsstring)
  : value :=
  VObj [ (u16 "regionId", VStr regionId);
         (u16 "lastUpdated", VStr lastUpdated);
         (u16 "fact", fact);
         (u16 "preset", preset);
         (u16 "lastUpdateStatus", parsedStatus now attempt);
         (u16 "meta",
          VObj [ (u16 "schemaVersion", VStr (u16 "1.0.0"));
                 (u16 "contentHash", VStr hash) ]) ].

(** The clock read once more. *)
Definition tick (w : world) : world :=
  World (files w) (S (ticks w)) (console w) (evals w).

(** What [writeFileAtomic] leaves when nothing is in its way. *)
Definition written (file content : jsstring) (w : world) : world :=
  World (<[file := File content]>
           (delete (file ++ u16 ".tmp")
                   (<[file ++ u16 ".tmp" := File content]>
                      (madeDirs (path_dirname file) (files w)))))
        (ticks w) (console w) (evals w).

End WithHost.

(** What a path holds after a run, against what it held before: the
    same, or a directory where there was nothing. *)
Definition keptOrMade (before after : option node) : Prop :=
  after = before \/ (before = None /\ after = Some Dir).

(** One more text handed to the [Function] constructor. *)
Definition evaluated (text : jsstring) (w : world) : world :=
  World (files w) (ticks w) (console w) (evals w ++ [text]).

(** One more line on the console. *)
Definition printed (line : jsstring) (w : world) : world :=
  World (files w) (ticks w) (console w ++ [line]) (evals w).


(** An empty process: no files, nothing printed, the clock unread. *)
Definition w0 : world := World ∅ 0 [] [].

End Observations.

(** ** What a batch amounts to *)

Module BatchObservations.
Import BatchRender.

Section WithHost.
Context `{Host} `{Renderer}.

(** The sort of the group keys rearranges them and nothing else. *)
Definition sortRearranges : Prop :=
  forall keys, Permutation (sortGroups keys) keys.

(** What reading and decoding the data file [jf] gives. *)
Definition decoded (fs : gmap (list N) node) (jf : jsstring)
  : option value :=
  match fs !! jf with
  | Some (File text) =>
    match JSON_parse text with
    | inl json => Some json
    | inr _ => None
    end
  | _ => None
  end.

(** The message a data file that cannot be read or decoded fails with. *)
Definition readError (fs : gmap (list N) node) (jf : jsstring) : jsstring :=
  match fs !! jf with
  | Some (File text) =>
    match JSON_parse text with inr e => e | inl _ => [] end
  | Some Dir => u16 "EISDIR: illegal operation on a directory, read"
  | None => u16 "ENOENT: no such file or directory, open"
  end.











Definition templatesMissing (fs : gmap (list N) node) : bool :=
  existsb (fun nt => negb (bool_decide (is_Some (fs !! templatePathOf (snd nt)))))
          templateNames.

End WithHost.
End BatchObservations.

(** ** A small runtime

    A [Host] to run the scripts on concrete inputs: JSON over integers,
    strings, booleans, [null], arrays and objects; a [Function] constructor
    that evaluates literals written the JavaScript way (unquoted keys,
    single quotes, trailing commas) and names looked up in the global
    object [globals]. Text outside this fragment is reported as a syntax
    error. *)

Module Node.

Definition isIdentStart (c : N) : bool :=
  ((65 <=? c) && (c <=? 90) || (97 <=? c) && (c <=? 122)
   || (c =? 95) || (c =? 36))%N.

Definition isIdentPart (c : N) : bool := isIdentStart c || isDigit c.

Definition isJsonSpace (c : N) : bool :=
  ((c =? 32) || (c =? 9) || (c =? 10) || (c =? 13))%N.

Fixpoint skipSpace (js : bool) (s : jsstring) : jsstring :=
  match s with
  | c :: s' =>
    if (if js then isWhitespace c else isJsonSpace c) then skipSpace js s'
    else s
  | [] => []
  end.

Definition digitsValue (ds : jsstring) : Z :=
  fold_left (fun acc d => 10 * acc + (Z.of_N d - 48)) ds 0.

(** The characters of a string literal after its opening quote. *)
Fixpoint stringBody (quote : N) (s : jsstring) : option (jsstring * jsstring) :=
  match s with
  | [] => None
  | c :: s' =>
    if N.eqb c quote then Some ([], s')
    else if (c <? 32)%N then None
    else if N.eqb c 92 then
      match s' with
      | e :: s'' =>
        let unescaped :=
          if N.eqb e 110 then Some 10%N
          else if N.eqb e 116 then Some 9%N
          else if N.eqb e 114 then Some 13%N
          else if N.eqb e 34 || N.eqb e 92 || N.eqb e 47 then Some e
          else if N.eqb e 39 then (if N.eqb quote 39 then Some e else None)
          else None in
        match unescaped, stringBody quote s'' with
        | Some u, Some (body, rest) => Some (u :: body, rest)
        | _, _ => None
        end
      | [] => None
      end
    else
      match stringBody quote s' with
      | Some (body, rest) => Some (c :: body, rest)
      | None => None
      end
  end.

Inductive parse (A : Type) :=
| POk (a : A) (rest : jsstring)
| PErr (message : jsstring).

Arguments POk {A} a rest.
Arguments PErr {A} message.

Definition unexpected {A} : parse A := PErr (u16 "Unexpected token").

(** [a.b.c] after the name [a] has been looked up. *)
Fixpoint memberPath (fuel : nat) (v : option value) (s : jsstring)
  : parse value :=
  match fuel with
  | O => unexpected
  | S fuel' =>
    match s with
    | 46%N :: s' =>
      let (name, rest) := takeWhile isIdentPart s' in
      match name, v with
      | [], _ => unexpected
      | _, None | _, Some VNull =>
        PErr (u16 "Cannot read properties of undefined")
      | _, Some o => memberPath fuel' (getProp o name) rest
      end
    | _ =>
      match v with
      | Some x => POk x s
      | None => PErr (u16 "undefined is not a literal")
      end
    end
  end.

Section Grammar.
Variable js : bool.
Variable globals : list (jsstring * value).

Definition key (s : jsstring) : parse jsstring :=
  match s with
  | 34%N :: s' =>
    match stringBody 34 s' with
    | Some (k, rest) => POk k rest
    | None => unexpected
    end
  | 39%N :: s' =>
    if js then
      match stringBody 39 s' with
      | Some (k, rest) => POk k rest
      | None => unexpected
      end
    else unexpected
  | c :: _ =>
    if js && isIdentStart c then
      let (k, rest) := takeWhile isIdentPart s in POk k rest
    else unexpected
  | [] => unexpected
  end.

Definition word (w : string) (v : value) (s : jsstring) : option (parse value) :=
  if startsWith s (u16 w) then
    match drop (length (u16 w)) s with
    | c :: _ => if isIdentPart c then None else Some (POk v (drop (length (u16 w)) s))
    | [] => Some (POk v [])
    end
  else None.

(** An integer: digits without a leading zero, and neither a fraction nor
    an exponent after them. *)
Definition number (sign : Z) (s : jsstring) : parse value :=
  match takeWhile isDigit s with
  | ([], _) => unexpected
  | (48%N :: _ :: _, _) => unexpected
  | (ds, rest) =>
    match rest with
    | 46%N :: _ | 101%N :: _ | 69%N :: _ => unexpected
    | _ => POk (VNum (sign * digitsValue ds)) rest
    end
  end.

Fixpoint value_ (fuel : nat) (s : jsstring) : parse value :=
  match fuel with
  | O => unexpected
  | S fuel' =>
    match s with
    | 123%N :: s' => members fuel' [] true (skipSpace js s')
    | 91%N :: s' => elements fuel' [] true (skipSpace js s')
    | 34%N :: s' =>
      match stringBody 34 s' with
      | Some (str, rest) => POk (VStr str) rest
      | None => unexpected
      end
    | 39%N :: s' =>
      if js then
        match stringBody 39 s' with
        | Some (str, rest) => POk (VStr str) rest
        | None => unexpected
        end
      else unexpected
    | 45%N :: s' => number (-1) s'
    | c :: _ =>
      if isDigit c then number 1 s
      else
        match word "true" (VBool true) s, word "false" (VBool false) s,
              word "null" VNull s with
        | Some r, _, _ | None, Some r, _ | None, None, Some r => r
        | None, None, None =>
          if js && isIdentStart c then
            let (name, rest) := takeWhile isIdentPart s in
            match lookupProp name globals with
            | Some v => memberPath fuel' (Some v) rest
            | None => PErr (name ++ u16 " is not defined")
            end
          else unexpected
        end
    | [] => unexpected
    end
  end

(** The members of an object after [{] or after a comma; [first] tells
    which, since JSON refuses a comma before the closing brace. *)
with members (fuel : nat) (acc : list (jsstring * value)) (first : bool)
             (s : jsstring) : parse value :=
  match fuel with
  | O => unexpected
  | S fuel' =>
    match s with
    | 125%N :: s' => if first || js then POk (VObj acc) s' else unexpected
    | _ =>
      match key s with
      | PErr e => PErr e
      | POk k rest =>
        match skipSpace js rest with
        | 58%N :: rest' =>
          match value_ fuel' (skipSpace js rest') with
          | PErr e => PErr e
          | POk v rest'' =>
            let acc := assignProp k v acc in
            match skipSpace js rest'' with
            | 44%N :: t => members fuel' acc false (skipSpace js t)
            | 125%N :: t => POk (VObj acc) t
            | _ => unexpected
            end
          end
        | _ => unexpected
        end
      end
    end
  end

with elements (fuel : nat) (acc : list value) (first : bool) (s : jsstring)
  : parse value :=
  match fuel with
  | O => unexpected
  | S fuel' =>
    match s with
    | 93%N :: s' => if first || js then POk (VArr acc []) s' else unexpected
    | _ =>
      match value_ fuel' s with
      | PErr e => PErr e
      | POk v rest =>
        let acc := acc ++ [v] in
        match skipSpace js rest with
        | 44%N :: t => elements fuel' acc false (skipSpace js t)
        | 93%N :: t => POk (VArr acc []) t
        | _ => unexpected
        end
      end
    end
  end.

(** A whole text as one value. *)
Definition whole (text : jsstring) : value + jsstring :=
  match value_ (2 * length text + 2) (skipSpace js text) with
  | PErr e => inr e
  | POk v rest =>
    match skipSpace js rest with
    | [] => inl v
    | _ => inr (u16 "Unexpected token")
    end
  end.

End Grammar.

(** [JSON.stringify] *)

Definition hexDigit (x : N) : N := (if x <? 10 then 48 + x else 87 + x)%N.

Definition unicodeEscape (c : N) : jsstring :=
  u16 "\u" ++ [ hexDigit (N.land (N.shiftr c 12) 15);
                hexDigit (N.land (N.shiftr c 8) 15);
                hexDigit (N.land (N.shiftr c 4) 15);
                hexDigit (N.land c 15) ].

Fixpoint quoteBody (s : jsstring) : jsstring :=
  match s with
  | [] => []
  | c :: s' =>
    if N.eqb c 34 then [92; 34]%N ++ quoteBody s'
    else if N.eqb c 92 then u16 "\\" ++ quoteBody s'
    else if N.eqb c 8 then u16 "\b" ++ quoteBody s'
    else if N.eqb c 9 then u16 "\t" ++ quoteBody s'
    else if N.eqb c 10 then u16 "\n" ++ quoteBody s'
    else if N.eqb c 12 then u16 "\f" ++ quoteBody s'
    else if N.eqb c 13 then u16 "\r" ++ quoteBody s'
    else if (c <? 32)%N then unicodeEscape c ++ quoteBody s'
    else if Sha256.isHighSurrogate c then
      match s' with
      | d :: s'' =>
        if Sha256.isLowSurrogate d then c :: d :: quoteBody s''
        else unicodeEscape c ++ quoteBody s'
      | [] => unicodeEscape c
      end
    else if Sha256.isLowSurrogate c then unicodeEscape c ++ quoteBody s'
    else c :: quoteBody s'
  end.

Definition quote (s : jsstring) : jsstring := 34%N :: quoteBody s ++ [34%N].

Definition integer (n : Z) : jsstring :=
  (if n <? 0 then u16 "-" else []) ++ natToString (Z.to_nat (Z.abs n)).

Fixpoint joinWith (sep : jsstring) (l : list jsstring) : jsstring :=
  match l with
  | [] => []
  | [x] => x
  | x :: l' => x ++ sep ++ joinWith sep l'
  end.

Definition newline (pretty : bool) (depth : nat) : jsstring :=
  if pretty then 10%N :: repeat 32%N (2 * depth) else [].

Definition bracket (pretty : bool) (depth : nat) (open close : N)
    (items : list jsstring) : jsstring :=
  match items with
  | [] => [open; close]
  | _ =>
    open :: newline pretty (S depth)
    ++ joinWith (44%N :: newline pretty (S depth)) items
    ++ newline pretty depth ++ [close]
  end.

Fixpoint stringifyAt (pretty : bool) (depth : nat) (v : value) : jsstring :=
  match v with
  | VNull => u16 "null"
  | VBool true => u16 "true"
  | VBool false => u16 "false"
  | VNum n => integer n
  | VStr s => quote s
  | VArr elems _ =>
    bracket pretty depth 91 93
      ((fix items (l : list value) : list jsstring :=
          match l with
          | [] => []
          | x :: l' => stringifyAt pretty (S depth) x :: items l'
          end) elems)
  | VObj props =>
    bracket pretty depth 123 125
      ((fix entries (l : list (jsstring * value)) : list jsstring :=
          match l with
          | [] => []
          | (k, x) :: l' =>
            (quote k ++ u16 ":" ++ (if pretty then [32%N] else [])
             ++ stringifyAt pretty (S depth) x) :: entries l'
          end) props)
  end.

Definition dirname (file : jsstring) : jsstring :=
  match indexOf (rev file) (u16 "/") with
  | Some i =>
    match take (length file - i - 1) file with
    | [] => u16 "/"
    | dir => dir
    end
  | None => u16 "."
  end.

(** The runtime with [globals] as its global object, whose clock reads the
    same instant every time. *)
Definition host (globals : list (jsstring * value)) : Host :=
  {| JSON_parse := whole false [];
     JSON_stringify := fun pretty v => stringifyAt pretty 0 v;
     Function_call := fun text =>
       match whole true globals text with
       | inl v => EvalReturn v
       | inr message => EvalThrow message
       end;
     isoTime := fun _ => u16 "2024-01-05T06:00:00.000Z";
     path_dirname := dirname;
     templatePath := u16 "/app/data/_template.json" |}.

End Node.

(** ** Sample runs *)

Module Samples.

Definition argv : list jsstring :=
  [ u16 "node"; u16 "scripts/parse_fact.js"; u16 "--region"; u16 "kyiv";
    u16 "--in"; u16 "outputs/kyiv.html"; u16 "--out"; u16 "data/kyiv.json" ].

(** A page that carries a fact and no preset. *)
Definition page : jsstring :=
  dq "<script>DisconSchedule.fact = {'a':1}</script>".

Definition withPage : world :=
  World {[ u16 "outputs/kyiv.html" := File page ]} 0 [] [].

(** A page whose fact names a property of the process. *)
Definition pidPage : jsstring :=
  u16 "<script>DisconSchedule.fact = {pid: process.pid}</script>".

Definition withPidPage : world :=
  World {[ u16 "outputs/kyiv.html" := File pidPage ]} 0 [] [].

(** A global object in which [process.pid] is the given number. *)
Definition globalsWithPid (pid : Z) : list (jsstring * value) :=
  [ (u16 "process", VObj [ (u16 "pid", VNum pid) ]) ].

(** The paths, the sort and the renderers for sample batches: paths are
    joined with a slash, groups are sorted by major and minor number, and
    every render succeeds. *)

Definition lastSegment (p : jsstring) : jsstring :=
  match indexOf (rev p) (u16 "/") with
  | Some i => drop (length p - i) p
  | None => p
  end.

Definition stem (p : jsstring) : jsstring :=
  let b := lastSegment p in
  if endsWith b (u16 ".json") then take (length b - 5) b else b.

(** Major and minor number of a group key. *)
Definition groupNumber (k : jsstring) : Z * Z :=
  let (major, rest) := takeWhile isDigit (drop 3 k) in
  let (minor, _) := takeWhile isDigit (drop 1 rest) in
  (Node.digitsValue major, Node.digitsValue minor).

Definition groupLe (a b : jsstring) : bool :=
  let (a1, a2) := groupNumber a in
  let (b1, b2) := groupNumber b in
  (a1 <? b1) || (a1 =? b1) && (a2 <=? b2).

Fixpoint insertGroup (k : jsstring) (l : list jsstring) : list jsstring :=
  match l with
  | [] => [k]
  | x :: l' => if groupLe k x then k :: l else x :: insertGroup k l'
  end.

Definition sortByNumber (l : list jsstring) : list jsstring :=
  fold_right insertGroup [] l.

Definition renderer : BatchRender.Renderer :=
  {| BatchRender.path_join := fun a b => a ++ u16 "/" ++ b;
     BatchRender.path_basename := lastSegment;
     BatchRender.path_stem := stem;
     BatchRender.path_relative := fun p => p;
     BatchRender.dataDir := u16 "data";
     BatchRender.imagesDir := u16 "images";
     BatchRender.templatePathOf := fun t =>
       match t with
       | BatchRender.Full => u16 "templates/html/full-template.html"
       | BatchRender.Emergency => u16 "templates/html/emergency-template.html"
       | BatchRender.Week => u16 "templates/html/week-template.html"
       | BatchRender.Groups => u16 "templates/html/groups-template.html"
       | BatchRender.Summary => u16 "templates/html/summary-item.html"
       end;
     BatchRender.templateHtml := u16 "scripts/full-template.html";
     BatchRender.rendererScript := u16 "scripts/render_png.mjs";
     BatchRender.sortGroups := sortByNumber;
     BatchRender.renderPage := fun _ => None;
     BatchRender.runRenderer := fun _ _ _ => inl (Some 0) |}.

Definition lightTheme : BatchRender.config :=
  BatchRender.Config (u16 "light") (u16 "NaN") BatchRender.NoFilter [].

Definition onlyOdesa : BatchRender.config :=
  BatchRender.Config (u16 "light") (u16 "NaN")
    (BatchRender.Only (u16 "odesa")) [].

(** A record with two groups under [preset.data]. *)
Definition twoGroups : jsstring :=
  dq "{'regionId':'kyiv','fact':{'a':1},'preset':{'data':{'GPV1.2':[],'GPV1.1':[]}}}".

(** A record whose group is a key of [preset] itself. *)
Definition groupInPreset : jsstring :=
  dq "{'regionId':'kyiv','fact':{'a':1},'preset':{'GPV1.1':[]}}".

(** A record whose fact is the empty string. *)
Definition emptyFact : jsstring :=
  dq "{'regionId':'kyiv','fact':'','preset':{'data':{'GPV1.1':[]}}}".

Definition withData (text : jsstring) : world :=
  World {[ u16 "data/kyiv.json" := File text ]} 0 [] [].

End Samples.

(* ================================================================== *)

(** ** What a run of the extraction script does and leaves alone *)

Module RunObservations.
Import ParseFact Observations.

Section WithHost.
Context `{Host}.


(** The preset [main] goes on with: [null] where none is extracted or the
    one extracted is refused by both ways of parsing. *)
Definition presetValue (html : jsstring) : value :=
  match Extractor.extractDisconObject html (u16 "preset") with
  | Extractor.ExtError _ => VNull
  | Extractor.ExtOk pe =>
    match parsedValue (Extractor.jsonLike pe) with
    | Some v => v
    | None => VNull
    end
  end.


End WithHost.

(** A computation that, however it ends, leaves the path [f] as it finds
    it, or a directory where there was nothing. *)
Definition keeps {A} (f : jsstring) (m : M A) : Prop :=
  forall w, keptOrMade (files w !! f) (files (m w).2 !! f).

(** A computation that hands no text to the [Function] constructor. *)
Definition quiet {A} (m : M A) : Prop :=
  forall w, evals (m w).2 = evals w.




End RunObservations.

(** Sample stores for runs over what an earlier run left. *)
Module RunSamples.











End RunSamples.

(** ** Group Normalizer ([extractGroupsWithIso] of parse_fact.js)

    The function is total on decoded data but for one thing: a start or
    an end that is an object with a property of its own named [toString]
    cannot be turned into text, and the [TypeError] of that leaves the
    function. A result of [None] stands for it. *)

Module GroupNormalizer.
Import TimeNormalizer.

Definition isArray (v : value) : bool :=
  match v with VArr _ _ => true | _ => false end.

(** [x && typeof x === 'object' && !Array.isArray(x)] *)
Definition isObject (x : value) : bool :=
  truthy x && typeofObject x && negb (isArray x).

(** The characters the class [[A-ZА-Я]] accepts under the flag [i]: those
    whose upper case is in it, which are the Latin letters of either
    case, the Cyrillic letters from U+0410 to U+044F, and the variant
    forms U+1C80 to U+1C86, whose upper case is one of them. *)
Definition isGroupLetter (c : N) : bool :=
  ((65 <=? c) && (c <=? 90) || (97 <=? c) && (c <=? 122)
   || (1040 <=? c) && (c <=? 1103) || (7296 <=? c) && (c <=? 7302))%N.

(** [/^[A-ZА-Я]{2,}\d+\.\d+$/i] *)
Definition isGroupKey (k : jsstring) : bool :=
  match takeWhile isGroupLetter k with
  | (_ :: _ :: _, rest) =>
    match takeWhile isDigit rest with
    | (_ :: _, 46%N :: rest') =>
      match takeWhile isDigit rest' with
      | (_ :: _, []) => true
      | _ => false
      end
    | _ => false
    end
  | _ => false
  end.

(** [/^\d{1,2}:\d{2}$/] *)
Definition isTime (s : jsstring) : bool :=
  match takeWhile isDigit s with
  | ([_], 58%N :: rest) | ([_; _], 58%N :: rest) =>
    match rest with
    | [a; b] => isDigit a && isDigit b
    | _ => false
    end
  | _ => false
  end.

Definition has (k : jsstring) (props : list (jsstring * value)) : bool :=
  match lookupProp k props with Some _ => true | None => false end.

(** [String(v)]. No decoded value is a function, so an object with a
    [toString] of its own has no way to a primitive and the conversion
    throws; an array with a [join] of its own is printed as any object
    is; in the text of an array [null] is the empty string. *)
Fixpoint toString (v : value) : option jsstring :=
  match v with
  | VNull => Some (u16 "null")
  | VBool true => Some (u16 "true")
  | VBool false => Some (u16 "false")
  | VNum n => Some (numberToString n)
  | VStr s => Some s
  | VArr elems props =>
    if has (u16 "toString") props then None
    else if has (u16 "join") props then Some (u16 "[object Array]")
    else
      (fix join (l : list value) : option jsstring :=
         match l with
         | [] => Some []
         | x :: l' =>
           match match x with VNull => Some [] | _ => toString x end with
           | None => None
           | Some a =>
             match l' with
             | [] => Some a
             | _ =>
               match join l' with
               | Some b => Some (a ++ u16 "," ++ b)
               | None => None
               end
             end
           end
         end) elems
  | VObj props =>
    if has (u16 "toString") props then None
    else Some (u16 "[object Object]")
  end.

(** [v.length === n] for [v] other than [null] *)
Definition lengthIs (v : value) (n : nat) : bool :=
  match v with
  | VStr s => Nat.eqb (length s) n
  | VArr elems _ => Nat.eqb (length elems) n
  | VObj props =>
    match lookupProp (u16 "length") props with
    | Some (VNum k) => k =? Z.of_nat n
    | _ => false
    end
  | _ => false
  end.

(** [entry.a || entry.b || ... || null] *)
Definition firstOf (entry : value) (names : list jsstring) : value :=
  fold_right (fun k rest => orElse (getProp entry k) rest) VNull names.

(** [timeRe.test(v)] *)
Definition testTime (v : value) : option bool := isTime <$> toString v.

(** [if (v.length === 4) v = '0' + v] *)
Definition padTime (v : value) : option value :=
  if lengthIs v 4 then (fun s => VStr (48%N :: s)) <$> toString v
  else Some v.

Section WithZones.
Context `{Zones}.

(** What the [try] block makes of a date, a start and an end: the object
    of the three texts, or nothing where a conversion throws. *)
Definition isoTuple (date start end_ : value) : option value :=
  match toString date, toString start with
  | Some d, Some s =>
    match toKyivIso d s with
    | Some startISO =>
      match toString end_ with
      | Some e =>
        match toKyivIso d e with
        | Some endISO =>
          Some (VObj [ (u16 "date", VStr d);
                       (u16 "startLocal", VStr startISO);
                       (u16 "endLocal", VStr endISO) ])
        | None => None
        end
      | None => None
      end
    | None => None
    end
  | _, _ => None
  end.

(** One turn of the loop over the entries of a group: what is pushed to
    [items]. *)
Definition normalizeEntry (entry : value) : option value :=
  if isObject entry then
    let date := firstOf entry [u16 "date"; u16 "day"; u16 "d"] in
    let start :=
      firstOf entry [u16 "start"; u16 "from"; u16 "begin"; u16 "s"] in
    let end_ := firstOf entry [u16 "end"; u16 "to"; u16 "finish"; u16 "e"] in
    if truthy date && truthy start && truthy end_ then
      startIsTime ← testTime start;
      if (startIsTime : bool) then
        endIsTime ← testTime end_;
        if (endIsTime : bool) then
          start ← padTime start;
          end_ ← padTime end_;
          Some (match isoTuple date start end_ with
                | Some tuple => tuple
                | None => entry
                end)
        else Some entry
      else Some entry
    else Some entry
  else Some entry.

(** What is stored for a group: the value itself unless it is an array,
    or else the array of what its entries are normalized to. *)
Definition groupValue (v : value) : option value :=
  match v with
  | VArr elems _ => (fun items => VArr items []) <$> mapM normalizeEntry elems
  | _ => Some v
  end.

(** The loop over the keys; [k] is one of the keys of [data], so
    [data[k]] is there. *)
Fixpoint collect (data : value) (keys : list jsstring)
    (out : list (jsstring * value)) : option (list (jsstring * value)) :=
  match keys with
  | [] => Some out
  | k :: rest =>
    match getProp data k with
    | Some v =>
      if negb (isGroupKey k) then collect data rest out
      else
        stored ← groupValue v;
        collect data rest (assignProp k stored out)
    | None => collect data rest out
    end
  end.

Definition extractGroupsWithIso (data : value) : option value :=
  if negb (isObject data) then Some VNull
  else
    out ← collect data (BatchRender.objectKeys data) [];
    Some (match out with [] => VNull | _ => VObj out end).

End WithZones.

(** The object the normalizer makes of an entry it can read. *)
Definition isIsoTuple (v : value) : Prop :=
  exists date startLocal endLocal,
    v = VObj [ (u16 "date", VStr date);
               (u16 "startLocal", VStr startLocal);
               (u16 "endLocal", VStr endLocal) ].

(** A time of four characters with a zero put before it. *)
Definition padded (s : jsstring) : jsstring :=
  if Nat.eqb (length s) 4 then 48%N :: s else s.

(** A fact with a group of two entries, a note and a group that is no
    array. *)
Definition sampleEntry : value :=
  VObj [ (u16 "day", VStr (u16 "2024-01-05"));
         (u16 "from", VStr (u16 "8:00"));
         (u16 "to", VStr (u16 "12:30")) ].

Definition sampleGroups : list (jsstring * value) :=
  [ (u16 "GPV1.1", VArr [ sampleEntry; VStr (u16 "raw") ] []);
    (u16 "note", VStr (u16 "x"));
    (u16 "GPV2.1", VStr (u16 "off")) ].

Definition sampleNormalized : list (jsstring * value) :=
  [ (u16 "GPV1.1",
     VArr [ VObj [ (u16 "date", VStr (u16 "2024-01-05"));
                   (u16 "startLocal", VStr (u16 "2024-01-05T06:00:00+02:00"));
                   (u16 "endLocal", VStr (u16 "2024-01-05T10:30:00+02:00")) ];
            VStr (u16 "raw") ] []);
    (u16 "GPV2.1", VStr (u16 "off")) ].

End GroupNormalizer.

(** ** The command line of the renderers ([parseArgs] of batch_render.mjs
    and of render_png.mjs)

    Both versions of the batch script and the single-image renderer read
    their command line with the same loop: a word that starts with two
    dashes names an option, and the word after it is its value unless it
    is empty, starts with two dashes itself, or is not there. *)

Module CommandLine.

(** What an option is set to: [true], or the word that follows it. *)
Inductive argValue :=
| Flag
| Value (word : jsstring).

Fixpoint lookupArg (k : jsstring) (args : list (jsstring * argValue))
  : option argValue :=
  match args with
  | [] => None
  | (k', v) :: args' => if streq k k' then Some v else lookupArg k args'
  end.

Fixpoint assignArg (k : jsstring) (v : argValue)
    (args : list (jsstring * argValue)) : list (jsstring * argValue) :=
  match args with
  | [] => [(k, v)]
  | (k', v') :: args' =>
    if streq k k' then (k, v) :: args' else (k', v') :: assignArg k v args'
  end.

(** [args[k] = v]: an assignment to [__proto__] of [true] or of a string
    goes to the setter of the prototype, which drops it. *)
Definition setArg (k : jsstring) (v : argValue)
    (args : list (jsstring * argValue)) : list (jsstring * argValue) :=
  if streq k (u16 "__proto__") then args else assignArg k v args.

(** [argv[i + 1] && !argv[i + 1].startsWith('--')] *)
Definition isValue (next : jsstring) : bool :=
  match next with
  | [] => false
  | _ => negb (startsWith next (u16 "--"))
  end.

(** The loop from index [i] on. *)
Fixpoint parseArgsFrom (rest : list jsstring)
    (args : list (jsstring * argValue)) : list (jsstring * argValue) :=
  match rest with
  | [] => args
  | a :: rest' =>
    if negb (startsWith a (u16 "--")) then parseArgsFrom rest' args
    else
      let k := drop 2 a in
      match rest' with
      | next :: after =>
        if isValue next then parseArgsFrom after (setArg k (Value next) args)
        else parseArgsFrom rest' (setArg k Flag args)
      | [] => setArg k Flag args
      end
  end.

Definition parseArgs (argv : list jsstring) : list (jsstring * argValue) :=
  parseArgsFrom (drop 2 argv) [].

(** [(args.theme === 'dark') ? 'dark' : 'light'] *)
Definition themeOf (args : list (jsstring * argValue)) : jsstring :=
  match lookupArg (u16 "theme") args with
  | Some (Value t) => if streq t (u16 "dark") then u16 "dark" else u16 "light"
  | _ => u16 "light"
  end.



Section WithHost.
Context `{Host} `{BatchRender.Renderer}.



(** The command line [runRenderer] starts the single-image renderer with;
    [scale] is the text of the scale where one is given that is finite
    and positive. Within [runRenderer] the name [args] is this array, so
    that [args.max] and [args.quality] are [undefined] and [--max] is
    never added. *)
Definition rendererArgs (theme : jsstring) (scale : option jsstring)
    (jsonPath gpvKey outPath : jsstring) : list jsstring :=
  [ BatchRender.rendererScript; u16 "--html"; BatchRender.templateHtml;
    u16 "--json"; jsonPath; u16 "--gpv"; gpvKey; u16 "--out"; outPath ]
  ++ (if streq theme (u16 "dark") then [u16 "--theme"; u16 "dark"] else [])
  ++ match scale with
     | Some text => [u16 "--scale"; text]
     | None => []
     end.

(** [process.argv] of the child: the executable, then the arguments. *)
Definition rendererArgv (execPath theme : jsstring) (scale : option jsstring)
    (jsonPath gpvKey outPath : jsstring) : list jsstring :=
  execPath :: rendererArgs theme scale jsonPath gpvKey outPath.

End WithHost.

(** The option [k] is the word at index [i] of the command line, past the
    first two words. *)
Definition namedAt (argv : list jsstring) (k : jsstring) (i : nat) : Prop :=
  (2 <= i)%nat /\ argv !! i = Some (u16 "--" ++ k).

End CommandLine.

(** ** What a batch prints *)

Module BatchLines.
Import BatchRender.

Section WithHost.
Context `{Host} `{Renderer}.


(** The lines of the check of the templates: one for each template that
    is not there, in the order of the check. *)
Definition missingLines (fs : gmap (list N) node) : list jsstring :=
  List.map
    (fun nt => u16 "[ERROR] HTML template not found (" ++ fst nt ++ u16 "): "
               ++ templatePathOf (snd nt))
    (List.filter
       (fun nt => negb (bool_decide (is_Some (fs !! templatePathOf (snd nt)))))
       templateNames).

End WithHost.


End BatchLines.

(** Sample stores and renderers for whole batches. *)
Module BatchSamples.



(** A project without the week template and the summary template. *)
Definition twoMissing : world :=
  World (list_to_map
           (List.map (fun p => (p, File []))
              [ u16 "templates/html/full-template.html";
                u16 "templates/html/emergency-template.html";
                u16 "templates/html/groups-template.html" ]))
        0 [] [].







End BatchSamples.

(** The characters of the body of an image name: digits, small Latin
    letters and the dash. *)
Module FileNames.

Definition isNameChar (c : N) : bool :=
  (isDigit c || (97 <=? c) && (c <=? 122) || (c =? 45))%N.

End FileNames.

(** ** Page Renderer ([renderPage] of lib/renderer.mjs)

    The function drives a browser: it opens a context and a page, hands
    the page the decoded data file, opens the template, waits for the
    blocks of the template to be filled, measures the container, takes
    the image of it, and closes the page and the context whatever became
    of the rest. What is kept of a run is the list of the calls it makes
    on the browser, in their order, and what it resolves or rejects
    with. *)

Module PageRenderer.

Inductive call :=
| NewContext (deviceScaleFactor : QArith_base.Q)
| NewPage
| AddInitScript (data : value) (gpv : option jsstring)
| Goto (url : jsstring) (timeout : Z)
| Query (selector : jsstring)
| WaitForSelector (selector : jsstring) (timeout : Z)
| BoundingBox
| Screenshot (path : jsstring)
| ClosePage
| CloseContext.

(** What the browser answers. A call that resolves with nothing answers
    [None] where it resolves and the message of its error where it
    rejects; [page.$] answers whether there is such an element;
    [boundingBox] answers the width and the height of the box, or [null];
    [intervalsFirst] tells which of the two waits of the summary settles
    first. *)
Record browser := {
  newContext : option jsstring;
  newPage : option jsstring;
  addInitScript : option jsstring;
  goto : jsstring -> Z -> option jsstring;
  query : jsstring -> bool + jsstring;
  waitForSelector : jsstring -> Z -> option jsstring;
  intervalsFirst : bool;
  boundingBox : option (QArith_base.Q * QArith_base.Q) + jsstring;
  screenshot : jsstring -> option jsstring;
  closePage : option jsstring;
  closeContext : option jsstring
}.

(** The arguments of [renderPage] but for the browser and the root of
    the project, which is under [path_relative]. *)
Record request := {
  baseURL : jsstring;
  htmlPath : jsstring;
  jsonPath : jsstring;
  outPath : jsstring;
  gpvKey : option jsstring;
  dayArg : option jsstring;
  theme : jsstring;
  deviceScaleFactor : QArith_base.Q;
  timeoutMs : option Z
}.

(** An asynchronous computation: what it resolves with or the message it
    rejects with, and the calls it has made. *)
Definition P (A : Type) : Type := (A + jsstring) * list call.

Definition resolve {A} (a : A) : P A := (inl a, []).

Definition reject {A} (message : jsstring) : P A := (inr message, []).

Definition andThen {A B} (m : P A) (k : A -> P B) : P B :=
  match m with
  | (inl a, made) => let (r, made') := k a in (r, made ++ made')
  | (inr message, made) => (inr message, made)
  end.

#[export] Instance P_ret : MRet P := @resolve.
#[export] Instance P_bind : MBind P := fun A B k m => andThen m k.

(** [await] of a call that resolves with nothing, and of one that
    resolves with a value. *)
Definition await (c : call) (answer : option jsstring) : P unit :=
  (match answer with None => inl tt | Some message => inr message end, [c]).

Definition awaitValue {A} (c : call) (answer : A + jsstring) : P A :=
  (answer, [c]).

(** [try { body } finally { cleanup }] *)
Definition finally {A} (body : P A) (cleanup : P unit) : P A :=
  match body, cleanup with
  | (r, made), (inl _, made') => (r, made ++ made')
  | (_, made), (inr message, made') => (inr message, made ++ made')
  end.

(** [readFile(file, 'utf8')] of node:fs/promises *)
Definition readFile (fs : gmap (list N) node) (file : jsstring) : P jsstring :=
  match fs !! file with
  | Some (File content) => resolve content
  | Some Dir => reject (u16 "EISDIR: illegal operation on a directory, read")
  | None =>
    reject (u16 "ENOENT: no such file or directory, open '" ++ file
            ++ u16 "'")
  end.

(** [parts.join(sep)] *)
Fixpoint join (sep : jsstring) (parts : list jsstring) : jsstring :=
  match parts with
  | [] => []
  | [part] => part
  | part :: rest => part ++ sep ++ join sep rest
  end.

(** [Math.round]: the nearest integer, the greater of two that are as
    near. *)
Definition Math_round (x : QArith_base.Q) : Z :=
  Qround.Qfloor (QArith_base.Qplus x (QArith_base.Qmake 1 2)).

(** [e?.message || e] of a [SyntaxError] *)
Definition messageOf (message : jsstring) : jsstring :=
  match message with
  | [] => u16 "SyntaxError"
  | _ => message
  end.

Definition matrixCell : jsstring :=
  u16 "#matrix tbody tr:last-child td:last-child".
Definition todayCell : jsstring := u16 "#today tbody tr td:last-child".
Definition summaryIntervals : jsstring := u16 ".summary-intervals > div".
Definition onBadge : jsstring := u16 ".status-badge.badge-on".

Section WithHost.
Context `{Host} `{BatchRender.Renderer}.

(** [path.sep], and the browser under the function. *)
Variable sep : N.
Variable b : browser.

Definition timeoutOf (q : request) : Z := default 30000 (timeoutMs q).

Definition urlToOpen (q : request) : jsstring :=
  let relHtml :=
    join (u16 "/")
      (TimeNormalizer.split sep (BatchRender.path_relative (htmlPath q))) in
  baseURL q ++ u16 "/" ++ relHtml ++ u16 "?theme=" ++ theme q
  ++ match dayArg q with
     | Some (c :: day) => u16 "&day=" ++ c :: day
     | _ => []
     end.

(** The two waits of the summary are started together and their errors
    are caught; the one that settles first decides. *)
Definition summaryRace (timeout : Z) : P bool :=
  let intervals := waitForSelector b summaryIntervals timeout in
  let badge := waitForSelector b onBadge timeout in
  (inl (if intervalsFirst b then bool_decide (intervals = None)
        else bool_decide (badge = None)),
   [WaitForSelector summaryIntervals timeout; WaitForSelector onBadge timeout]).

(** The block under [try]. *)
Definition renderBody (fs : gmap (list N) node) (q : request) : P (Z * Z) :=
  jsonBuf ← readFile fs (jsonPath q);
  scheduleData ←
    match JSON_parse jsonBuf with
    | inl data => resolve data
    | inr message =>
      reject (u16 "Failed to parse JSON: " ++ messageOf message)
    end;
  await (AddInitScript scheduleData (gpvKey q)) (addInitScript b);;
  let url := urlToOpen q in
  let timeout := Z.max (timeoutOf q) 10000 in
  await (Goto url timeout) (goto b url timeout);;
  hasMatrix ← awaitValue (Query (u16 "#matrix")) (query b (u16 "#matrix"));
  hasToday ← awaitValue (Query (u16 "#today")) (query b (u16 "#today"));
  hasSummary ←
    awaitValue (Query (u16 ".summary-card")) (query b (u16 ".summary-card"));
  (if (hasMatrix : bool) then
     await (WaitForSelector matrixCell (timeoutOf q))
       (waitForSelector b matrixCell (timeoutOf q))
   else resolve tt);;
  (if (hasToday : bool) then
     await (WaitForSelector todayCell (timeoutOf q))
       (waitForSelector b todayCell (timeoutOf q))
   else resolve tt);;
  (if (hasSummary : bool) then
     winner ← summaryRace (timeoutOf q);
     if (winner : bool) then resolve tt
     else reject (u16 "Summary template did not render intervals or ON badge in time")
   else resolve tt);;
  (if negb hasMatrix && negb hasToday && negb hasSummary then
     reject (u16 "Template did not render #matrix nor #today nor summary-card")
   else resolve tt);;
  bbox ← awaitValue BoundingBox (boundingBox b);
  match bbox with
  | None => reject (u16 "Failed to measure .container bounding box")
  | Some (width, height) =>
    await (Screenshot (outPath q)) (screenshot b (outPath q));;
    resolve (Math_round width, Math_round height)
  end.

Definition renderPage (fs : gmap (list N) node) (q : request) : P (Z * Z) :=
  await (NewContext (deviceScaleFactor q)) (newContext b);;
  await NewPage (newPage b);;
  finally (renderBody fs q)
    (await ClosePage (closePage b);;
     await CloseContext (closeContext b)).

End WithHost.

(** The calls between the opening of the page and the closing of it. *)
Definition onOpenPage (c : call) : bool :=
  match c with
  | NewContext _ | NewPage | ClosePage | CloseContext => false
  | _ => true
  end.

(** A computation that makes calls on the open page only. *)
Definition onPage {A} (m : P A) : Prop := forallb onOpenPage m.2 = true.

(** One of the three blocks is on the page. *)
Definition someBlock (b : browser) : Prop :=
  query b (u16 "#matrix") = inl true \/ query b (u16 "#today") = inl true
  \/ query b (u16 ".summary-card") = inl true.

(** A browser in which everything goes well on a page with a matrix, and
    one in which the page has none of the blocks. *)
Definition matrixPage : browser :=
  {| newContext := None; newPage := None; addInitScript := None;
     goto := fun _ _ => None;
     query := fun selector => inl (streq selector (u16 "#matrix"));
     waitForSelector := fun _ _ => None;
     intervalsFirst := true;
     boundingBox := inl (Some (QArith_base.Qmake 1201 2, QArith_base.Qmake 801 4));
     screenshot := fun _ => None;
     closePage := None; closeContext := None |}.

Definition blankPage : browser :=
  {| newContext := None; newPage := None; addInitScript := None;
     goto := fun _ _ => None;
     query := fun _ => inl false;
     waitForSelector := fun _ _ => None;
     intervalsFirst := true;
     boundingBox := inl None;
     screenshot := fun _ => None;
     closePage := None; closeContext := None |}.

Definition sampleRequest : request :=
  {| baseURL := u16 "http://127.0.0.1:8080";
     htmlPath := u16 "templates/html/full-template.html";
     jsonPath := u16 "data/kyiv.json";
     outPath := u16 "images/kyiv/gpv-1-1.png";
     gpvKey := Some (u16 "GPV1.1");
     dayArg := None;
     theme := u16 "light";
     deviceScaleFactor := QArith_base.Qmake 4 1;
     timeoutMs := None |}.

End PageRenderer.

(** * Properties *)
(* ================================================================== *)

Module NodeFacts.
Import Node.

Example parse_strict :
  whole false [] (dq "{ 'a': [1, -20, true], 'b': {'c': null} }")
  = inl (VObj [ (u16 "a", VArr [VNum 1; VNum (-20); VBool true] []);
                (u16 "b", VObj [(u16 "c", VNull)]) ]).
Proof. reflexivity. Qed.

Example parse_strict_unquoted :
  whole false [] (u16 "{a:1}") = inr (u16 "Unexpected token").
Proof. reflexivity. Qed.

Example parse_strict_trailing :
  whole false [] (u16 "[1,]") = inr (u16 "Unexpected token").
Proof. reflexivity. Qed.

Example eval_literal :
  whole true [] (u16 "{a:1, 'b': [2,],}")
  = inl (VObj [ (u16 "a", VNum 1); (u16 "b", VArr [VNum 2] []) ]).
Proof. reflexivity. Qed.

Example stringify_compact :
  stringifyAt false 0
    (VObj [ (u16 "a", VArr [VNum 1; VNum (-20)] []); (u16 "b", VObj []);
            (u16 "c", VStr (dq "x'y")) ])
  = dq "{'a':[1,-20],'b':{},'c':'x\'y'}".
Proof. reflexivity. Qed.

Example stringify_pretty :
  stringifyAt true 0 (VObj [ (u16 "a", VArr [VNum 1] []) ])
  = dq "{" ++ [10%N] ++ dq "  'a': [" ++ [10%N] ++ dq "    1"
    ++ [10%N] ++ dq "  ]" ++ [10%N] ++ dq "}".
Proof. reflexivity. Qed.

End NodeFacts.

Module ValueFacts.

Lemma streq_refl a : streq a a = true.
Proof. induction a as [|x a IH]; simpl; [|rewrite N.eqb_refl]; auto. Qed.

Lemma streq_eq a b : streq a b = true <-> a = b.
Proof.
  split; [|intros ->; apply streq_refl].
  revert b. induction a as [|x a IH]; intros [|y b]; simpl; try easy.
  intros [E1 E2]%andb_true_iff. apply N.eqb_eq in E1. f_equal; auto.
Qed.

Lemma lookupProp_assignProp_eq k v l : lookupProp k (assignProp k v l) = Some v.
Proof.
  induction l as [|[k' v'] l IH]; simpl.
  - rewrite streq_refl. reflexivity.
  - destruct (streq k k') eqn:E; simpl.
    + rewrite streq_refl. reflexivity.
    + rewrite E. exact IH.
Qed.

Lemma lookupProp_assignProp_ne k k' v l :
  streq k k' = false -> lookupProp k (assignProp k' v l) = lookupProp k l.
Proof.
  intros Hne. induction l as [|[k0 v0] l IH]; simpl.
  - rewrite Hne. reflexivity.
  - destruct (streq k' k0) eqn:E; simpl.
    + apply streq_eq in E. subst k0. rewrite Hne. reflexivity.
    + rewrite IH. reflexivity.
Qed.

(** Assigning to a property the value it has changes nothing. *)
Lemma assignProp_same k v l : lookupProp k l = Some v -> assignProp k v l = l.
Proof.
  induction l as [|[k0 v0] l IH]; simpl; [discriminate|].
  destruct (streq k k0) eqn:E.
  - intros [= ->]. apply streq_eq in E. subst. reflexivity.
  - intros Hl. rewrite IH; auto.
Qed.

Lemma getProp_setProp_eq props k v :
  getProp (setProp (VObj props) k v) k = Some v.
Proof. apply lookupProp_assignProp_eq. Qed.

Lemma getProp_setProp_ne props k k' v :
  streq k k' = false ->
  getProp (setProp (VObj props) k' v) k = getProp (VObj props) k.
Proof. apply lookupProp_assignProp_ne. Qed.


Lemma plusOne_at_limit : plusOne (2 ^ 53) = 2 ^ 53.
Proof. reflexivity. Qed.

End ValueFacts.

Module ProcessFacts.
Import Observations.

Lemma run_bind {A B} (m : M A) (k : A -> M B) w :
  (m ≫= k) w
  = match m w with
    | (Return a, w') => k a w'
    | (Throw e, w') => (Throw e, w')
    | (Exit c, w') => (Exit c, w')
    end.
Proof. reflexivity. Qed.


Lemma ret_run {A} (a : A) w : ret a w = (Return a, w).
Proof. reflexivity. Qed.

Lemma run_tryCatch {A} (m : M A) (handler : jsstring -> M A) w :
  tryCatch m handler w
  = match m w with
    | (Throw e, w') => handler e w'
    | r => r
    end.
Proof. reflexivity. Qed.

Lemma existsSync_run file w :
  existsSync file w = (Return (bool_decide (is_Some (files w !! file))), w).
Proof. reflexivity. Qed.

Lemma consoleLine_run line w :
  consoleLine line w = (Return tt, printed line w).
Proof. reflexivity. Qed.

Lemma tmp_neq (file : jsstring) : file ++ u16 ".tmp" <> file.
Proof.
  intros E. apply (f_equal length) in E. rewrite length_app in E.
  simpl in E. lia.
Qed.

(** Making directories turns paths that held nothing into directories
    and leaves every other path as it was. *)
Lemma makeDirs_lookup `{Host} fuel dir fs fs' :
  makeDirs fuel dir fs = inl fs' ->
  forall f, keptOrMade (fs !! f) (fs' !! f).
Proof.
  revert dir fs'. induction fuel as [|fuel IH]; intros dir fs' E f;
    cbn [makeDirs] in E;
    (destruct (fs !! dir) as [[|]|] eqn:Ed; try discriminate E;
     [injection E as <-; left; reflexivity|]);
    cbv zeta in E;
    (destruct (streq (path_dirname dir) dir);
     [injection E as <-; left; reflexivity|]).
  - injection E as <-. destruct (decide (f = dir)) as [->|Hne].
    + right. rewrite lookup_insert_eq. auto.
    + left. rewrite lookup_insert_ne by congruence. reflexivity.
  - destruct (makeDirs fuel (path_dirname dir) fs) as [fs1|e] eqn:E1;
      [|discriminate E].
    injection E as <-. destruct (decide (f = dir)) as [->|Hne].
    + right. rewrite lookup_insert_eq. auto.
    + rewrite lookup_insert_ne by congruence. exact (IH _ _ E1 f).
Qed.

Lemma makeDirs_file `{Host} fuel dir fs text :
  fs !! dir = Some (File text) ->
  makeDirs fuel dir fs
  = inr (u16 "EEXIST: file already exists, mkdir '" ++ dir ++ u16 "'").
Proof. intros E. destruct fuel; cbn [makeDirs]; rewrite E; reflexivity. Qed.

Lemma keptOrMade_trans x y z :
  keptOrMade x y -> keptOrMade y z -> keptOrMade x z.
Proof.
  intros [->|[-> ->]] [->|[E ->]].
  - left. reflexivity.
  - right. auto.
  - right. auto.
  - discriminate E.
Qed.

(** [writeFileAtomic] by what stands in its way. *)
Lemma writeFileAtomic_cases `{Host} file content w :
  ParseFact.writeFileAtomic file content w
  = match makeDirs (length (path_dirname file)) (path_dirname file)
            (files w) with
    | inr message => (Throw message, w)
    | inl fs =>
      match fs !! (file ++ u16 ".tmp") with
      | Some Dir =>
        (Throw (u16 "EISDIR: illegal operation on a directory, open"),
         World fs (ticks w) (console w) (evals w))
      | _ =>
        match fs !! file with
        | Some Dir =>
          (Throw (u16 "EISDIR: illegal operation on a directory, rename"),
           World (<[file ++ u16 ".tmp" := File content]> fs)
                 (ticks w) (console w) (evals w))
        | _ =>
          (Return tt,
           World (<[file := File content]>
                    (delete (file ++ u16 ".tmp")
                            (<[file ++ u16 ".tmp" := File content]> fs)))
                 (ticks w) (console w) (evals w))
        end
      end
    end.
Proof.
  unfold ParseFact.writeFileAtomic. rewrite run_bind. unfold mkdirSync at 1.
  destruct (makeDirs _ _ (files w)) as [fs|message]; [|reflexivity].
  unfold setFiles at 1. cbv beta iota. rewrite run_bind.
  pose proof (tmp_neq file) as Hne.
  unfold writeFileSync. cbn [files].
  destruct (fs !! (file ++ u16 ".tmp")) as [[c0|]|] eqn:Et;
    [|reflexivity|];
    unfold setFiles at 1; cbv beta iota; unfold renameSync; cbn [files];
    rewrite lookup_insert_eq; (rewrite lookup_insert_ne by exact Hne);
    destruct (fs !! file) as [[c1|]|]; reflexivity.
Qed.

Lemma writeFileAtomic_run `{Host} file content w :
  writable w file ->
  ParseFact.writeFileAtomic file content w
  = (Return tt, written file content w).
Proof.
  intros (fs & Hfs & Hf & Ht). rewrite writeFileAtomic_cases.
  unfold written, madeDirs. rewrite Hfs.
  destruct (fs !! (file ++ u16 ".tmp")) as [[|]|]; try congruence;
    destruct (fs !! file) as [[|]|]; congruence.
Qed.








End ProcessFacts.

Module RecordStoreFacts.
Import ParseFact Observations ValueFacts ProcessFacts.

Lemma isoNow_run `{Host} w : isoNow w = (Return (isoTime (ticks w)), tick w).
Proof. reflexivity. Qed.

Lemma loadExisting_run `{Host} file w :
  loadExisting file w = (Return (storedRecord w file), w).
Proof.
  unfold loadExisting, storedRecord. rewrite run_tryCatch, run_bind.
  unfold readFileSync, parseJSON.
  destruct (files w !! file) as [[text|]|]; try reflexivity.
  destruct (JSON_parse text); reflexivity.
Qed.

Lemma attemptOf_setProp_regionId props v :
  attemptOf (setProp (VObj props) (u16 "regionId") v) = attemptOf (VObj props).
Proof.
  unfold attemptOf. rewrite getProp_setProp_ne by reflexivity. reflexivity.
Qed.

(** The base for a first record: the template, or the fallback for it. *)
Lemma loadTemplateBase_run `{Host} regionId w :
  templateIsRecord w ->
  exists t,
    loadTemplateBase regionId w = (Return t, w)
    /\ isRecord t
    /\ (templateFresh w -> attemptOf t = 0).
Proof.
  intros Hrec. unfold loadTemplateBase.
  rewrite run_bind, run_tryCatch, run_bind. unfold readFileSync, parseJSON.
  destruct (files w !! templatePath) as [[text|]|] eqn:Ef.
  - destruct (JSON_parse text) as [t|e] eqn:Ep.
    + destruct (Hrec text t Ef Ep) as [props ->]. cbv beta iota.
      eexists. split; [reflexivity|]. split; [eexists; reflexivity|].
      intros Hfresh. rewrite attemptOf_setProp_regionId.
      apply (Hfresh text _ Ef Ep).
    + cbv beta iota. eexists. split; [reflexivity|].
      split; [eexists; reflexivity|]. reflexivity.
  - cbv beta iota. eexists. split; [reflexivity|].
    split; [eexists; reflexivity|]. reflexivity.
  - cbv beta iota. eexists. split; [reflexivity|].
    split; [eexists; reflexivity|]. reflexivity.
Qed.

(** The update, once its base record is known. *)
Lemma updateStatusOnError_on_base `{Host}
  (existing : value) (regionId upstream : option jsstring)
  (code : Z) (message : jsstring) (w w1 : world)
  (props : list (jsstring * value)) :
  (if truthy existing then ret existing else loadTemplateBase regionId)
    (tick w) = (Return (VObj props), w1) ->
  let base := VObj props in
  exists r,
    updateStatusOnError existing regionId upstream code message w
    = (Return r, w1)
    /\ isRecord r
    /\ (forall k, streq k (u16 "lastUpdateStatus") = false ->
                  streq k (u16 "meta") = false ->
                  getProp r k = getProp base k)
    /\ getProp r (u16 "lastUpdateStatus")
       = Some (errorStatus code message (isoTime (ticks w))
                 (plusOne (attemptOf base)))
    /\ getProp r (u16 "meta")
       = match getProp base (u16 "meta") with
         | Some meta =>
           if truthy meta && typeofObject meta then
             Some (setProp meta (u16 "schemaVersion")
                     (orElse (getProp meta (u16 "schemaVersion"))
                             (VStr (u16 "1.0.0"))))
           else Some meta
         | None => None
         end.
Proof.
  intros Hbase base.
  set (st := errorStatus code message (isoTime (ticks w))
               (plusOne (attemptOf base))).
  set (base1 := setProp base (u16 "lastUpdateStatus") st).
  assert (Hmeta : getProp base1 (u16 "meta") = getProp base (u16 "meta"))
    by (apply getProp_setProp_ne; reflexivity).
  assert (Hst : getProp base1 (u16 "lastUpdateStatus") = Some st)
    by apply getProp_setProp_eq.
  assert (Hother : forall k, streq k (u16 "lastUpdateStatus") = false ->
                             getProp base1 k = getProp base k)
    by (intros k Hk; apply getProp_setProp_ne; exact Hk).
  unfold updateStatusOnError. rewrite run_bind, isoNow_run.
  cbv beta iota. rewrite run_bind, Hbase. cbv beta iota.
  fold base. fold st. fold base1. rewrite Hmeta.
  destruct (getProp base (u16 "meta")) as [meta|] eqn:Em.
  - destruct (truthy meta && typeofObject meta) eqn:Et.
    + eexists. split; [reflexivity|].
      split; [eexists; reflexivity|]. split; [|split].
      * intros k H1 H2. change (getProp (setProp base1 (u16 "meta") ?v) k)
          with (getProp (setProp (VObj (assignProp (u16 "lastUpdateStatus")
                                          st props)) (u16 "meta") v) k).
        rewrite getProp_setProp_ne by exact H2. apply Hother, H1.
      * change (setProp base1 (u16 "meta") ?v)
          with (setProp (VObj (assignProp (u16 "lastUpdateStatus") st props))
                  (u16 "meta") v).
        rewrite getProp_setProp_ne by reflexivity. exact Hst.
      * apply getProp_setProp_eq.
    + eexists. split; [reflexivity|].
      split; [eexists; reflexivity|]. split; [|split].
      * intros k H1 _. apply Hother, H1.
      * exact Hst.
      * exact Hmeta.
  - eexists. split; [reflexivity|].
    split; [eexists; reflexivity|]. split; [|split].
    + intros k H1 _. apply Hother, H1.
    + exact Hst.
    + exact Hmeta.
Qed.

(** C1 (as amended). Called with an existing record, the error-path update
    returns that record with [fact], [preset], [lastUpdated] and every
    other property than [lastUpdateStatus] and [meta] as they were;
    [lastUpdateStatus] is replaced by the error status with the given code
    and message; and [meta] is left as it was, except that a [meta] object
    without a truthy [schemaVersion] gets [schemaVersion] set to 1.0.0. *)
Theorem updateStatusOnError_frame `{Host}
  (props : list (jsstring * value)) (regionId upstream : option jsstring)
  (code : Z) (message : jsstring) (w : world) :
  let existing := VObj props in
  exists r w',
    updateStatusOnError existing regionId upstream code message w
    = (Return r, w')
    /\ files w' = files w
    /\ getProp r (u16 "fact") = getProp existing (u16 "fact")
    /\ getProp r (u16 "preset") = getProp existing (u16 "preset")
    /\ getProp r (u16 "lastUpdated") = getProp existing (u16 "lastUpdated")
    /\ (forall k, streq k (u16 "lastUpdateStatus") = false ->
                  streq k (u16 "meta") = false ->
                  getProp r k = getProp existing k)
    /\ getProp r (u16 "lastUpdateStatus")
       = Some (errorStatus code message (isoTime (ticks w))
                 (plusOne (attemptOf existing)))
    /\ getProp r (u16 "meta")
       = match getProp existing (u16 "meta") with
         | Some meta =>
           if truthy meta && typeofObject meta then
             Some (setProp meta (u16 "schemaVersion")
                     (orElse (getProp meta (u16 "schemaVersion"))
                             (VStr (u16 "1.0.0"))))
           else Some meta
         | None => None
         end
    /\ (forall meta version,
          getProp existing (u16 "meta") = Some meta ->
          getProp meta (u16 "schemaVersion") = Some version ->
          truthy version = true ->
          getProp r (u16 "meta") = Some meta).
Proof.
  intros existing.
  destruct (updateStatusOnError_on_base existing regionId upstream code
              message w (tick w) props eq_refl)
    as (r & Hr & _ & Hframe & Hst & Hm).
  exists r, (tick w).
  split; [exact Hr|]. split; [reflexivity|].
  split; [apply Hframe; reflexivity|].
  split; [apply Hframe; reflexivity|].
  split; [apply Hframe; reflexivity|].
  split; [exact Hframe|]. split; [exact Hst|]. split; [exact Hm|].
  intros meta version Hmeta' Hv Ht. rewrite Hm.
  fold existing. rewrite Hmeta'.
  destruct (truthy meta && typeofObject meta); [|reflexivity].
  f_equal. unfold orElse. rewrite Hv, Ht.
  destruct meta as [| | | |elems mprops|mprops]; try discriminate;
    cbn [setProp getProp] in *; rewrite assignProp_same; auto.
Qed.

Lemma storedRecord_files `{Host} w w1 file :
  files w1 = files w -> storedRecord w1 file = storedRecord w file.
Proof. unfold storedRecord. intros ->. reflexivity. Qed.

Lemma holdsRecord_files `{Host} w w1 file :
  files w1 = files w -> holdsRecord w file -> holdsRecord w1 file.
Proof.
  unfold holdsRecord. intros E. rewrite (storedRecord_files _ _ _ E). auto.
Qed.

Lemma templateIsRecord_files `{Host} w w1 :
  files w1 = files w -> templateIsRecord w -> templateIsRecord w1.
Proof. unfold templateIsRecord. intros ->. auto. Qed.

Lemma templateFresh_files `{Host} w w1 :
  files w1 = files w -> templateFresh w -> templateFresh w1.
Proof. unfold templateFresh. intros ->. auto. Qed.

Lemma writable_files `{Host} w w1 file :
  files w1 = files w -> writable w file -> writable w1 file.
Proof. unfold writable. intros ->. auto. Qed.




(** The update applied to what the store holds: an error record, counted
    one up from the prior record where the template is fresh. *)
Lemma updateStatusOnError_stored `{Host}
  (existing : value) (regionId upstream : option jsstring)
  (code : Z) (message : jsstring) (w : world) :
  (truthy existing = true -> isRecord existing) ->
  templateIsRecord w ->
  exists r,
    updateStatusOnError existing regionId upstream code message w
    = (Return r, tick w)
    /\ isRecord r
    /\ statusField r (u16 "status") = Some (VStr (u16 "error"))
    /\ statusField r (u16 "ok") = Some (VBool false)
    /\ statusField r (u16 "code") = Some (VNum code)
    /\ statusField r (u16 "message") = Some (VStr message)
    /\ (templateFresh w ->
        statusField r (u16 "attempt")
        = Some (VNum (plusOne (previousAttempt existing)))).
Proof.
  intros Hex Htpl.
  assert (Hbase : exists props,
    (if truthy existing then ret existing else loadTemplateBase regionId)
      (tick w) = (Return (VObj props), tick w)
    /\ (templateFresh w ->
        attemptOf (VObj props) = previousAttempt existing)).
  { unfold previousAttempt. destruct (truthy existing) eqn:Et.
    - destruct (Hex eq_refl) as [props ->]. exists props. split; auto.
    - destruct (loadTemplateBase_run regionId (tick w))
        as (t & Ht & [props ->] & Hfresh).
      { apply (templateIsRecord_files w); auto. }
      exists props. split; [exact Ht|]. intros Hf. apply Hfresh.
      apply (templateFresh_files w); auto. }
  destruct Hbase as (props & Hbase & Hatt).
  destruct (updateStatusOnError_on_base existing regionId upstream code
              message w (tick w) props Hbase)
    as (r & Hr & Hrec & _ & Hst & _).
  exists r. split; [exact Hr|]. split; [exact Hrec|].
  unfold statusField. rewrite Hst.
  repeat (split; [reflexivity|]).
  intros Hf. rewrite (Hatt Hf). reflexivity.
Qed.


(** An error exit of [main] over a store that holds a record or nothing,
    with a template that is a record, where the output can be written. *)
Lemma exitWithError_recorded `{Host} a regionId out code message w :
  holdsRecord w out -> templateIsRecord w -> writable w out ->
  exists r w',
    exitWithError a regionId out code message w = (Exit 0, w')
    /\ files w' !! out = Some (File (JSON_stringify (pretty a) r))
    /\ isRecord r
    /\ statusField r (u16 "status") = Some (VStr (u16 "error"))
    /\ statusField r (u16 "ok") = Some (VBool false)
    /\ statusField r (u16 "code") = Some (VNum code)
    /\ statusField r (u16 "message") = Some (VStr message)
    /\ (templateFresh w ->
        statusField r (u16 "attempt")
        = Some (VNum (plusOne (previousAttempt (storedRecord w out))))).
Proof.
  intros Hst Htpl Hwr.
  destruct (updateStatusOnError_stored (storedRecord w out) (Some regionId)
              None code message w Hst Htpl) as (r & Hr & Hprops).
  exists r, (written out (JSON_stringify (pretty a) r) (tick w)).
  split; [|split; [|exact Hprops]].
  - unfold exitWithError. rewrite run_bind, loadExisting_run.
    cbv beta iota. rewrite run_bind, Hr. cbv beta iota.
    rewrite run_bind, writeFileAtomic_run by exact Hwr. reflexivity.
  - cbn [written files]. apply lookup_insert_eq.
Qed.

(** C1, counterexample. A record whose [meta] has no [schemaVersion] comes
    back with a different [meta]: [lastUpdateStatus] is not the only
    property the update changes. *)
Lemma updateStatusOnError_changes_meta :
  let existing := VObj [ (u16 "fact", VNum 1); (u16 "meta", VObj []) ] in
  exists r w',
    updateStatusOnError (H := Node.host []) existing None None 404
      (u16 "Input not found") w0
    = (Return r, w')
    /\ getProp existing (u16 "meta") = Some (VObj [])
    /\ getProp r (u16 "meta")
       = Some (VObj [ (u16 "schemaVersion", VStr (u16 "1.0.0")) ])
    /\ getProp r (u16 "meta") <> getProp existing (u16 "meta").
Proof.
  eexists. eexists. split; [reflexivity|].
  split; [reflexivity|]. split; [reflexivity|]. discriminate.
Qed.

End RecordStoreFacts.

Module ParserFacts.
Import ParseFact Observations ProcessFacts.

Lemma tryParseObject_run `{Host} text w :
  tryParseObject text w
  = match JSON_parse text with
    | inl v => (Return (Parsed v (u16 "json")), w)
    | inr _ =>
      (match Function_call text with
       | EvalReturn v => Return (Parsed v (u16 "eval"))
       | EvalThrow message =>
         Return (ParseError (u16 "Failed to parse object: " ++ message))
       | EvalExit code => Exit code
       end,
       evaluated text w)
    end.
Proof.
  unfold tryParseObject. destruct (JSON_parse text); [reflexivity|].
  rewrite run_bind. cbv beta iota.
  destruct (Function_call text); reflexivity.
Qed.


End ParserFacts.

Module ScriptFacts.
Import Extractor ParseFact Observations ValueFacts ProcessFacts.
Import RecordStoreFacts ParserFacts.

Lemma main_invoked `{Host} argv regionId inp out :
  invokedWith argv regionId inp out ->
  main argv = mainBody (parseArgs argv) regionId inp out.
Proof.
  intros (Hr & Hi & Ho & Nr & Ni & No). unfold main.
  rewrite Hr, Hi, Ho.
  destruct regionId, inp, out; try contradiction; reflexivity.
Qed.

Lemma mainBody_missing `{Host} a regionId inp out w :
  files w !! inp = None ->
  mainBody a regionId inp out w
  = exitWithError a regionId out 404 (u16 "Input not found: " ++ inp)
      (printed (u16 "[WARN] Input not found: " ++ inp) w).
Proof.
  intros E. unfold mainBody.
  rewrite run_bind, existsSync_run, E. cbv beta iota.
  rewrite bool_decide_eq_false_2 by (intros [x Hx]; discriminate).
  cbn [negb]. rewrite run_bind, consoleLine_run. reflexivity.
Qed.

Lemma mainBody_unreadable `{Host} a regionId inp out w :
  files w !! inp = Some Dir ->
  exists e, mainBody a regionId inp out w = (Throw e, w).
Proof.
  intros E. unfold mainBody.
  rewrite run_bind, existsSync_run, E. cbv beta iota.
  rewrite bool_decide_eq_true_2 by eauto.
  cbn [negb]. rewrite run_bind. unfold readFileSync. rewrite E.
  eexists. reflexivity.
Qed.

Lemma mainBody_noFact `{Host} a regionId inp out w html error :
  files w !! inp = Some (File html) ->
  extractDisconObject html (u16 "fact") = ExtError error ->
  mainBody a regionId inp out w
  = exitWithError a regionId out 422 (error ++ u16 " in " ++ inp)
      (printed (u16 "[WARN] " ++ error ++ u16 " in " ++ inp) w).
Proof.
  intros E Hx. unfold mainBody.
  rewrite run_bind, existsSync_run, E. cbv beta iota.
  rewrite bool_decide_eq_true_2 by eauto.
  cbn [negb]. rewrite run_bind. unfold readFileSync. rewrite E.
  cbv beta iota. rewrite Hx, run_bind, consoleLine_run. reflexivity.
Qed.

Lemma mainBody_unparsed `{Host} a regionId inp out w html factExt e message :
  files w !! inp = Some (File html) ->
  extractDisconObject html (u16 "fact") = ExtOk factExt ->
  JSON_parse (jsonLike factExt) = inr e ->
  Function_call (jsonLike factExt) = EvalThrow message ->
  let error := u16 "Failed to parse object: " ++ message in
  mainBody a regionId inp out w
  = exitWithError a regionId out 422 (error ++ u16 " in " ++ inp)
      (printed (u16 "[WARN] " ++ error ++ u16 " in " ++ inp)
         (evaluated (jsonLike factExt) w)).
Proof.
  intros E Hx Hp Hf error. unfold mainBody.
  rewrite run_bind, existsSync_run, E. cbv beta iota.
  rewrite bool_decide_eq_true_2 by eauto.
  cbn [negb]. rewrite run_bind. unfold readFileSync. rewrite E.
  cbv beta iota. rewrite Hx, run_bind, tryParseObject_run, Hp, Hf.
  cbv beta iota. rewrite run_bind, consoleLine_run. reflexivity.
Qed.

(** The fact that ends the process when it is evaluated. *)
Lemma mainBody_exits `{Host} a regionId inp out w html factExt e code :
  files w !! inp = Some (File html) ->
  extractDisconObject html (u16 "fact") = ExtOk factExt ->
  JSON_parse (jsonLike factExt) = inr e ->
  Function_call (jsonLike factExt) = EvalExit code ->
  mainBody a regionId inp out w
  = (Exit code, evaluated (jsonLike factExt) w).
Proof.
  intros E Hx Hp Hf. unfold mainBody.
  rewrite run_bind, existsSync_run, E. cbv beta iota.
  rewrite bool_decide_eq_true_2 by eauto.
  cbn [negb]. rewrite run_bind. unfold readFileSync. rewrite E.
  cbv beta iota. rewrite Hx, run_bind, tryParseObject_run, Hp, Hf.
  reflexivity.
Qed.

(** The optional preset: a value or [null], with nothing written, unless
    the evaluation of the preset ends the process. *)
Lemma preset_run `{Host} (html inp : jsstring) w :
  exists r,
    (match extractDisconObject html (u16 "preset") with
     | ExtOk pe =>
       pp ← tryParseObject (jsonLike pe);
       match pp with
       | ParseError error =>
         consoleLine (u16 "[WARN] " ++ error ++ u16 " (preset) in " ++ inp);;
         ret VNull
       | Parsed v _ => ret v
       end
     | ExtError _ => ret VNull
     end) w = r
    /\ ((exists pv wb,
           r = (Return pv, wb) /\ files wb = files w /\ ticks wb = ticks w)
        \/ (exists pe e code,
              extractDisconObject html (u16 "preset") = ExtOk pe
              /\ JSON_parse (jsonLike pe) = inr e
              /\ Function_call (jsonLike pe) = EvalExit code
              /\ r = (Exit code, evaluated (jsonLike pe) w))).
Proof.
  eexists. split; [reflexivity|].
  destruct (extractDisconObject html (u16 "preset")) as [error|pe].
  - left. exists VNull, w. auto.
  - rewrite run_bind, tryParseObject_run.
    destruct (JSON_parse (jsonLike pe)) as [v|e] eqn:Ep.
    + left. exists v, w. auto.
    + cbv beta iota.
      destruct (Function_call (jsonLike pe)) as [v|m|code] eqn:Ef.
      * left. eexists. eexists. split; [reflexivity|]. auto.
      * left. rewrite run_bind, consoleLine_run.
        eexists. eexists. split; [reflexivity|]. auto.
      * right. exists pe, e, code. auto.
Qed.

(** The record as [main] puts it together. *)
Lemma parsedRecord_built regionId lastUpdated fact preset now attempt hash :
  let built :=
    VObj [ (u16 "regionId", VStr regionId);
           (u16 "lastUpdated", VStr lastUpdated);
           (u16 "fact", fact);
           (u16 "preset", preset);
           (u16 "lastUpdateStatus",
            VObj [ (u16 "status", VStr (u16 "parsed"));
                   (u16 "ok", VBool true);
                   (u16 "code", VNum 200);
                   (u16 "message", VNull);
                   (u16 "at", VStr lastUpdated);
                   (u16 "attempt", VNum 1) ]);
           (u16 "meta",
            VObj [ (u16 "schemaVersion", VStr (u16 "1.0.0"));
                   (u16 "contentHash", VNull) ]) ] in
  let outObj := setProp built (u16 "lastUpdateStatus")
                  (parsedStatus now attempt) in
  let meta := VObj [ (u16 "schemaVersion", VStr (u16 "1.0.0"));
                     (u16 "contentHash", VNull) ] in
  getProp outObj (u16 "meta") = Some meta
  /\ setProp outObj (u16 "meta") (setProp meta (u16 "contentHash") (VStr hash))
     = parsedRecord regionId lastUpdated fact preset now attempt hash.
Proof. split; reflexivity. Qed.

(** The successful parse up to its write. *)
Lemma mainBody_parsed `{Host} a regionId inp out w html factExt
    factValue factMethod :
  files w !! inp = Some (File html) ->
  extractDisconObject html (u16 "fact") = ExtOk factExt ->
  (tryParseObject (jsonLike factExt) w).1
  = Return (Parsed factValue factMethod) ->
  (exists presetValue wb line,
     files wb = files w
     /\ mainBody a regionId inp out w
        = (writeFileAtomic out
             (JSON_stringify (pretty a)
                (parsedRecord regionId (isoTime (S (ticks w))) factValue
                   presetValue (isoTime (ticks w))
                   (plusOne (previousAttempt (storedRecord w out)))
                   (Sha256.sha256 (jsonLike factExt ++ u16 "|"
                                   ++ presetText html))));;
           consoleLine line) wb)
  \/ (exists pe e code w1,
        extractDisconObject html (u16 "preset") = ExtOk pe
        /\ JSON_parse (jsonLike pe) = inr e
        /\ Function_call (jsonLike pe) = EvalExit code
        /\ mainBody a regionId inp out w = (Exit code, w1)
        /\ files w1 = files w
        /\ last (evals w1) = Some (jsonLike pe)).
Proof.
  intros E Hx Hp. unfold mainBody.
  rewrite run_bind, existsSync_run, E. cbv beta iota.
  rewrite bool_decide_eq_true_2 by eauto.
  cbn [negb]. rewrite run_bind. unfold readFileSync. rewrite E.
  cbv beta iota. rewrite Hx, run_bind.
  destruct (tryParseObject (jsonLike factExt) w) as [o wa] eqn:Et.
  cbn [fst] in Hp. subst o. cbv beta iota.
  assert (Hwa : files wa = files w /\ ticks wa = ticks w).
  { apply (f_equal snd) in Et. cbn [snd] in Et. subst wa.
    rewrite tryParseObject_run.
    destruct (JSON_parse (jsonLike factExt)); auto. }
  destruct Hwa as [Hfa Hta].
  rewrite run_bind.
  destruct (preset_run html inp wa)
    as (r & Er & [(pv & wb & -> & Hfb & Htb)
                 |(pe & e & code & Hpe & Hpp & Hpf & ->)]);
    rewrite Er.
  2:{ right. exists pe, e, code. eexists.
      split; [exact Hpe|]. split; [exact Hpp|]. split; [exact Hpf|].
      split; [reflexivity|]. split; [exact Hfa|].
      cbn [evaluated evals]. apply last_snoc. }
  left. cbv beta iota.
  rewrite run_bind, isoNow_run. cbv beta iota.
  unfold buildOutput. rewrite !run_bind, isoNow_run. cbv beta iota.
  rewrite ret_run. cbv beta iota.
  rewrite run_bind, loadExisting_run. cbv beta iota.
  match goal with
  | |- context [setProp ?built (u16 "lastUpdateStatus")
                  (parsedStatus ?now ?attempt)] =>
    match built with
    | VObj ((_, VStr ?rid) :: (_, VStr ?lu) :: (_, ?f) :: (_, ?p) :: _) =>
      destruct (parsedRecord_built rid lu f p now attempt
                  (Sha256.sha256 (jsonLike factExt ++ u16 "|"
                                  ++ presetText html))) as [Hm Hr]
    end
  end.
  unfold presetText in Hm, Hr. cbv zeta in Hm, Hr.
  rewrite Hm. cbv beta iota. rewrite Hr.
  cbn [tick ticks].
  rewrite Htb, Hta.
  rewrite (storedRecord_files w) by (cbn [tick files]; congruence).
  fold (previousAttempt (storedRecord w out)).
  unfold presetText.
  exists pv, (tick (tick wb)). eexists.
  split; [cbn [tick files]; congruence|]. reflexivity.
Qed.

Lemma templateFresh_isRecord `{Host} w : templateFresh w -> templateIsRecord w.
Proof. intros Hf text t Ht Hp. apply (Hf text t Ht Hp). Qed.


(** The crash handler over a well-kept store. *)
Lemma onCrash_recorded `{Host} argv regionId inp out e w :
  invokedWith argv regionId inp out ->
  holdsRecord w out -> templateIsRecord w -> writable w out ->
  exists r w',
    onCrash argv e w = (Exit 0, w')
    /\ files w' !! out
       = Some (File (JSON_stringify (pretty (parseArgs argv)) r))
    /\ isRecord r
    /\ statusField r (u16 "status") = Some (VStr (u16 "error"))
    /\ statusField r (u16 "ok") = Some (VBool false)
    /\ statusField r (u16 "code") = Some (VNum 500)
    /\ statusField r (u16 "message")
       = Some (VStr (u16 "parse_fact crashed: " ++ e))
    /\ (templateFresh w ->
        statusField r (u16 "attempt")
        = Some (VNum (plusOne (previousAttempt (storedRecord w out))))).
Proof.
  intros (Hr & Hi & Ho & Nr & Ni & No) Hst Htpl Hwr.
  set (w1 := printed (u16 "[WARN] parse_fact crashed: " ++ e) w).
  destruct (updateStatusOnError_stored (storedRecord w out)
              (region (parseArgs argv)) (upstream (parseArgs argv)) 500
              (u16 "parse_fact crashed: " ++ e) w1) as (r & Hrun & Hprops).
  { exact Hst. }
  { exact Htpl. }
  exists r, (written out (JSON_stringify (pretty (parseArgs argv)) r)
               (tick w1)).
  split; [|split; [apply lookup_insert_eq|exact Hprops]].
  unfold onCrash. rewrite run_bind, consoleLine_run. cbv beta iota.
  fold w1. rewrite run_bind, run_tryCatch. cbv zeta. rewrite Ho.
  destruct out as [|o os]; [contradiction|].
  rewrite run_bind, loadExisting_run. cbv beta iota.
  change (storedRecord w1 (o :: os)) with (storedRecord w (o :: os)).
  rewrite run_bind, Hrun. cbv beta iota.
  rewrite writeFileAtomic_run by exact Hwr. reflexivity.
Qed.




Lemma tryParseObject_cases `{Host} text w :
  (exists v method, (tryParseObject text w).1 = Return (Parsed v method))
  \/ (exists e message,
        JSON_parse text = inr e /\ Function_call text = EvalThrow message)
  \/ (exists e code,
        JSON_parse text = inr e /\ Function_call text = EvalExit code).
Proof.
  rewrite tryParseObject_run.
  destruct (JSON_parse text) as [v|e]; [left; eauto|].
  destruct (Function_call text) as [v|m|c];
    [left; eauto|right; left; eauto|right; right; eauto].
Qed.


(** What [tryParseObject] returns is what [parsedValue] tells. *)
Lemma parsed_parsedValue `{Host} text w v method :
  (tryParseObject text w).1 = Return (Parsed v method) ->
  parsedValue text = Some v.
Proof.
  rewrite tryParseObject_run. unfold parsedValue.
  destruct (JSON_parse text) as [v'|e]; [intros [= -> _]; reflexivity|].
  cbn [fst]. destruct (Function_call text); intros [= -> _]. reflexivity.
Qed.

(** The successful parse where the output can be written. *)
Lemma mainBody_parsed_writes `{Host} a regionId inp out w html factExt
    factValue factMethod :
  writable w out ->
  files w !! inp = Some (File html) ->
  extractDisconObject html (u16 "fact") = ExtOk factExt ->
  (tryParseObject (jsonLike factExt) w).1
  = Return (Parsed factValue factMethod) ->
  (exists presetValue w',
     mainBody a regionId inp out w = (Return tt, w')
     /\ files w' !! out
        = Some (File (JSON_stringify (pretty a)
                        (parsedRecord regionId (isoTime (S (ticks w)))
                           factValue presetValue (isoTime (ticks w))
                           (plusOne (previousAttempt (storedRecord w out)))
                           (Sha256.sha256 (jsonLike factExt ++ u16 "|"
                                           ++ presetText html))))))
  \/ (exists code w',
        endsInEvaluation w inp code
        /\ mainBody a regionId inp out w = (Exit code, w')
        /\ files w' = files w).
Proof.
  intros Hwr E Hx Hp.
  destruct (mainBody_parsed a regionId inp out w html factExt factValue
              factMethod E Hx Hp)
    as [(pv & wb & line & Hfb & Hrun)
       |(pe & e & code & w1 & Hpe & Hpp & Hpf & Hrun & Hf1 & _)].
  - left. exists pv. eexists. rewrite Hrun, run_bind.
    rewrite writeFileAtomic_run by (apply (writable_files w); auto).
    cbv beta iota. rewrite consoleLine_run.
    split; [reflexivity|]. apply lookup_insert_eq.
  - right. exists code, w1. split; [|auto].
    exists html, factExt. split; [exact E|]. split; [exact Hx|].
    right. exists factValue, pe, e.
    split; [exact (parsed_parsedValue _ _ _ _ Hp)|]. auto.
Qed.

Lemma script_of_main `{Host} argv w :
  script argv w
  = match main argv w with
    | (Throw e, w1) => onCrash argv e w1
    | r => r
    end.
Proof. apply run_tryCatch. Qed.

(** Every run over a well-kept store that can be written: either [main]
    runs to its end and the record of the parse is stored, or the process
    ends with code 0 and an error record is stored, or the process is
    ended from within the evaluation of the page and nothing is
    stored. *)
Lemma script_run `{Host} argv regionId inp out w :
  invokedWith argv regionId inp out ->
  holdsRecord w out -> templateIsRecord w -> writable w out ->
  let previous := previousAttempt (storedRecord w out) in
  (exists w' html factExt factValue presetValue,
      main argv w = (Return tt, w')
      /\ script argv w = (Return tt, w')
      /\ files w !! inp = Some (File html)
      /\ extractDisconObject html (u16 "fact") = ExtOk factExt
      /\ files w' !! out
         = Some (File (JSON_stringify (pretty (parseArgs argv))
                         (parsedRecord regionId (isoTime (S (ticks w)))
                            factValue presetValue (isoTime (ticks w))
                            (plusOne previous)
                            (Sha256.sha256 (jsonLike factExt ++ u16 "|"
                                            ++ presetText html))))))
  \/ (exists r w',
        script argv w = (Exit 0, w')
        /\ (forall wm, main argv w <> (Return tt, wm))
        /\ files w' !! out
           = Some (File (JSON_stringify (pretty (parseArgs argv)) r))
        /\ isRecord r
        /\ statusField r (u16 "status") = Some (VStr (u16 "error"))
        /\ statusField r (u16 "ok") = Some (VBool false)
        /\ (templateFresh w ->
            statusField r (u16 "attempt") = Some (VNum (plusOne previous)))
        /\ forall code, ~ endsInEvaluation w inp code)
  \/ (exists code w',
        endsInEvaluation w inp code
        /\ main argv w = (Exit code, w')
        /\ script argv w = (Exit code, w')
        /\ files w' = files w).
Proof.
  intros Hinv Hst Htpl Hwr previous.
  assert (Herr : forall code message w1,
    files w1 = files w ->
    main argv w = exitWithError (parseArgs argv) regionId out code message w1 ->
    exists r w',
      script argv w = (Exit 0, w')
      /\ (forall wm, main argv w <> (Return tt, wm))
      /\ files w' !! out
         = Some (File (JSON_stringify (pretty (parseArgs argv)) r))
      /\ isRecord r
      /\ statusField r (u16 "status") = Some (VStr (u16 "error"))
      /\ statusField r (u16 "ok") = Some (VBool false)
      /\ (templateFresh w ->
          statusField r (u16 "attempt") = Some (VNum (plusOne previous)))).
  { intros code message w1 Hf Hm.
    destruct (exitWithError_recorded (parseArgs argv) regionId out code
                message w1)
      as (r & w' & Hrun & Hfile & Hrec & Hs & Hok & _ & _ & Hatt).
    { apply (holdsRecord_files w); auto. }
    { apply (templateIsRecord_files w); auto. }
    { apply (writable_files w); auto. }
    exists r, w'. rewrite script_of_main, Hm, Hrun.
    split; [reflexivity|]. split; [discriminate|].
    split; [exact Hfile|]. split; [exact Hrec|]. split; [exact Hs|].
    split; [exact Hok|]. intros Hfresh.
    rewrite Hatt by (apply (templateFresh_files w); auto).
    rewrite (storedRecord_files w) by exact Hf. reflexivity. }
  assert (Herr' : forall code message w1,
    files w1 = files w ->
    main argv w = exitWithError (parseArgs argv) regionId out code message w1 ->
    (forall c, ~ endsInEvaluation w inp c) ->
    exists r w',
      script argv w = (Exit 0, w')
      /\ (forall wm, main argv w <> (Return tt, wm))
      /\ files w' !! out
         = Some (File (JSON_stringify (pretty (parseArgs argv)) r))
      /\ isRecord r
      /\ statusField r (u16 "status") = Some (VStr (u16 "error"))
      /\ statusField r (u16 "ok") = Some (VBool false)
      /\ (templateFresh w ->
          statusField r (u16 "attempt") = Some (VNum (plusOne previous)))
      /\ forall c, ~ endsInEvaluation w inp c).
  { intros code message w1 Hf Hm Hno.
    destruct (Herr code message w1 Hf Hm)
      as (r & w' & H1 & H2 & H3 & H4 & H5 & H6 & H7).
    exists r, w'. auto 10. }
  pose proof (main_invoked _ _ _ _ Hinv) as Hmain.
  destruct (files w !! inp) as [[html|]|] eqn:E.
  - destruct (extractDisconObject html (u16 "fact")) as [error|fx] eqn:Hx.
    + right. left.
      eapply Herr'; [|rewrite Hmain; eapply mainBody_noFact; eauto|].
      * reflexivity.
      * intros c (html' & fx' & E' & Hx' & _). congruence.
    + destruct (tryParseObject_cases (jsonLike fx) w)
        as [(fv & fm & Hp)|[(e & m & Hp & Hc)|(e & code & Hp & Hc)]].
      * destruct (mainBody_parsed_writes (parseArgs argv) regionId inp out
                    w html fx fv fm Hwr E Hx Hp)
          as [(pv & w' & Hrun & Hfile)|(code & w' & Hev & Hrun & Hf')].
        -- left. exists w', html, fx, fv, pv.
           rewrite script_of_main, Hmain, Hrun. auto.
        -- right. right. exists code, w'.
           rewrite script_of_main, Hmain, Hrun. auto.
      * right. left. eapply Herr';
          [|rewrite Hmain; eapply mainBody_unparsed; eauto|].
        -- reflexivity.
        -- intros c (html' & fx' & E' & Hx' & Hcase).
           assert (html' = html) by congruence. subst html'.
           assert (fx' = fx) by congruence. subst fx'.
           destruct Hcase as [(e' & _ & Hc')
                             |(fv & pe & e' & Hpv & _)].
           ++ congruence.
           ++ unfold parsedValue in Hpv. rewrite Hp, Hc in Hpv.
              discriminate.
      * right. right. exists code, (evaluated (jsonLike fx) w).
        rewrite script_of_main, Hmain,
          (mainBody_exits _ _ _ _ _ _ _ _ _ E Hx Hp Hc).
        split; [|auto]. exists html, fx. split; [exact E|].
        split; [exact Hx|]. left. eauto.
  - right. left.
    destruct (mainBody_unreadable (parseArgs argv) regionId inp out w E)
      as [e He].
    destruct (onCrash_recorded argv regionId inp out e w Hinv Hst Htpl Hwr)
      as (r & w' & Hrun & Hfile & Hrec & Hs & Hok & _ & _ & Hatt).
    exists r, w'. rewrite script_of_main, Hmain, He.
    split; [exact Hrun|]. split; [discriminate|].
    split; [exact Hfile|]. split; [exact Hrec|]. split; [exact Hs|].
    split; [exact Hok|]. split; [exact Hatt|].
    intros c (html' & fx' & E' & _). congruence.
  - right. left.
    eapply Herr'; [|rewrite Hmain; eapply mainBody_missing; eauto|].
    + reflexivity.
    + intros c (html' & fx' & E' & _). congruence.
Qed.

Lemma previousAttempt_of_status r n :
  isRecord r ->
  statusField r (u16 "attempt") = Some (VNum n) ->
  previousAttempt r = n.
Proof.
  intros [props ->]. unfold statusField, previousAttempt, attemptOf.
  cbn [truthy].
  destruct (getProp (VObj props) (u16 "lastUpdateStatus")) as [st|];
    [|discriminate].
  cbn [getProp' truthy']. intros Hst. rewrite Hst.
  destruct st; try discriminate; reflexivity.
Qed.


(** Where decoding undoes serialisation, the store that held a record or
    nothing holds a record after the run, and the next run counts on from
    the attempt this one stored. *)
Lemma script_keeps_record `{Host}
  (argv : list jsstring) (regionId inp out : jsstring) (w : world) :
  (forall pretty r, isRecord r ->
     JSON_parse (JSON_stringify pretty r) = inl r) ->
  invokedWith argv regionId inp out ->
  holdsRecord w out -> templateFresh w -> writable w out ->
  (forall code, ~ endsInEvaluation w inp code) ->
  holdsRecord (script argv w).2 out
  /\ previousAttempt (storedRecord (script argv w).2 out)
     = plusOne (previousAttempt (storedRecord w out)).
Proof.
  intros Hround Hinv Hst Hfresh Hwr Hret.
  assert (Hstored : exists r,
    files (script argv w).2 !! out
    = Some (File (JSON_stringify (pretty (parseArgs argv)) r))
    /\ isRecord r
    /\ statusField r (u16 "attempt")
       = Some (VNum (plusOne (previousAttempt (storedRecord w out))))).
  { destruct (script_run argv regionId inp out w Hinv Hst
                (templateFresh_isRecord w Hfresh) Hwr)
      as [(w' & html & fx & fv & pv & _ & Hrun & _ & _ & Hfile)
         |[(r & w' & Hrun & _ & Hfile & Hrec & _ & _ & Hatt & _)
          |(code & w' & Hev & _)]].
    - eexists. rewrite Hrun. split; [exact Hfile|].
      split; [eexists; reflexivity|reflexivity].
    - exists r. rewrite Hrun. auto.
    - exfalso. exact (Hret code Hev). }
  destruct Hstored as (r & Hfile & Hrec & Hatt).
  assert (Hr : storedRecord (script argv w).2 out = r).
  { unfold storedRecord. rewrite Hfile, (Hround _ r Hrec). reflexivity. }
  split.
  - unfold holdsRecord. rewrite Hr. auto.
  - rewrite Hr. apply previousAttempt_of_status; assumption.
Qed.
















(** What the failing sample run leaves in the store. *)
Example sample_error_record :
  files (script (H := Node.host []) Samples.argv w0).2 !! u16 "data/kyiv.json"
  = Some (File (dq "{'regionId':'kyiv','lastUpdated':null,'fact':null,'preset':null,'lastUpdateStatus':{'status':'error','ok':false,'code':404,'message':'Input not found: outputs/kyiv.html','at':'2024-01-05T06:00:00.000Z','attempt':1},'meta':{'schemaVersion':'1.0.0','contentHash':null}}")).
Proof. vm_compute. reflexivity. Qed.

End ScriptFacts.

Module BatchFacts.
Import ParseFact BatchRender Observations BatchObservations ProcessFacts.

Section WithHost.
Context `{Host} `{Renderer}.

(** Reading and decoding a data file inside the [try] of the loops. *)
Lemma read_decode_run {A} (jf : jsstring) (k : value -> M A) w :
  (buf ← readFileSync jf; json ← parseJSON buf; k json) w
  = match decoded (files w) jf with
    | Some json => k json w
    | None => (Throw (readError (files w) jf), w)
    end.
Proof.
  rewrite run_bind. unfold readFileSync, decoded, readError.
  destruct (files w !! jf) as [[text|]|]; try reflexivity.
  cbv beta iota. rewrite run_bind. unfold parseJSON.
  destruct (JSON_parse text); reflexivity.
Qed.
















Lemma groupTasks_length jf regionId keys :
  length (flat_map (groupTasks jf regionId) keys) = (4 * length keys)%nat.
Proof.
  induction keys as [|k keys IH]; [reflexivity|].
  cbn [flat_map]. rewrite length_app, IH. cbn [groupTasks length]. lia.
Qed.

(** C8 (as amended). For a data record that passes the checks of the
    scheduler (it is an object with a truthy [fact] and a truthy [preset]),
    that [--region] does not filter out, and that has at least one key
    matching GPV<major>.<minor> among the keys of [preset.data], the
    scheduler adds exactly 4 x |groups| + 2 tasks: for each group one for
    each of the full, emergency, week and summary templates, and for the
    region the two views of all groups, today and tomorrow. *)
Theorem eligible_record_tasks
  (cfg : config) (jf text : jsstring) (json : value) (tasks : list task)
  (w : world) :
  sortRearranges ->
  files w !! jf = Some (File text) ->
  JSON_parse text = inl json ->
  eligible json = true ->
  filteredOut (onlyRegion cfg) (normalizeRegionId json (path_stem jf))
    (path_stem jf) = false ->
  let groups := List.filter isGpvKey (objectKeys (presetData json)) in
  let regionId := normalizeRegionId json (path_stem jf) in
  groups <> [] ->
  exists new,
    prepareFile cfg jf tasks w = (Return (tasks ++ new), w)
    /\ length new = (4 * length groups + 2)%nat
    /\ Permutation (gpvKeys json) groups
    /\ new = flat_map (groupTasks jf regionId) (gpvKeys json)
             ++ regionTasks jf regionId
    /\ (forall gpv,
          List.map htmlPath (groupTasks jf regionId gpv)
          = [Full; Emergency; Week; Summary]
          /\ List.map gpvKey (groupTasks jf regionId gpv)
             = [Some gpv; Some gpv; Some gpv; Some gpv])
    /\ List.map htmlPath (regionTasks jf regionId) = [Groups; Groups]
    /\ List.map gpvKey (regionTasks jf regionId) = [None; None]
    /\ List.map dayArg (regionTasks jf regionId)
       = [None; Some (u16 "tomorrow")].
Proof.
  intros Hsort Hfile Hparse Hel Hfilter groups regionId Hgroups.
  assert (Hperm : Permutation (gpvKeys json) groups) by apply Hsort.
  assert (Hkeys : gpvKeys json <> []).
  { intros E. rewrite E in Hperm. apply Permutation_nil in Hperm.
    contradiction. }
  exists (flat_map (groupTasks jf regionId) (gpvKeys json)
          ++ regionTasks jf regionId).
  split; [|split; [|split; [exact Hperm|]]].
  - unfold prepareFile. rewrite run_tryCatch, read_decode_run.
    unfold decoded. rewrite Hfile, Hparse. cbv beta iota.
    rewrite Hel, Hfilter. cbn [negb]. fold regionId.
    destruct (gpvKeys json) as [|k keys]; [contradiction|reflexivity].
  - rewrite length_app, groupTasks_length.
    rewrite (Permutation_length Hperm). cbn [regionTasks length]. lia.
  - repeat split; reflexivity.
Qed.


End WithHost.

Lemma insertGroup_perm k l : Permutation (Samples.insertGroup k l) (k :: l).
Proof.
  induction l as [|x l IH]; cbn [Samples.insertGroup]; [reflexivity|].
  destruct (Samples.groupLe k x); [reflexivity|].
  rewrite IH. apply perm_swap.
Qed.

Lemma sample_sort_rearranges :
  sortRearranges (H0 := Samples.renderer).
Proof.
  intros keys. cbn. induction keys as [|k keys IH]; [reflexivity|].
  cbn [Samples.sortByNumber fold_right].
  rewrite insertGroup_perm. apply perm_skip. exact IH.
Qed.

Lemma eligible_record_tasks_witness :
  let jf := u16 "data/kyiv.json" in
  let json :=
    VObj [ (u16 "regionId", VStr (u16 "kyiv"));
           (u16 "fact", VObj [(u16 "a", VNum 1)]);
           (u16 "preset",
            VObj [(u16 "data", VObj [ (u16 "GPV1.2", VArr [] []);
                                      (u16 "GPV1.1", VArr [] []) ])]) ] in
  exists new,
    prepareFile (H := Node.host []) (H0 := Samples.renderer)
      Samples.lightTheme jf [] (Samples.withData Samples.twoGroups)
    = (Return ([] ++ new), Samples.withData Samples.twoGroups)
    /\ length new = 10%nat
    /\ List.map name new
       = [ u16 "FULL kyiv GPV1.1"; u16 "EMERGENCY kyiv GPV1.1";
           u16 "WEEK kyiv GPV1.1"; u16 "SUMMARY kyiv GPV1.1";
           u16 "FULL kyiv GPV1.2"; u16 "EMERGENCY kyiv GPV1.2";
           u16 "WEEK kyiv GPV1.2"; u16 "SUMMARY kyiv GPV1.2";
           u16 "GROUPS/TODAY kyiv"; u16 "GROUPS/TOMORROW kyiv" ].
Proof.
  intros jf json.
  destruct (eligible_record_tasks (H := Node.host [])
              (H0 := Samples.renderer) Samples.lightTheme jf
              Samples.twoGroups json [] (Samples.withData Samples.twoGroups))
    as (new & Hrun & Hlen & _ & Hnew & _).
  - exact sample_sort_rearranges.
  - reflexivity.
  - reflexivity.
  - reflexivity.
  - reflexivity.
  - discriminate.
  - exists new. split; [exact Hrun|]. split; [exact Hlen|].
    rewrite Hnew. reflexivity.
Defined.

(** C8, counterexample. A record with a truthy fact and a truthy preset
    whose group key GPV1.1 is a key of [preset] itself gets no task where
    the claim counts 4 x 1 + 2; so does a record with a group under
    [preset.data] when [--region] names another region, and one whose
    fact is not null but the empty string. *)
Lemma groups_outside_data_get_no_task :
  let jf := u16 "data/kyiv.json" in
  (exists json preset,
      JSON_parse (Host := Node.host []) Samples.groupInPreset = inl json
      /\ truthy' (getProp json (u16 "fact")) = true
      /\ getProp json (u16 "preset") = Some preset
      /\ truthy preset = true
      /\ List.filter (isGpvKey) (objectKeys preset) = [u16 "GPV1.1"]
      /\ (prepareFile (H := Node.host []) (H0 := Samples.renderer)
            Samples.lightTheme jf []
            (Samples.withData Samples.groupInPreset)).1
         = Return [])
  /\ (exists json,
        JSON_parse (Host := Node.host []) Samples.twoGroups = inl json
        /\ eligible json = true
        /\ length (List.filter isGpvKey (objectKeys (presetData json)))
           = 2%nat
        /\ prepareFile (H := Node.host []) (H0 := Samples.renderer)
             Samples.onlyOdesa jf [] (Samples.withData Samples.twoGroups)
           = (Return [], Samples.withData Samples.twoGroups))
  /\ (exists json,
        JSON_parse (Host := Node.host []) Samples.emptyFact = inl json
        /\ getProp json (u16 "fact") = Some (VStr [])
        /\ length (List.filter isGpvKey (objectKeys (presetData json)))
           = 1%nat
        /\ prepareFile (H := Node.host []) (H0 := Samples.renderer)
             Samples.lightTheme jf [] (Samples.withData Samples.emptyFact)
           = (Return [], Samples.withData Samples.emptyFact)).
Proof.
  intros jf. split; [|split].
  - eexists. eexists. split; [reflexivity|].
    repeat (split; [reflexivity|]). reflexivity.
  - eexists. split; [reflexivity|]. repeat (split; [reflexivity|]).
    reflexivity.
  - eexists. split; [reflexivity|]. repeat (split; [reflexivity|]).
    reflexivity.
Qed.


End BatchFacts.

Module TimeFacts.
Import TimeNormalizer.

Example pad2_one_digit : pad2 8 = u16 "08".
Proof. reflexivity. Qed.

Example formatOffset_winter : formatOffset 120 = u16 "+02:00".
Proof. reflexivity. Qed.

Example kyiv_offsets :
  tzOffsetMinutes (H := kyiv) (DateUTC (Some 2024) 0 5 6 0 0)
    (u16 "Europe/Kyiv") = Some 120
  /\ tzOffsetMinutes (H := kyiv) (DateUTC (Some 2024) 6 5 5 0 0)
       (u16 "Europe/Kyiv") = Some 180.
Proof. split; reflexivity. Qed.

(** C5, the code at a date off any change of offset. Eight in the morning
    of 5 January 2024 in Kyiv is 06:00 UTC, and the offset then is +02:00;
    [toKyivIso] writes the UTC fields of that instant in front of the
    offset, so the wall clock that the output carries is 06:00 and not the
    08:00 given. In summer the fields are three hours off, and an hour
    past midnight comes out on the day before. *)
Theorem toKyivIso_writes_utc_fields :
  zonedTimeToUtc (H := kyiv) (u16 "2024-01-05") (u16 "08:00")
    (u16 "Europe/Kyiv")
  = DateUTC (Some 2024) 0 5 6 0 0
  /\ toKyivIso (H := kyiv) (u16 "2024-01-05") (u16 "08:00")
     = Some (u16 "2024-01-05T06:00:00+02:00")
  /\ toKyivIso (H := kyiv) (u16 "2024-01-05") (u16 "08:00")
     <> Some (u16 "2024-01-05T08:00:00+02:00")
  /\ toKyivIso (H := kyiv) (u16 "2024-07-05") (u16 "08:00")
     = Some (u16 "2024-07-05T05:00:00+03:00")
  /\ toKyivIso (H := kyiv) (u16 "2024-01-01") (u16 "01:00")
     = Some (u16 "2023-12-31T23:00:00+02:00").
Proof.
  split; [reflexivity|]. split; [reflexivity|].
  split; [vm_compute; discriminate|]. split; reflexivity.
Qed.

End TimeFacts.

Module EvaluationFacts.
Import ParseFact Observations.

(** C9, the code on a text that names a global. The text [{pid:
    process.pid}] is not JSON, so it goes to the function made by the
    [Function] constructor, which looks [process] up in the global object:
    the same text gives one value in one process and another in another,
    and the same page leaves one fact in the store of the one and another
    in the store of the other. *)
Theorem fallback_reads_the_global_object :
  let text := u16 "{pid: process.pid}" in
  let here := Node.host (Samples.globalsWithPid 4242) in
  let there := Node.host (Samples.globalsWithPid 7) in
  let record pid :=
    parsedRecord (u16 "kyiv") (u16 "2024-01-05T06:00:00.000Z")
      (VObj [ (u16 "pid", VNum pid) ]) VNull
      (u16 "2024-01-05T06:00:00.000Z") 1
      (Sha256.sha256 (text ++ u16 "|")) in
  Extractor.extractDisconObject Samples.pidPage (u16 "fact")
  = Extractor.ExtOk (Extractor.Extracted text 30 48)
  /\ JSON_parse (Host := here) text = inr (u16 "Unexpected token")
  /\ (tryParseObject (H := here) text w0).1
     = Return (Parsed (VObj [ (u16 "pid", VNum 4242) ]) (u16 "eval"))
  /\ (tryParseObject (H := there) text w0).1
     = Return (Parsed (VObj [ (u16 "pid", VNum 7) ]) (u16 "eval"))
  /\ files (script (H := here) Samples.argv Samples.withPidPage).2
       !! u16 "data/kyiv.json"
     = Some (File (JSON_stringify (Host := here) false (record 4242)))
  /\ files (script (H := there) Samples.argv Samples.withPidPage).2
       !! u16 "data/kyiv.json"
     = Some (File (JSON_stringify (Host := there) false (record 7))).
Proof.
  intros text here there record.
  split; [reflexivity|]. split; [reflexivity|]. split; [reflexivity|].
  split; [reflexivity|]. split; vm_compute; reflexivity.
Qed.

End EvaluationFacts.

Module Sha256Facts.
Import Sha256.

(** The digests of the empty string and of "abc" from FIPS 180-4. *)
Example sha256_empty :
  sha256 []
  = u16 "e3b0c44298fc1c149afbf4c8996fb92427ae41e4649b934ca495991b7852b855".
Proof. vm_compute. reflexivity. Qed.

Example sha256_abc :
  sha256 (u16 "abc")
  = u16 "ba7816bf8f01cfea414140de5dae2223b00361a396177a9cb410ff61f20015ad".
Proof. vm_compute. reflexivity. Qed.

(** A message of two blocks. *)
Example sha256_two_blocks :
  sha256 (u16 "abcdbcdecdefdefgefghfghighijhijkijkljklmklmnlmnomnopnopq")
  = u16 "248d6a61d20638b8e5c026930c3e6039a33ce45964ff2167f6ecedd419db06c1".
Proof. vm_compute. reflexivity. Qed.

End Sha256Facts.

Module ExtractorFacts.
Import Extractor.

Lemma step_lbrace dc ds :
  stepCurly lbrace dc = dc + 1 /\ stepSquare lbrace ds = ds.
Proof. split; reflexivity. Qed.

Lemma step_rbrace dc ds :
  stepCurly rbrace dc = dc - 1 /\ stepSquare rbrace ds = ds.
Proof. split; reflexivity. Qed.

Lemma step_lbrack dc ds :
  stepCurly lbrack dc = dc /\ stepSquare lbrack ds = ds + 1.
Proof. split; reflexivity. Qed.

Lemma step_rbrack dc ds :
  stepCurly rbrack dc = dc /\ stepSquare rbrack ds = ds - 1.
Proof. split; reflexivity. Qed.

Lemma step_other c dc ds :
  isDelimiter c = false -> stepCurly c dc = dc /\ stepSquare c ds = ds.
Proof.
  unfold isDelimiter, stepCurly, stepSquare. intros H.
  repeat (apply orb_false_elim in H; destruct H as [H ?]).
  repeat match goal with E : _ = false |- _ => rewrite E; clear E end.
  split; reflexivity.
Qed.

Ltac steps :=
  repeat first
    [ rewrite (proj1 (step_lbrace _ 0)) | rewrite (proj2 (step_lbrace 0 _))
    | rewrite (proj1 (step_rbrace _ 0)) | rewrite (proj2 (step_rbrace 0 _))
    | rewrite (proj1 (step_lbrack _ 0)) | rewrite (proj2 (step_lbrack 0 _))
    | rewrite (proj1 (step_rbrack _ 0)) | rewrite (proj2 (step_rbrack 0 _)) ].

Lemma both_zero_false dc ds :
  0 <= dc -> 0 <= ds -> 0 < dc + ds -> (dc =? 0) && (ds =? 0) = false.
Proof.
  intros. destruct (Z.eqb_spec dc 0), (Z.eqb_spec ds 0); simpl; auto; lia.
Qed.

(** Inside an open delimiter the loop runs through correctly nested text
    without stopping, and leaves both counters as it found them. *)
Lemma scan_app_nested w :
  nested w ->
  forall rest i dc ds,
    0 <= dc -> 0 <= ds -> 0 < dc + ds ->
    scan (w ++ rest) i dc ds = scan rest (i + length w) dc ds.
Proof.
  induction 1 as [|c w Hc _ IH|w1 w2 _ IH1 _ IH2|w1 w2 _ IH1 _ IH2];
    intros rest i dc ds Hdc Hds Hpos.
  - simpl. f_equal. lia.
  - simpl. destruct (step_other c dc ds Hc) as [-> ->].
    rewrite both_zero_false by lia. rewrite IH by lia.
    f_equal. simpl. lia.
  - cbn [app scan]. steps.
    rewrite both_zero_false by lia.
    rewrite <- app_assoc. rewrite IH1 by lia.
    cbn [app scan]. steps.
    replace (dc + 1 - 1) with dc by lia.
    rewrite both_zero_false by lia. rewrite IH2 by lia.
    f_equal. cbn [length]. rewrite length_app. cbn [length]. lia.
  - cbn [app scan]. steps.
    rewrite both_zero_false by lia.
    rewrite <- app_assoc. rewrite IH1 by lia.
    cbn [app scan]. steps.
    replace (ds + 1 - 1) with ds by lia.
    rewrite both_zero_false by lia. rewrite IH2 by lia.
    f_equal. cbn [length]. rewrite length_app. cbn [length]. lia.
Qed.

Lemma step_shift c d :
  stepCurly c d = d + stepCurly c 0 /\ stepSquare c d = d + stepSquare c 0.
Proof.
  unfold stepCurly, stepSquare.
  repeat match goal with |- context [N.eqb ?a ?b] => destruct (N.eqb a b) end;
    lia.
Qed.

Lemma fold_depths_shift w a b :
  fold_left (fun d c => (stepCurly c (fst d), stepSquare c (snd d))) w (a, b)
  = (a + fst (depths w), b + snd (depths w)).
Proof.
  unfold depths. revert a b.
  induction w as [|c w IH]; intros a b; simpl.
  - f_equal; lia.
  - rewrite (IH (stepCurly c a)), (IH (stepCurly c 0)).
    destruct (step_shift c a) as [-> _], (step_shift c b) as [_ ->].
    simpl. f_equal; lia.
Qed.

Lemma depths_cons c w :
  depths (c :: w)
  = (stepCurly c 0 + fst (depths w), stepSquare c 0 + snd (depths w)).
Proof. unfold depths at 1. simpl. apply fold_depths_shift. Qed.

Lemma depths_app u w :
  depths (u ++ w)
  = (fst (depths u) + fst (depths w), snd (depths u) + snd (depths w)).
Proof.
  unfold depths at 1. rewrite fold_left_app.
  change (fold_left _ u (0, 0)) with (depths u).
  destruct (depths u) as [a b]. apply fold_depths_shift.
Qed.

Lemma nested_depths w : nested w -> depths w = (0, 0).
Proof.
  induction 1 as [|c w Hc _ IH|w1 w2 _ IH1 _ IH2|w1 w2 _ IH1 _ IH2].
  - reflexivity.
  - rewrite depths_cons, IH. destruct (step_other c 0 0 Hc) as [-> ->].
    reflexivity.
  - rewrite depths_cons, depths_app, depths_cons, IH1, IH2. reflexivity.
  - rewrite depths_cons, depths_app, depths_cons, IH1, IH2. reflexivity.
Qed.

(** No prefix of correctly nested text closes more than it has opened. *)
Ltac dsimpl :=
  cbn [take fst snd] in *; steps;
  change (depths []) with ((0, 0) : Z * Z); cbn [fst snd] in *.

Lemma nested_take_nonneg w :
  nested w ->
  forall k, 0 <= fst (depths (take k w)) /\ 0 <= snd (depths (take k w)).
Proof.
  induction 1 as [|c w Hc _ IH|w1 w2 H1 IH1 _ IH2|w1 w2 H1 IH1 _ IH2];
    intros k.
  - rewrite take_nil. simpl. lia.
  - destruct k as [|k]; [simpl; lia|]. cbn [take].
    rewrite depths_cons. destruct (step_other c 0 0 Hc) as [-> ->].
    specialize (IH k). dsimpl. lia.
  - destruct k as [|k]; [simpl; lia|]. cbn [take].
    rewrite depths_cons, take_app, depths_app.
    destruct (k - length w1)%nat as [|j] eqn:Hj.
    + specialize (IH1 k). dsimpl. lia.
    + assert (take k w1 = w1) as -> by (apply take_ge; lia).
      cbn [take]. rewrite depths_cons, (nested_depths _ H1).
      specialize (IH2 j). dsimpl. lia.
  - destruct k as [|k]; [simpl; lia|]. cbn [take].
    rewrite depths_cons, take_app, depths_app.
    destruct (k - length w1)%nat as [|j] eqn:Hj.
    + specialize (IH1 k). dsimpl. lia.
    + assert (take k w1 = w1) as -> by (apply take_ge; lia).
      cbn [take]. rewrite depths_cons, (nested_depths _ H1).
      specialize (IH2 j). dsimpl. lia.
Qed.

Lemma skipWhitespace_app ws c rest i :
  Forall (fun c => isWhitespace c = true) ws ->
  isWhitespace c = false ->
  skipWhitespace (ws ++ c :: rest) i = (i + length ws)%nat.
Proof.
  intros Hws Hc. revert i.
  induction Hws as [|a ws Ha _ IH]; intros i; simpl.
  - rewrite Hc. lia.
  - rewrite Ha, IH. lia.
Qed.

Lemma matching_opener opener closer :
  matching opener closer ->
  isWhitespace opener = false
  /\ N.eqb opener lbrace || N.eqb opener lbrack = true.
Proof. intros [[-> _]|[-> _]]; split; reflexivity. Qed.

(** The loop started on a literal stops on the closer of its opener. *)
Lemma scan_literal opener closer body rest i :
  matching opener closer -> nested body ->
  scan (opener :: body ++ closer :: rest) i 0 0
  = Some (i + 1 + length body)%nat.
Proof.
  intros [[-> ->]|[-> ->]] Hn; cbn [scan]; steps;
    (rewrite both_zero_false by lia);
    (rewrite scan_app_nested by (auto; lia));
    cbn [scan]; steps; simpl; f_equal; lia.
Qed.

(** Within a literal the counters are zero together at its last character
    and nowhere before. *)
Lemma literal_depths opener closer body :
  matching opener closer -> nested body ->
  depths (opener :: body ++ [closer]) = (0, 0)
  /\ forall k, (0 < k < length (opener :: body ++ [closer]))%nat ->
       depths (take k (opener :: body ++ [closer])) <> (0, 0).
Proof.
  intros Hm Hn. split.
  - rewrite depths_cons, depths_app, (nested_depths _ Hn).
    destruct Hm as [[-> ->]|[-> ->]]; reflexivity.
  - intros k Hk. cbn [length] in Hk. rewrite length_app in Hk.
    cbn [length] in Hk.
    destruct k as [|k]; [lia|]. cbn [take].
    rewrite take_app_le by lia. rewrite depths_cons.
    destruct (nested_take_nonneg _ Hn k) as [Hc Hs].
    destruct Hm as [[-> _]|[-> _]]; steps; intros E; inversion E; lia.
Qed.

(** C3. When the first occurrence of the marker is followed, after
    whitespace, by an opener whose literal is correctly nested, the
    extractor returns exactly that literal, from the opener through the
    closer that matches it, with its start and end indices; the two
    nesting counters are both zero after the literal's last character and
    are not both zero after any earlier character of it, so the closer is
    the first index at which they return to zero. *)
Theorem extract_nested_literal
  (html key pre ws body rest : jsstring) (opener closer : jschar) :
  html = pre ++ marker key ++ ws ++ opener :: body ++ closer :: rest ->
  indexOf html (marker key) = Some (length pre) ->
  Forall (fun c => isWhitespace c = true) ws ->
  matching opener closer ->
  nested body ->
  let start := (length pre + length (marker key) + length ws)%nat in
  let literal := opener :: body ++ [closer] in
  extractDisconObject html key
  = ExtOk {| jsonLike := literal;
             startIndex := start;
             endIndex := (start + length literal)%nat |}
  /\ depths literal = (0, 0)
  /\ forall k, (0 < k < length literal)%nat ->
       depths (take k literal) <> (0, 0).
Proof.
  intros Hhtml Hidx Hws Hm Hn start literal.
  split; [|exact (literal_depths opener closer body Hm Hn)].
  destruct (matching_opener _ _ Hm) as [Hnws Hop].
  assert (Hdrop : drop (length pre + length (marker key)) html
                  = ws ++ opener :: body ++ closer :: rest).
  { rewrite Hhtml, app_assoc. apply drop_app_length'.
    rewrite length_app. lia. }
  assert (Hstart : drop start html = opener :: body ++ closer :: rest).
  { rewrite Hhtml, !app_assoc. apply drop_app_length'.
    rewrite !length_app. reflexivity. }
  assert (Hat : html !! start = Some opener).
  { rewrite Hhtml, !app_assoc. apply list_lookup_middle.
    rewrite !length_app. reflexivity. }
  unfold extractDisconObject. rewrite Hidx. cbn zeta.
  rewrite Hdrop, (skipWhitespace_app ws opener _ _ Hws Hnws).
  fold start. rewrite Hat, Hop. cbn [negb].
  rewrite Hstart, (scan_literal opener closer body rest start Hm Hn).
  unfold slice. rewrite Hstart.
  replace (start + 1 + length body + 1 - start)%nat
    with (length literal)
    by (subst literal; cbn [length]; rewrite length_app; cbn [length]; lia).
  replace (opener :: body ++ closer :: rest) with (literal ++ rest)
    by (subst literal; cbn [app]; rewrite <- app_assoc; reflexivity).
  rewrite take_app_length. do 2 f_equal.
  subst literal. cbn [length]. rewrite length_app. cbn [length]. lia.
Qed.

Lemma nested_small : nested (u16 "x:[1]").
Proof.
  apply nested_other; [reflexivity|]. apply nested_other; [reflexivity|].
  apply (nested_square (u16 "1") []).
  - apply nested_other; [reflexivity|]. constructor.
  - constructor.
Qed.

Lemma extract_nested_literal_witness :
  extractDisconObject (u16 "a DisconSchedule.fact =  {x:[1]};") (u16 "fact")
  = ExtOk {| jsonLike := u16 "{x:[1]}"; startIndex := 25; endIndex := 32 |}
  /\ depths (u16 "{x:[1]}") = (0, 0)
  /\ forall k, (0 < k < 7)%nat -> depths (take k (u16 "{x:[1]}")) <> (0, 0).
Proof.
  apply (extract_nested_literal
           (u16 "a DisconSchedule.fact =  {x:[1]};") (u16 "fact")
           (u16 "a ") (u16 "  ") (u16 "x:[1]") (u16 ";")
           (ch "{") (ch "}")).
  - reflexivity.
  - reflexivity.
  - repeat constructor.
  - left. split; reflexivity.
  - exact nested_small.
Defined.

Example extract_small :
  extractDisconObject (u16 "a DisconSchedule.fact =  {x:[1]};") (u16 "fact")
  = ExtOk {| jsonLike := u16 "{x:[1]}"; startIndex := 25; endIndex := 32 |}.
Proof. reflexivity. Qed.

End ExtractorFacts.

Module ExtractionFacts.
Import Extractor ExtractorFacts.

Lemma startsWith_app s m : startsWith s m = true <-> exists t, s = m ++ t.
Proof.
  revert s. induction m as [|a m IH]; intros s.
  - destruct s; simpl; split; eauto.
  - destruct s as [|b s]; simpl.
    + split; [discriminate|intros [t Ht]; discriminate].
    + rewrite andb_true_iff, IH, N.eqb_eq. split.
      * intros [-> [t ->]]. eauto.
      * intros [t [= -> ->]]. eauto.
Qed.

(** [indexOf] finds the first place at which the text goes on with [m]. *)
Lemma indexOf_Some s m i :
  indexOf s m = Some i ->
  (i + length m <= length s)%nat
  /\ startsWith (drop i s) m = true
  /\ forall j, (j < i)%nat -> startsWith (drop j s) m = false.
Proof.
  revert i. induction s as [|c s IH]; intros i; cbn [indexOf].
  - destruct (startsWith [] m) eqn:E; [|discriminate].
    intros [= <-]. apply startsWith_app in E as [t Ht].
    destruct m; [|discriminate]. repeat split; auto. intros; lia.
  - destruct (startsWith (c :: s) m) eqn:E.
    + intros [= <-]. split; [|split; [exact E|intros; lia]].
      apply startsWith_app in E as [t Ht]. rewrite Ht, length_app. lia.
    + destruct (indexOf s m) as [k|] eqn:Ek; [|discriminate].
      cbn. intros [= <-]. destruct (IH k eq_refl) as (H1 & H2 & H3).
      split; [cbn [length]; lia|]. split; [exact H2|].
      intros [|j] Hj; [exact E|]. cbn [drop]. apply H3. lia.
Qed.

Lemma indexOf_None s m :
  indexOf s m = None -> forall j, startsWith (drop j s) m = false.
Proof.
  induction s as [|c s IH]; cbn [indexOf].
  - destruct (startsWith [] m) eqn:E; [discriminate|].
    intros _ j. rewrite drop_nil. exact E.
  - destruct (startsWith (c :: s) m) eqn:E; [discriminate|].
    destruct (indexOf s m) eqn:Ek; [discriminate|].
    intros _ [|j]; [exact E|]. cbn [drop]. apply IH. reflexivity.
Qed.

(** Where the skipping of whitespace stops. *)
Lemma skipWhitespace_stops rest i :
  exists k,
    skipWhitespace rest i = (i + k)%nat
    /\ (k <= length rest)%nat
    /\ (forall j, (j < k)%nat ->
          exists c, rest !! j = Some c /\ isWhitespace c = true)
    /\ (forall c, rest !! k = Some c -> isWhitespace c = false).
Proof.
  revert i. induction rest as [|c rest IH]; intros i; cbn [skipWhitespace].
  - exists 0%nat. repeat split; auto; intros; try lia. discriminate.
  - destruct (isWhitespace c) eqn:E.
    + destruct (IH (S i)) as (k & -> & Hk & Hws & Hstop).
      exists (S k). split; [lia|]. split; [cbn [length]; lia|]. split.
      * intros [|j] Hj; [exists c; auto|]. apply Hws. lia.
      * exact Hstop.
    + exists 0%nat. split; [lia|]. split; [lia|]. split; [intros; lia|].
      intros c' [= <-]. exact E.
Qed.

Lemma scan_Some rest i dc ds j :
  scan rest i dc ds = Some j ->
  (i <= j < i + length rest)%nat
  /\ (dc + fst (depths (take (S (j - i)) rest)) = 0
      /\ ds + snd (depths (take (S (j - i)) rest)) = 0)
  /\ forall n, (0 < n < S (j - i))%nat ->
       ~ (dc + fst (depths (take n rest)) = 0
          /\ ds + snd (depths (take n rest)) = 0).
Proof.
  revert i dc ds. induction rest as [|c rest IH]; intros i dc ds;
    cbn [scan]; [discriminate|].
  destruct ((stepCurly c dc =? 0) && (stepSquare c ds =? 0)) eqn:E.
  - intros [= <-]. split; [cbn [length]; lia|].
    replace (i - i)%nat with 0%nat by lia. cbn [take]. rewrite take_0.
    rewrite depths_cons. change (depths []) with ((0, 0) : Z * Z).
    cbn [fst snd]. apply andb_true_iff in E as [E1 E2].
    apply Z.eqb_eq in E1, E2.
    destruct (step_shift c dc) as [Hc _], (step_shift c ds) as [_ Hs].
    split; [lia|]. intros n Hn. lia.
  - intros Hscan. destruct (IH _ _ _ Hscan) as (Hj & Hend & Hmin).
    split; [cbn [length]; lia|].
    replace (S (j - i)) with (S (S (j - S i))) by lia.
    destruct (step_shift c dc) as [Hc _], (step_shift c ds) as [_ Hs].
    split.
    + cbn [take]. rewrite depths_cons. cbn [fst snd].
      cbn [take] in Hend. lia.
    + intros [|n] Hn; [lia|]. cbn [take]. rewrite depths_cons. cbn [fst snd].
      destruct n as [|n].
      * rewrite take_0. change (depths []) with ((0, 0) : Z * Z).
        cbn [fst snd].
        intros [H1 H2]. apply andb_false_iff in E.
        destruct E as [E|E]; apply Z.eqb_neq in E; lia.
      * intros [H1 H2]. apply (Hmin (S n)); [lia|]. lia.
Qed.

Lemma scan_None rest i dc ds :
  scan rest i dc ds = None ->
  forall n, (0 < n <= length rest)%nat ->
    ~ (dc + fst (depths (take n rest)) = 0
       /\ ds + snd (depths (take n rest)) = 0).
Proof.
  revert i dc ds. induction rest as [|c rest IH]; intros i dc ds;
    cbn [scan]; [intros _ n Hn; cbn [length] in Hn; lia|].
  destruct ((stepCurly c dc =? 0) && (stepSquare c ds =? 0)) eqn:E;
    [discriminate|].
  intros Hscan [|n] Hn; [lia|]. cbn [take length] in *.
  rewrite depths_cons. cbn [fst snd].
  destruct (step_shift c dc) as [Hc _], (step_shift c ds) as [_ Hs].
  destruct n as [|n].
  - rewrite take_0. change (depths []) with ((0, 0) : Z * Z). cbn [fst snd].
    intros [H1 H2]. apply andb_false_iff in E.
    destruct E as [E|E]; apply Z.eqb_neq in E; lia.
  - intros [H1 H2]. apply (IH _ _ _ Hscan (S n)); [lia|]. lia.
Qed.

(** X1. Whatever the extractor returns is the slice of the page from the
    first opener after the first marker, whitespace alone lying between
    them, through the first character after which both counters are back
    at zero: the counters are zero after the whole of it and after no
    proper prefix of it. *)
Theorem extraction_is_first_balanced_slice
  (html key : jsstring) (e : extracted) :
  extractDisconObject html key = ExtOk e ->
  exists idx opener,
    indexOf html (marker key) = Some idx
    /\ (idx + length (marker key) <= startIndex e < endIndex e)%nat
    /\ (endIndex e <= length html)%nat
    /\ (forall j, (idx + length (marker key) <= j < startIndex e)%nat ->
          exists c, html !! j = Some c /\ isWhitespace c = true)
    /\ html !! startIndex e = Some opener
    /\ (opener = lbrace \/ opener = lbrack)
    /\ jsonLike e = take (endIndex e - startIndex e) (drop (startIndex e) html)
    /\ length (jsonLike e) = (endIndex e - startIndex e)%nat
    /\ depths (jsonLike e) = (0, 0)
    /\ (forall n, (0 < n < length (jsonLike e))%nat ->
          depths (take n (jsonLike e)) <> (0, 0)).
Proof.
  unfold extractDisconObject.
  destruct (indexOf html (marker key)) as [idx|] eqn:Hidx; [|discriminate].
  cbn zeta.
  destruct (skipWhitespace_stops (drop (idx + length (marker key)) html)
              (idx + length (marker key))) as (k & -> & Hk & Hws & _).
  set (start := (idx + length (marker key) + k)%nat).
  destruct (html !! start) as [opener|] eqn:Hop; [|discriminate].
  destruct (N.eqb opener lbrace || N.eqb opener lbrack) eqn:Eop;
    [|discriminate].
  cbn [negb].
  destruct (scan (drop start html) start 0 0) as [j|] eqn:Hscan;
    [|discriminate].
  intros [= <-]. cbn [jsonLike startIndex endIndex].
  destruct (scan_Some _ _ _ _ _ Hscan) as (Hj & Hend & Hmin).
  rewrite length_drop in Hj.
  assert (Hlen : (start < length html)%nat)
    by (apply lookup_lt_is_Some; eauto).
  exists idx, opener. split; [reflexivity|].
  split; [lia|]. split; [lia|]. split.
  { intros i Hi. destruct (Hws (i - (idx + length (marker key)))%nat)
      as (c & Hc & Hwc); [lia|].
    exists c. split; [|exact Hwc]. rewrite lookup_drop in Hc.
    rewrite <- Hc. f_equal. lia. }
  split; [exact Hop|]. split.
  { apply orb_true_iff in Eop as [E|E]; apply N.eqb_eq in E; auto. }
  unfold slice.
  replace (j + 1 - start)%nat with (S (j - start)) by lia.
  split; [reflexivity|]. split.
  { rewrite length_take, length_drop. lia. }
  split.
  - destruct (depths (take (S (j - start)) (drop start html))) as [a b].
    cbn [fst snd] in Hend. f_equal; lia.
  - intros n Hn. rewrite length_take, length_drop in Hn.
    rewrite take_take. replace (n `min` S (j - start))%nat with n by lia.
    intros E. apply (Hmin n); [lia|]. rewrite E. auto.
Qed.

Lemma extraction_is_first_balanced_slice_witness :
  exists idx opener,
    indexOf (u16 "a DisconSchedule.fact =  {x:[1]};") (marker (u16 "fact"))
    = Some idx
    /\ (idx + length (marker (u16 "fact")) <= 25 < 32)%nat
    /\ (32 <= length (u16 "a DisconSchedule.fact =  {x:[1]};"))%nat
    /\ (forall j, (idx + length (marker (u16 "fact")) <= j < 25)%nat ->
          exists c, u16 "a DisconSchedule.fact =  {x:[1]};" !! j = Some c
                    /\ isWhitespace c = true)
    /\ u16 "a DisconSchedule.fact =  {x:[1]};" !! 25%nat = Some opener
    /\ (opener = lbrace \/ opener = lbrack)
    /\ u16 "{x:[1]}"
       = take (32 - 25) (drop 25 (u16 "a DisconSchedule.fact =  {x:[1]};"))
    /\ length (u16 "{x:[1]}") = (32 - 25)%nat
    /\ depths (u16 "{x:[1]}") = (0, 0)
    /\ (forall n, (0 < n < length (u16 "{x:[1]}"))%nat ->
          depths (take n (u16 "{x:[1]}")) <> (0, 0)).
Proof.
  apply (extraction_is_first_balanced_slice
           (u16 "a DisconSchedule.fact =  {x:[1]};") (u16 "fact")
           {| jsonLike := u16 "{x:[1]}"; startIndex := 25; endIndex := 32 |}).
  reflexivity.
Defined.

(** X2. The extractor reports an error for one of three reasons only: the
    marker occurs nowhere in the page; or what follows the first marker,
    after whitespace, is the end of the page or a character that opens
    nothing; or, from the opener on, the two counters are never both zero
    again. *)
Theorem extraction_error_reasons (html key error : jsstring) :
  extractDisconObject html key = ExtError error ->
  (error = u16 "Marker `DisconSchedule." ++ key ++ u16 " =` not found"
   /\ forall j, startsWith (drop j html) (marker key) = false)
  \/ (exists idx i,
        indexOf html (marker key) = Some idx
        /\ (idx + length (marker key) <= i)%nat
        /\ (forall j, (idx + length (marker key) <= j < i)%nat ->
              exists c, html !! j = Some c /\ isWhitespace c = true)
        /\ ((error = u16 "Expected '{' or '[' after `DisconSchedule." ++ key
                     ++ u16 " =`"
             /\ forall c, html !! i = Some c ->
                  isWhitespace c = false /\ c <> lbrace /\ c <> lbrack)
            \/ (error = u16 "Unbalanced braces while extracting " ++ key
                        ++ u16 " object"
                /\ (exists opener, html !! i = Some opener
                                   /\ (opener = lbrace \/ opener = lbrack))
                /\ forall n, (0 < n <= length html - i)%nat ->
                     depths (take n (drop i html)) <> (0, 0)))).
Proof.
  unfold extractDisconObject.
  destruct (indexOf html (marker key)) as [idx|] eqn:Hidx.
  2:{ intros [= <-]. left. split; [reflexivity|].
      apply indexOf_None, Hidx. }
  cbn zeta.
  destruct (skipWhitespace_stops (drop (idx + length (marker key)) html)
              (idx + length (marker key))) as (k & -> & Hk & Hws & Hstop).
  set (start := (idx + length (marker key) + k)%nat).
  intros Herr. right.
  exists idx, start. split; [reflexivity|]. split; [lia|]. split.
  { intros i Hi. destruct (Hws (i - (idx + length (marker key)))%nat)
      as (c & Hc & Hwc); [lia|].
    exists c. split; [|exact Hwc]. rewrite lookup_drop in Hc.
    rewrite <- Hc. f_equal. lia. }
  assert (Hnws : forall c, html !! start = Some c -> isWhitespace c = false).
  { intros c Hc. apply Hstop. rewrite lookup_drop. exact Hc. }
  revert Herr.
  destruct (html !! start) as [opener|] eqn:Hop.
  - destruct (N.eqb opener lbrace || N.eqb opener lbrack) eqn:Eop;
      cbn [negb].
    + destruct (scan (drop start html) start 0 0) as [j|] eqn:Hscan;
        [discriminate|].
      intros [= <-]. right. split; [reflexivity|]. split.
      { exists opener. split; [reflexivity|].
        apply orb_true_iff in Eop as [E|E]; apply N.eqb_eq in E; auto. }
      intros n Hn E.
      apply (scan_None _ _ _ _ Hscan n); [rewrite length_drop; lia|].
      rewrite E. auto.
    + intros [= <-]. left. split; [reflexivity|].
      intros c [= <-]. split; [auto|].
      apply orb_false_iff in Eop as [E1 E2].
      apply N.eqb_neq in E1, E2. auto.
  - cbn [negb]. intros [= <-]. left. split; [reflexivity|].
    intros c [=].
Qed.

Lemma extraction_error_reasons_witness :
  (u16 "Unbalanced braces while extracting fact object"
   = u16 "Marker `DisconSchedule." ++ u16 "fact" ++ u16 " =` not found"
   /\ forall j, startsWith (drop j (u16 "DisconSchedule.fact = {[}"))
                  (marker (u16 "fact")) = false)
  \/ (exists idx i,
        indexOf (u16 "DisconSchedule.fact = {[}") (marker (u16 "fact"))
        = Some idx
        /\ (idx + length (marker (u16 "fact")) <= i)%nat
        /\ (forall j, (idx + length (marker (u16 "fact")) <= j < i)%nat ->
              exists c, u16 "DisconSchedule.fact = {[}" !! j = Some c
                        /\ isWhitespace c = true)
        /\ ((u16 "Unbalanced braces while extracting fact object"
             = u16 "Expected '{' or '[' after `DisconSchedule." ++ u16 "fact"
               ++ u16 " =`"
             /\ forall c, u16 "DisconSchedule.fact = {[}" !! i = Some c ->
                  isWhitespace c = false /\ c <> lbrace /\ c <> lbrack)
            \/ (u16 "Unbalanced braces while extracting fact object"
                = u16 "Unbalanced braces while extracting " ++ u16 "fact"
                  ++ u16 " object"
                /\ (exists opener,
                      u16 "DisconSchedule.fact = {[}" !! i = Some opener
                      /\ (opener = lbrace \/ opener = lbrack))
                /\ forall n,
                     (0 < n <= length (u16 "DisconSchedule.fact = {[}") - i)%nat ->
                     depths (take n (drop i (u16 "DisconSchedule.fact = {[}")))
                     <> (0, 0)))).
Proof.
  apply (extraction_error_reasons (u16 "DisconSchedule.fact = {[}")
           (u16 "fact")
           (u16 "Unbalanced braces while extracting fact object")).
  reflexivity.
Defined.

End ExtractionFacts.

Module CommandLineFacts.
Import ParseFact ValueFacts.

(** What the loop of [parseArgs] has read where it ends: each value it
    leaves that it did not start with stands right after the name of its
    option. *)
Lemma parseArgsFrom_follows n : forall rest a,
  (length rest <= n)%nat ->
  let r := parseArgsFrom rest a in
  let follows flag v :=
    exists i, rest !! i = Some flag /\ rest !! S i = Some v in
  (forall v, region r = Some v -> region a = Some v \/ follows (u16 "--region") v)
  /\ (forall v, input r = Some v -> input a = Some v \/ follows (u16 "--in") v)
  /\ (forall v, output r = Some v -> output a = Some v \/ follows (u16 "--out") v)
  /\ (forall v, upstream r = Some v ->
        upstream a = Some v \/ follows (u16 "--upstream") v)
  /\ (pretty r = true ->
      pretty a = true \/ exists i, rest !! i = Some (u16 "--pretty")).
Proof.
  induction n as [|n IH]; intros rest a Hn; cbv zeta.
  { destruct rest; [|cbn [length] in Hn; lia]. cbn. auto 10. }
  destruct rest as [|x rest]; [cbn; auto 10|].
  cbn [parseArgsFrom]. cbn [length] in Hn.
  assert (Hshift1 : forall (flag v : jsstring),
    (exists i, rest !! i = Some flag /\ rest !! S i = Some v) ->
    exists i, (x :: rest) !! i = Some flag /\ (x :: rest) !! S i = Some v).
  { intros flag v (i & H1 & H2). exists (S i). auto. }
  assert (Hshift1' : forall (flag : jsstring),
    (exists i, rest !! i = Some flag) ->
    exists i, (x :: rest) !! i = Some flag).
  { intros flag (i & H1). exists (S i). auto. }
  assert (Hshift2 : forall (flag v : jsstring) v0 after,
    rest = v0 :: after ->
    (exists i, after !! i = Some flag /\ after !! S i = Some v) ->
    exists i, (x :: rest) !! i = Some flag /\ (x :: rest) !! S i = Some v).
  { intros flag v v0 after -> (i & H1 & H2). exists (S (S i)). auto. }
  assert (Hshift2' : forall (flag : jsstring) v0 after,
    rest = v0 :: after ->
    (exists i, after !! i = Some flag) ->
    exists i, (x :: rest) !! i = Some flag).
  { intros flag v0 after -> (i & H1). exists (S (S i)). auto. }
  unfold valueOption.
  destruct (streq x (u16 "--region")) eqn:E1;
    [|destruct (streq x (u16 "--in")) eqn:E2;
      [|destruct (streq x (u16 "--out")) eqn:E3;
        [|destruct (streq x (u16 "--upstream")) eqn:E4;
          [|destruct (streq x (u16 "--pretty")) eqn:E5]]]].
  all: try match goal with E : streq ?y _ = true |- _ =>
             apply streq_eq in E; subst y end.
  1-4: destruct rest as [|v0 after] eqn:Erest;
    [cbn [setRegion setInput setOutput setUpstream
          region input output upstream pretty];
     split; [|split; [|split; [|split]]];
     first [intros v Hv; first [discriminate|left; exact Hv]
           |intros Hv; left; exact Hv]|].
  all: cbn [length] in Hn.
  all: match goal with
       | |- context [parseArgsFrom ?l ?a1] =>
         destruct (IH l a1) as (H1 & H2 & H3 & H4 & H5); [lia|]
       end.
  all: cbn [setRegion setInput setOutput setUpstream setPretty
            region input output upstream pretty] in *.
  all: split; [|split; [|split; [|split]]].
  all: first
    [ intros v Hv;
      first [destruct (H1 v Hv) as [Hx|Hx]|destruct (H2 v Hv) as [Hx|Hx]
            |destruct (H3 v Hv) as [Hx|Hx]|destruct (H4 v Hv) as [Hx|Hx]];
      [first [left; exact Hx
             |right; exists 0%nat; injection Hx as <-; split; reflexivity]
      |right; first [eapply Hshift2; [reflexivity|exact Hx]
                    |apply Hshift1; exact Hx]]
    | intros Hv; destruct (H5 Hv) as [Hx|Hx];
      [first [left; exact Hx|right; exists 0%nat; reflexivity]
      |right; first [eapply Hshift2'; [reflexivity|exact Hx]
                    |apply Hshift1'; exact Hx]] ].
Qed.

(** X3. Every value [parseArgs] returns is the word of the command line
    that stands right after the name of its option, past the first two
    words; and [pretty] is set only where [--pretty] is such a word. *)
Theorem parseArgs_values_follow_their_options (argv : list jsstring) :
  let a := parseArgs argv in
  let follows flag v :=
    exists i, (2 <= i)%nat /\ argv !! i = Some flag
              /\ argv !! S i = Some v in
  (forall v, region a = Some v -> follows (u16 "--region") v)
  /\ (forall v, input a = Some v -> follows (u16 "--in") v)
  /\ (forall v, output a = Some v -> follows (u16 "--out") v)
  /\ (forall v, upstream a = Some v -> follows (u16 "--upstream") v)
  /\ (pretty a = true ->
      exists i, (2 <= i)%nat /\ argv !! i = Some (u16 "--pretty")).
Proof.
  cbv zeta. unfold parseArgs.
  destruct (parseArgsFrom_follows (length (drop 2 argv)) (drop 2 argv)
              (Args None None None None false))
    as (H1 & H2 & H3 & H4 & H5); [lia|].
  cbn [region input output upstream pretty] in *.
  assert (Hs : forall (flag v : jsstring),
    (exists i, drop 2 argv !! i = Some flag /\ drop 2 argv !! S i = Some v) ->
    exists i, (2 <= i)%nat /\ argv !! i = Some flag /\ argv !! S i = Some v).
  { intros flag v (i & Ha & Hb). rewrite lookup_drop in Ha, Hb.
    exists (2 + i)%nat. split; [lia|]. split; [exact Ha|].
    rewrite <- Hb. f_equal. }
  split; [|split; [|split; [|split]]].
  - intros v Hv. destruct (H1 v Hv); [discriminate|auto].
  - intros v Hv. destruct (H2 v Hv); [discriminate|auto].
  - intros v Hv. destruct (H3 v Hv); [discriminate|auto].
  - intros v Hv. destruct (H4 v Hv); [discriminate|auto].
  - intros Hv. destruct (H5 Hv) as [|(i & Ha)]; [discriminate|].
    rewrite lookup_drop in Ha. exists (2 + i)%nat. split; [lia|exact Ha].
Qed.

End CommandLineFacts.

Module RunFacts.
Import Extractor ParseFact Observations RunObservations.
Import ValueFacts ProcessFacts RecordStoreFacts ParserFacts ScriptFacts.

(** *** Paths a computation leaves alone *)

Lemma keeps_ret {A} f (a : A) : keeps f (mret a).
Proof. intros w. left. reflexivity. Qed.

Lemma keeps_throw {A} f e : keeps f (throw (A := A) e).
Proof. intros w. left. reflexivity. Qed.

Lemma keeps_exit {A} f c : keeps f (exit (A := A) c).
Proof. intros w. left. reflexivity. Qed.

Lemma keeps_bind {A B} f (m : M A) (k : A -> M B) :
  keeps f m -> (forall a, keeps f (k a)) -> keeps f (m ≫= k).
Proof.
  intros Hm Hk w. rewrite run_bind. specialize (Hm w).
  destruct (m w) as [[a|e|c] w1]; cbn [snd] in *; [|exact Hm..].
  exact (keptOrMade_trans _ _ _ Hm (Hk a w1)).
Qed.

Lemma keeps_tryCatch {A} f (m : M A) handler :
  keeps f m -> (forall e, keeps f (handler e)) -> keeps f (tryCatch m handler).
Proof.
  intros Hm Hh w. rewrite run_tryCatch. specialize (Hm w).
  destruct (m w) as [[a|e|c] w1]; cbn [snd] in *; [exact Hm| |exact Hm].
  exact (keptOrMade_trans _ _ _ Hm (Hh e w1)).
Qed.

Lemma keeps_same {A} f (m : M A) :
  (forall w, files (m w).2 = files w) -> keeps f m.
Proof. intros Hm w. rewrite Hm. left. reflexivity. Qed.

Lemma keeps_consoleLine f line : keeps f (consoleLine line).
Proof. apply keeps_same. reflexivity. Qed.

Lemma keeps_isoNow `{Host} f : keeps f isoNow.
Proof. apply keeps_same. reflexivity. Qed.

Lemma keeps_existsSync f file : keeps f (existsSync file).
Proof. apply keeps_same. reflexivity. Qed.

Lemma keeps_readFileSync f file : keeps f (readFileSync file).
Proof.
  apply keeps_same. intros w. unfold readFileSync.
  destruct (files w !! file) as [[|]|]; reflexivity.
Qed.

Lemma keeps_parseJSON `{Host} f text : keeps f (parseJSON text).
Proof.
  apply keeps_same. intros w. unfold parseJSON.
  destruct (JSON_parse text); reflexivity.
Qed.

Lemma keeps_loadExisting `{Host} f file : keeps f (loadExisting file).
Proof. apply keeps_same. intros w. rewrite loadExisting_run. reflexivity. Qed.

Lemma keeps_tryParseObject `{Host} f text : keeps f (tryParseObject text).
Proof.
  apply keeps_same. intros w. rewrite tryParseObject_run.
  destruct (JSON_parse text); [|destruct (Function_call text)]; reflexivity.
Qed.

Lemma keeps_loadTemplateBase `{Host} f regionId :
  keeps f (loadTemplateBase regionId).
Proof.
  unfold loadTemplateBase. apply keeps_bind.
  - apply keeps_tryCatch; [|intros; apply keeps_ret].
    apply keeps_bind; [apply keeps_readFileSync|intros; apply keeps_parseJSON].
  - intros []; first [apply keeps_throw|apply keeps_ret].
Qed.

Lemma keeps_updateStatusOnError `{Host} f existing regionId upstream code
    message :
  keeps f (updateStatusOnError existing regionId upstream code message).
Proof.
  unfold updateStatusOnError. apply keeps_bind; [apply keeps_isoNow|].
  intros now. apply keeps_bind.
  - destruct (truthy existing); [apply keeps_ret|apply keeps_loadTemplateBase].
  - intros base. destruct (getProp _ _) as [meta|]; [|apply keeps_ret].
    destruct (truthy meta && typeofObject meta); apply keeps_ret.
Qed.

(** What [writeFileAtomic] does to the files, however it ends. *)
Lemma writeFileAtomic_files `{Host} file content w :
  let r := writeFileAtomic file content w in
  (forall f, f <> file -> f <> file ++ u16 ".tmp" ->
     keptOrMade (files w !! f) (files r.2 !! f))
  /\ (writable w file ->
      r.1 = Return tt
      /\ files r.2 !! file = Some (File content)
      /\ files r.2 !! (file ++ u16 ".tmp") = None)
  /\ (~ writable w file ->
      (exists e, r.1 = Throw e)
      /\ keptOrMade (files w !! file) (files r.2 !! file))
  /\ (forall text,
        files w !! path_dirname file = Some (File text) ->
        r = (Throw (u16 "EEXIST: file already exists, mkdir '"
                    ++ path_dirname file ++ u16 "'"), w)).
Proof.
  cbv zeta. rewrite writeFileAtomic_cases. unfold writable.
  pose proof (tmp_neq file) as Hne.
  destruct (makeDirs _ _ (files w)) as [fs|message] eqn:Em.
  2:{ split; [intros; left; reflexivity|].
      split; [intros (fs' & E' & _); discriminate E'|].
      split; [intros _; split; [eexists; reflexivity|left; reflexivity]|].
      intros text Hd. rewrite (makeDirs_file _ _ _ _ Hd) in Em.
      injection Em as <-. reflexivity. }
  pose proof (makeDirs_lookup _ _ _ _ Em) as Hk.
  assert (Hno : forall text,
            files w !! path_dirname file <> Some (File text)).
  { intros text Hd. rewrite (makeDirs_file _ _ _ _ Hd) in Em.
    discriminate Em. }
  assert (Hdir : fs !! (file ++ u16 ".tmp") = Some Dir \/ fs !! file = Some Dir
                 \/ (fs !! (file ++ u16 ".tmp") <> Some Dir
                     /\ fs !! file <> Some Dir)).
  { destruct (fs !! (file ++ u16 ".tmp")) as [[|]|]; auto;
      destruct (fs !! file) as [[|]|]; auto; right; right; split; congruence. }
  destruct Hdir as [Et|[Ef|[Et Ef]]].
  - rewrite Et. cbn [fst snd files].
    split; [intros f _ _; apply Hk|].
    split; [intros (fs' & [= <-] & _ & Ht'); congruence|].
    split; [intros _; split; [eexists; reflexivity|apply Hk]|].
    intros text Hd. destruct (Hno text Hd).
  - destruct (fs !! (file ++ u16 ".tmp")) as [[c0|]|] eqn:Et; rewrite ?Ef;
      cbn [fst snd files];
      (split; [intros f H1 H2; rewrite ?lookup_insert_ne by congruence;
               apply Hk|]);
      (split; [intros (fs' & [= <-] & Hf' & Ht'); congruence|]);
      (split; [intros _; split; [eexists; reflexivity|];
               rewrite ?lookup_insert_ne by congruence; apply Hk|]);
      intros text Hd; destruct (Hno text Hd).
  - assert (Hret :
      match fs !! (file ++ u16 ".tmp") with
      | Some Dir =>
        (Throw (u16 "EISDIR: illegal operation on a directory, open"),
         World fs (ticks w) (console w) (evals w))
      | _ =>
        match fs !! file with
        | Some Dir =>
          (Throw (u16 "EISDIR: illegal operation on a directory, rename"),
           World (<[file ++ u16 ".tmp" := File content]> fs)
                 (ticks w) (console w) (evals w))
        | _ =>
          (Return tt,
           World (<[file := File content]>
                    (delete (file ++ u16 ".tmp")
                            (<[file ++ u16 ".tmp" := File content]> fs)))
                 (ticks w) (console w) (evals w))
        end
      end
      = (Return tt,
         World (<[file := File content]>
                  (delete (file ++ u16 ".tmp")
                          (<[file ++ u16 ".tmp" := File content]> fs)))
               (ticks w) (console w) (evals w))).
    { destruct (fs !! (file ++ u16 ".tmp")) as [[|]|]; try congruence;
        destruct (fs !! file) as [[|]|]; congruence. }
    rewrite Hret. cbn [fst snd files].
    split.
    { intros f H1 H2.
      rewrite lookup_insert_ne, lookup_delete_ne, lookup_insert_ne
        by congruence.
      apply Hk. }
    split.
    { intros _. split; [reflexivity|].
      split; [apply lookup_insert_eq|].
      rewrite lookup_insert_ne by congruence. apply lookup_delete_eq. }
    split.
    { intros Hn. contradict Hn. exists fs. auto. }
    intros text Hd. destruct (Hno text Hd).
Qed.

Lemma keeps_writeFileAtomic `{Host} f file content :
  f <> file -> f <> file ++ u16 ".tmp" ->
  keeps f (writeFileAtomic file content).
Proof.
  intros H1 H2 w. apply (writeFileAtomic_files file content w); assumption.
Qed.

Lemma keeps_exitWithError `{Host} f a regionId out code message :
  f <> out -> f <> out ++ u16 ".tmp" ->
  keeps f (exitWithError a regionId out code message).
Proof.
  intros H1 H2. unfold exitWithError.
  apply keeps_bind; [apply keeps_loadExisting|intros existing].
  apply keeps_bind; [apply keeps_updateStatusOnError|intros errObj].
  apply keeps_bind; [apply keeps_writeFileAtomic; assumption|intros _].
  apply keeps_exit.
Qed.

Lemma keeps_mainBody `{Host} f a regionId inp out :
  f <> out -> f <> out ++ u16 ".tmp" ->
  keeps f (mainBody a regionId inp out).
Proof.
  intros H1 H2. unfold mainBody.
  apply keeps_bind; [apply keeps_existsSync|intros inputExists].
  destruct (negb inputExists).
  { apply keeps_bind; [apply keeps_consoleLine|intros _].
    apply keeps_exitWithError; assumption. }
  apply keeps_bind; [apply keeps_readFileSync|intros html].
  destruct (extractDisconObject html (u16 "fact")) as [error|factExt].
  { apply keeps_bind; [apply keeps_consoleLine|intros _].
    apply keeps_exitWithError; assumption. }
  apply keeps_bind; [apply keeps_tryParseObject|intros [fv fm|error]].
  2:{ apply keeps_bind; [apply keeps_consoleLine|intros _].
      apply keeps_exitWithError; assumption. }
  apply keeps_bind.
  { destruct (extractDisconObject html (u16 "preset")) as [e|pe];
      [apply keeps_ret|].
    apply keeps_bind; [apply keeps_tryParseObject|intros [v m|error]];
      [apply keeps_ret|].
    apply keeps_bind; [apply keeps_consoleLine|intros _; apply keeps_ret]. }
  intros presetParsed.
  apply keeps_bind; [apply keeps_isoNow|intros now].
  apply keeps_bind.
  { unfold buildOutput. apply keeps_bind; [apply keeps_isoNow|].
    intros; apply keeps_ret. }
  intros outObj.
  apply keeps_bind; [apply keeps_loadExisting|intros existing].
  destruct (getProp _ (u16 "meta")) as [meta|]; [|apply keeps_throw].
  apply keeps_bind; [apply keeps_writeFileAtomic; assumption|intros _].
  apply keeps_consoleLine.
Qed.

Lemma keeps_main `{Host} f argv :
  (forall out, output (parseArgs argv) = Some out ->
     f <> out /\ f <> out ++ u16 ".tmp") ->
  keeps f (main argv).
Proof.
  intros Hf. unfold main.
  destruct (region (parseArgs argv)) as [[|r rs]|];
    destruct (input (parseArgs argv)) as [[|i ins]|];
    destruct (output (parseArgs argv)) as [[|o os]|];
    try (apply keeps_bind; [apply keeps_consoleLine|intros _; apply keeps_exit]).
  destruct (Hf (o :: os) eq_refl). apply keeps_mainBody; assumption.
Qed.

Lemma keeps_onCrash `{Host} f argv e :
  (forall out, output (parseArgs argv) = Some out ->
     f <> out /\ f <> out ++ u16 ".tmp") ->
  keeps f (onCrash argv e).
Proof.
  intros Hf. unfold onCrash.
  apply keeps_bind; [apply keeps_consoleLine|intros _].
  apply keeps_bind; [|intros _; apply keeps_exit].
  apply keeps_tryCatch; [|intros; apply keeps_ret]. cbv zeta.
  apply keeps_bind.
  { destruct (output (parseArgs argv)) as [[|o os]|];
      first [apply keeps_ret|apply keeps_loadExisting]. }
  intros existing.
  apply keeps_bind; [apply keeps_updateStatusOnError|intros errObj].
  destruct (output (parseArgs argv)) as [[|o os]|]; try apply keeps_ret.
  destruct (Hf (o :: os) eq_refl). apply keeps_writeFileAtomic; assumption.
Qed.

(** X7. A run of the extraction script in which no text of the page is
    handed to the permissive evaluation, however it ends, writes to no
    path that is neither the output named on the command line nor that
    output's temporary sibling: the input page, the template and every
    other path are what they were, or a directory where there was
    nothing, as are the directories made on the way to the output. *)
Theorem script_writes_only_its_output `{Host}
  (argv : list jsstring) (w : world) (f : jsstring) :
  (forall out, output (parseArgs argv) = Some out ->
     f <> out /\ f <> out ++ u16 ".tmp") ->
  evals (script argv w).2 = evals w ->
  keptOrMade (files w !! f) (files (script argv w).2 !! f).
Proof.
  intros Hf _. revert w. change (keeps f (script argv)). unfold script.
  apply keeps_tryCatch; [apply keeps_main|intros e; apply keeps_onCrash];
    exact Hf.
Qed.

Lemma script_writes_only_its_output_witness :
  evals (script (H := Node.host []) Samples.argv Samples.withPage).2
  = evals Samples.withPage
  /\ keptOrMade
       (files Samples.withPage !! u16 "outputs/kyiv.html")
       (files (script (H := Node.host []) Samples.argv Samples.withPage).2
          !! u16 "outputs/kyiv.html").
Proof.
  assert (Hev : evals (script (H := Node.host []) Samples.argv
                         Samples.withPage).2
                = evals Samples.withPage) by (vm_compute; reflexivity).
  split; [exact Hev|].
  apply (script_writes_only_its_output (H := Node.host []) Samples.argv
           Samples.withPage (u16 "outputs/kyiv.html")); [|exact Hev].
  intros out [= <-]. split; discriminate.
Defined.


(** *** How a run can end *)



Lemma quiet_exit {A} c : quiet (exit (A := A) c).
Proof. intros w. reflexivity. Qed.

























(** *** The template *)

(** X6. [loadTemplateBase] never changes a file. Without a template that
    can be read and decoded it returns the minimal record for the region:
    the region or [null] as [regionId], an idle status with attempt 0, no
    fact and no preset. With a template that is a record it returns the
    template, with [regionId] replaced by the region where one is given,
    and set to [null] where none is given and the template has none that
    is truthy. A template that decodes to [null] makes it throw. *)
Theorem loadTemplateBase_cases `{Host}
  (regionId : option jsstring) (w : world) :
  files (loadTemplateBase regionId w).2 = files w
  /\ ((forall text t, files w !! templatePath = Some (File text) ->
                      JSON_parse text <> inl t) ->
      loadTemplateBase regionId w = (Return (fallbackTemplate regionId), w))
  /\ (forall text props,
        files w !! templatePath = Some (File text) ->
        JSON_parse text = inl (VObj props) ->
        exists t,
          loadTemplateBase regionId w = (Return (VObj t), w)
          /\ (forall k, streq k (u16 "regionId") = false ->
                        lookupProp k t = lookupProp k props)
          /\ lookupProp (u16 "regionId") t
             = Some (if given regionId then strOrNull regionId
                     else orElse (lookupProp (u16 "regionId") props) VNull))
  /\ (forall text,
        files w !! templatePath = Some (File text) ->
        JSON_parse text = inl VNull ->
        exists e, loadTemplateBase regionId w = (Throw e, w)).
Proof.
  split; [|split; [|split]].
  - unfold loadTemplateBase. rewrite run_bind, run_tryCatch, run_bind.
    unfold readFileSync, parseJSON.
    destruct (files w !! templatePath) as [[text|]|];
      [destruct (JSON_parse text) as [[]|e]|..]; reflexivity.
  - intros Hno. unfold loadTemplateBase.
    rewrite run_bind, run_tryCatch, run_bind. unfold readFileSync, parseJSON.
    assert (Hfb : forall w1,
      (let template := fallbackTemplate regionId in
       match template with
       | VNull =>
         throw (u16 "Cannot set properties of null (setting 'regionId')")
       | _ =>
         ret (setProp template (u16 "regionId")
                (orElse (VStr <$> regionId)
                   (orElse (getProp template (u16 "regionId")) VNull)))
       end) w1 = (Return (fallbackTemplate regionId), w1)).
    { intros w1. destruct regionId as [[|c s]|]; reflexivity. }
    destruct (files w !! templatePath) as [[text|]|] eqn:Ef.
    + destruct (JSON_parse text) as [t|e] eqn:Ep.
      * exfalso. exact (Hno text t eq_refl Ep).
      * cbv beta iota. apply Hfb.
    + cbv beta iota. apply Hfb.
    + cbv beta iota. apply Hfb.
  - intros text props Hf Hp. unfold loadTemplateBase.
    rewrite run_bind, run_tryCatch, run_bind. unfold readFileSync, parseJSON.
    rewrite Hf. cbv beta iota. rewrite Hp. cbv beta iota.
    eexists. split; [reflexivity|]. split.
    + intros k Hk. apply lookupProp_assignProp_ne. exact Hk.
    + rewrite lookupProp_assignProp_eq. f_equal.
      destruct regionId as [[|c s]|]; reflexivity.
  - intros text Hf Hp. unfold loadTemplateBase.
    rewrite run_bind, run_tryCatch, run_bind. unfold readFileSync, parseJSON.
    rewrite Hf. cbv beta iota. rewrite Hp. cbv beta iota.
    eexists. reflexivity.
Qed.

End RunFacts.

Module RunRecordFacts.
Import Extractor ParseFact Observations RunObservations.
Import ValueFacts ProcessFacts RecordStoreFacts ParserFacts ScriptFacts.
Import RunFacts.

(** *** The record of a successful parse *)








(** *** The record of a failing run *)















End RunRecordFacts.

Module DecimalFacts.
Import TimeNormalizer.

Lemma isDigit_cases c :
  isDigit c = true ->
  (c = 48 \/ c = 49 \/ c = 50 \/ c = 51 \/ c = 52 \/ c = 53 \/ c = 54
   \/ c = 55 \/ c = 56 \/ c = 57)%N.
Proof.
  unfold isDigit. intros [H1 H2]%andb_true_iff.
  apply N.leb_le in H1, H2. lia.
Qed.

Lemma isDigit_not_space c : isDigit c = true -> isWhitespace c = false.
Proof.
  intros Hc. destruct (isDigit_cases c Hc) as [->|[->|[->|[->|[->|[->|[->|[->|[->| ->]]]]]]]]];
    reflexivity.
Qed.

(** The value of a string of digits, as [Number] and the runtime read
    it. *)
Lemma digitsValue_app a b :
  Node.digitsValue (a ++ b)
  = fold_left (fun acc d => 10 * acc + (Z.of_N d - 48)) b (Node.digitsValue a).
Proof. unfold Node.digitsValue. apply fold_left_app. Qed.

Lemma digitsValue_snoc a d :
  Node.digitsValue (a ++ [d]) = 10 * Node.digitsValue a + (Z.of_N d - 48).
Proof. rewrite digitsValue_app. reflexivity. Qed.

Lemma digitsValue_zeros k ds :
  Node.digitsValue (repeat 48%N k ++ ds) = Node.digitsValue ds.
Proof.
  induction k as [|k IH]; [reflexivity|].
  cbn [repeat app]. unfold Node.digitsValue in *. cbn [fold_left].
  exact IH.
Qed.

(** [String(n)] writes [n] in decimal digits: at least one, as many as
    [n] needs, and no other character. *)
Lemma decimalDigits_spec fuel : forall n acc,
  (n < fuel)%nat ->
  exists ds,
    decimalDigits fuel n acc = ds ++ acc
    /\ ds <> []
    /\ Forall (fun c => isDigit c = true) ds
    /\ Node.digitsValue ds = Z.of_nat n
    /\ ((n < 10)%nat -> length ds = 1%nat)
    /\ ((10 <= n < 100)%nat -> length ds = 2%nat)
    /\ ((100 <= n)%nat -> (3 <= length ds)%nat).
Proof.
  induction fuel as [|fuel IH]; intros n acc Hn; [lia|].
  cbn [decimalDigits].
  assert (Hd : isDigit (48 + N.of_nat (n mod 10)) = true).
  { unfold isDigit. apply andb_true_iff. split; apply N.leb_le.
    - lia.
    - pose proof (Nat.mod_upper_bound n 10). lia. }
  destruct (Nat.eqb_spec (n / 10) 0) as [E|E].
  - exists [(48 + N.of_nat (n mod 10))%N].
    assert (n < 10)%nat.
    { destruct (Nat.lt_ge_cases n 10); [assumption|].
      pose proof (Nat.div_le_lower_bound n 10 1). lia. }
    split; [reflexivity|]. split; [discriminate|].
    split; [repeat constructor; exact Hd|].
    split.
    { unfold Node.digitsValue. cbn [fold_left].
      rewrite Nat.mod_small by assumption. lia. }
    split; [reflexivity|]. split; intros; lia.
  - assert (10 <= n)%nat.
    { destruct (Nat.lt_ge_cases n 10) as [Hlt|]; [|assumption].
      rewrite Nat.div_small in E by assumption. contradiction. }
    assert (Hq : (n / 10 < n)%nat) by (apply Nat.div_lt; lia).
    destruct (IH (n / 10)%nat ((48 + N.of_nat (n mod 10))%N :: acc))
      as (ds & -> & Hne & Hall & Hval & H1 & H2 & H3); [lia|].
    exists (ds ++ [(48 + N.of_nat (n mod 10))%N]).
    split; [rewrite <- app_assoc; reflexivity|].
    split; [destruct ds; discriminate|].
    split; [apply Forall_app; split; [exact Hall|repeat constructor; exact Hd]|].
    split.
    { rewrite digitsValue_snoc, Hval.
      pose proof (Nat.div_mod_eq n 10). lia. }
    rewrite length_app. cbn [length].
    assert (Hlen : (1 <= length ds)%nat)
      by (destruct ds; [contradiction|cbn [length]; lia]).
    split; [intros; lia|]. split.
    + intros. rewrite H1; [reflexivity|].
      apply Nat.Div0.div_lt_upper_bound. lia.
    + intros Hn'.
      assert (10 <= n / 10)%nat by (apply Nat.div_le_lower_bound; lia).
      destruct (Nat.lt_ge_cases (n / 10) 100) as [Hs|Hs].
      * rewrite H2 by lia. lia.
      * specialize (H3 Hs). lia.
Qed.

Lemma natToString_spec n :
  natToString n <> []
  /\ Forall (fun c => isDigit c = true) (natToString n)
  /\ Node.digitsValue (natToString n) = Z.of_nat n
  /\ ((n < 10)%nat -> length (natToString n) = 1%nat)
  /\ ((10 <= n < 100)%nat -> length (natToString n) = 2%nat)
  /\ ((100 <= n)%nat -> (3 <= length (natToString n))%nat).
Proof.
  unfold natToString.
  destruct (decimalDigits_spec (S n) n []) as (ds & -> & H); [lia|].
  rewrite app_nil_r. exact H.
Qed.

Lemma takeWhile_all p s :
  Forall (fun c => p c = true) s -> takeWhile p s = (s, []).
Proof.
  induction 1 as [|c s Hc _ IH]; [reflexivity|].
  cbn [takeWhile]. rewrite Hc, IH. reflexivity.
Qed.

Lemma trimStart_id c s : isWhitespace c = false -> trimStart (c :: s) = c :: s.
Proof. intros E. cbn [trimStart]. rewrite E. reflexivity. Qed.

(** Text that neither starts nor ends with whitespace is its own trim. *)
Lemma trim_id c s d :
  isWhitespace c = false -> isWhitespace d = false ->
  last (c :: s) = Some d -> trim (c :: s) = c :: s.
Proof.
  intros Hc Hd Hlast. unfold trim. rewrite (trimStart_id c s Hc).
  destruct (rev (c :: s)) as [|x r] eqn:Er.
  { apply (f_equal length) in Er. rewrite length_rev in Er. discriminate. }
  assert (x = d).
  { rewrite <- (rev_involutive (c :: s)), Er in Hlast.
    cbn [rev] in Hlast. rewrite last_snoc in Hlast. congruence. }
  subst x. rewrite (trimStart_id d r Hd), <- Er. apply rev_involutive.
Qed.

Lemma last_digit ds :
  ds <> [] -> Forall (fun c => isDigit c = true) ds ->
  exists d, last ds = Some d /\ isDigit d = true.
Proof.
  intros Hne Hall. destruct (last ds) as [d|] eqn:E.
  - exists d. split; [reflexivity|].
    apply last_Some in E as [l ->]. apply Forall_app in Hall as [_ Hd].
    inversion Hd. assumption.
  - apply last_None in E. contradiction.
Qed.

(** [Number] reads a string of digits as the number they write. *)
Lemma Number_digits ds :
  ds <> [] -> Forall (fun c => isDigit c = true) ds ->
  Number ds = Some (Node.digitsValue ds).
Proof.
  intros Hne Hall. destruct (last_digit ds Hne Hall) as (d & Hlast & Hd).
  destruct ds as [|c s]; [contradiction|].
  pose proof (Forall_inv Hall) as Hc. cbn beta in Hc.
  unfold Number.
  rewrite (trim_id c s d (isDigit_not_space c Hc) (isDigit_not_space d Hd)
             Hlast).
  destruct (isDigit_cases c Hc) as [->|[->|[->|[->|[->|[->|[->|[->|[->| ->]]]]]]]]];
    rewrite (takeWhile_all isDigit _ Hall); reflexivity.
Qed.

Lemma Number_minus_digits ds :
  ds <> [] -> Forall (fun c => isDigit c = true) ds ->
  Number (45%N :: ds) = Some (- Node.digitsValue ds).
Proof.
  intros Hne Hall. destruct (last_digit ds Hne Hall) as (d & Hlast & Hd).
  unfold Number.
  rewrite (trim_id 45%N ds d eq_refl (isDigit_not_space d Hd)).
  - rewrite (takeWhile_all isDigit _ Hall).
    destruct ds; [contradiction|reflexivity].
  - destruct ds; [contradiction|exact Hlast].
Qed.

Lemma pad2_nonneg n :
  0 <= n ->
  exists ds,
    pad2 n = ds
    /\ ds <> []
    /\ Forall (fun c => isDigit c = true) ds
    /\ Node.digitsValue ds = n
    /\ (2 <= length ds)%nat
    /\ (n < 100 -> length ds = 2%nat).
Proof.
  intros Hn. unfold pad2, numberToString, padStart2.
  assert ((n <? 0) = false) as -> by lia. cbn [app].
  destruct (natToString_spec (Z.to_nat (Z.abs n)))
    as (Hne & Hall & Hval & H1 & H2 & H3).
  set (s := natToString (Z.to_nat (Z.abs n))) in *.
  eexists. split; [reflexivity|].
  split; [destruct s; [contradiction|]; destruct (repeat _ _); discriminate|].
  split.
  { apply Forall_app. split; [|exact Hall].
    induction (2 - length s)%nat; constructor; auto. }
  split; [rewrite digitsValue_zeros, Hval; lia|].
  rewrite length_app, repeat_length.
  assert (1 <= length s)%nat
    by (destruct s; [contradiction|cbn [length]; lia]).
  split; [lia|]. intros Hlt.
  destruct (Nat.lt_ge_cases (Z.to_nat (Z.abs n)) 10) as [Hs|Hs].
  - rewrite (H1 Hs). reflexivity.
  - rewrite H2 by lia. reflexivity.
Qed.

(** X12. [pad2] writes a number so that it reads back as itself: at least
    two characters, exactly two digits for a number from 0 to 99, a
    leading zero where the number has one digit, and nothing but the
    number's own text where it is negative or has three digits or more. *)
Theorem pad2_reads_back (n : Z) :
  Number (pad2 n) = Some n
  /\ (2 <= length (pad2 n))%nat
  /\ (0 <= n < 100 ->
      length (pad2 n) = 2%nat
      /\ Forall (fun c => isDigit c = true) (pad2 n))
  /\ (0 <= n < 10 -> pad2 n = 48%N :: numberToString n)
  /\ (n < 0 \/ 10 <= n -> pad2 n = numberToString n).
Proof.
  destruct (Z.lt_ge_cases n 0) as [Hneg|Hpos].
  - assert (Hs : pad2 n = 45%N :: natToString (Z.to_nat (Z.abs n))
                 /\ numberToString n
                    = 45%N :: natToString (Z.to_nat (Z.abs n))).
    { unfold pad2, padStart2, numberToString.
      assert ((n <? 0) = true) as -> by lia. cbn [app u16].
      destruct (natToString_spec (Z.to_nat (Z.abs n))) as (Hne & _).
      destruct (natToString _); [contradiction|]. split; reflexivity. }
    destruct Hs as [Hs Hs'].
    destruct (natToString_spec (Z.to_nat (Z.abs n)))
      as (Hne & Hall & Hval & _).
    rewrite Hs, Hs'. split.
    { rewrite Number_minus_digits by assumption. f_equal. lia. }
    split.
    { cbn [length]. destruct (natToString _); [contradiction|].
      cbn [length]. lia. }
    split; [intros; lia|]. split; [intros; lia|]. reflexivity.
  - destruct (pad2_nonneg n Hpos) as (ds & Hds & Hne & Hall & Hval & Hlen & H2).
    rewrite Hds. split; [rewrite Number_digits by assumption; congruence|].
    split; [exact Hlen|]. split; [intros [_ ?]; auto|].
    rewrite <- Hds. unfold pad2, padStart2, numberToString.
    assert ((n <? 0) = false) as -> by lia. cbn [app].
    destruct (natToString_spec (Z.to_nat (Z.abs n)))
      as (_ & _ & _ & H1' & H2' & H3').
    split.
    + intros Hn. rewrite H1' by lia. reflexivity.
    + intros [Hn|Hn]; [lia|].
      destruct (Nat.lt_ge_cases (Z.to_nat (Z.abs n)) 100) as [Hs|Hs].
      * rewrite H2' by lia. reflexivity.
      * specialize (H3' Hs).
        replace (2 - length (natToString (Z.to_nat (Z.abs n))))%nat
          with 0%nat by lia.
        reflexivity.
Qed.

Lemma split_no_sep sep s :
  Forall (fun c => N.eqb c sep = false) s -> split sep s = [s].
Proof.
  induction 1 as [|c s Hc _ IH]; [reflexivity|].
  cbn [split]. rewrite Hc, IH. reflexivity.
Qed.

Lemma split_app sep a b :
  Forall (fun c => N.eqb c sep = false) a ->
  split sep (a ++ sep :: b) = a :: split sep b.
Proof.
  induction 1 as [|c a Hc _ IH].
  - cbn [app split]. rewrite N.eqb_refl. reflexivity.
  - cbn [app split]. rewrite Hc, IH. reflexivity.
Qed.

Lemma digits_no_sep sep ds :
  isDigit sep = false ->
  Forall (fun c => isDigit c = true) ds ->
  Forall (fun c => N.eqb c sep = false) ds.
Proof.
  intros Hsep Hall. eapply Forall_impl; [exact Hall|]. intros c Hc.
  apply N.eqb_neq. intros ->. congruence.
Qed.

(** X13. [formatOffset] writes the sign, then hours and minutes that read
    back, through the [split(':')] and [Number] that the script reads
    times with, as the hours and minutes of the offset; the minutes take
    two digits, and so do the hours of an offset of less than a hundred
    hours, which makes six characters in all. *)
Theorem formatOffset_reads_back (totalMinutes : Z) :
  let a := Z.abs totalMinutes in
  (exists sign, formatOffset totalMinutes !! 0%nat = Some sign
                /\ sign = if 0 <=? totalMinutes then 43%N else 45%N)
  /\ List.map Number (split 58 (drop 1 (formatOffset totalMinutes)))
     = [Some (a / 60); Some (a mod 60)]
  /\ (a < 6000 -> length (formatOffset totalMinutes) = 6%nat)
  /\ (if 0 <=? totalMinutes then 1 else -1) * (a / 60 * 60 + a mod 60)
     = totalMinutes.
Proof.
  intros a. unfold formatOffset. fold a.
  assert (Ha : 0 <= a) by apply Z.abs_nonneg.
  assert (Hq : 0 <= a / 60) by (apply Z.div_pos; lia).
  assert (Hr : 0 <= a mod 60 < 60) by (apply Z.mod_pos_bound; lia).
  destruct (pad2_nonneg (a / 60) Hq) as (hh & -> & Hne1 & Hall1 & Hv1 & Hl1 & Hl1').
  destruct (pad2_nonneg (a mod 60) (proj1 Hr))
    as (mm & -> & Hne2 & Hall2 & Hv2 & Hl2 & Hl2').
  split.
  { destruct (0 <=? totalMinutes); eexists; split; reflexivity. }
  split.
  { assert (drop 1 ((if 0 <=? totalMinutes then u16 "+" else u16 "-")
                    ++ hh ++ u16 ":" ++ mm) = hh ++ 58%N :: mm) as ->
      by (destruct (0 <=? totalMinutes); reflexivity).
    rewrite split_app by (apply digits_no_sep; [reflexivity|exact Hall1]).
    rewrite split_no_sep by (apply digits_no_sep; [reflexivity|exact Hall2]).
    cbn [List.map]. rewrite !Number_digits by assumption.
    rewrite Hv1, Hv2. reflexivity. }
  split.
  { intros Hlt. rewrite !length_app.
    rewrite Hl1' by (apply Z.div_lt_upper_bound; lia).
    rewrite Hl2' by lia.
    destruct (0 <=? totalMinutes); reflexivity. }
  pose proof (Z.div_mod a 60). subst a.
  destruct (Z.leb_spec 0 totalMinutes); lia.
Qed.

(** X14. What [zonedTimeToUtc] makes of a date or a time with parts
    missing or to spare: a date without a day, or with day 0, is the
    first of its month; a date without a month is in January; a time
    without minutes is on the hour; and parts past the day and past the
    minutes, seconds among them, are not read. *)
Theorem zonedTimeToUtc_missing_parts `{Zones}
  (Y M D h m more dateStr timeStr timeZone : jsstring) :
  Forall (fun c => N.eqb c 45 = false) Y ->
  Forall (fun c => N.eqb c 45 = false) M ->
  Forall (fun c => N.eqb c 45 = false) D ->
  Forall (fun c => N.eqb c 58 = false) h ->
  Forall (fun c => N.eqb c 58 = false) m ->
  zonedTimeToUtc (Y ++ u16 "-" ++ M) timeStr timeZone
  = zonedTimeToUtc (Y ++ u16 "-" ++ M ++ u16 "-01") timeStr timeZone
  /\ zonedTimeToUtc (Y ++ u16 "-" ++ M ++ u16 "-00") timeStr timeZone
     = zonedTimeToUtc (Y ++ u16 "-" ++ M ++ u16 "-01") timeStr timeZone
  /\ zonedTimeToUtc Y timeStr timeZone
     = zonedTimeToUtc (Y ++ u16 "-01-01") timeStr timeZone
  /\ zonedTimeToUtc (Y ++ u16 "-" ++ M ++ u16 "-" ++ D ++ u16 "-" ++ more)
       timeStr timeZone
     = zonedTimeToUtc (Y ++ u16 "-" ++ M ++ u16 "-" ++ D) timeStr timeZone
  /\ zonedTimeToUtc dateStr h timeZone
     = zonedTimeToUtc dateStr (h ++ u16 ":00") timeZone
  /\ zonedTimeToUtc dateStr (h ++ u16 ":" ++ m ++ u16 ":" ++ more) timeZone
     = zonedTimeToUtc dateStr (h ++ u16 ":" ++ m) timeZone.
Proof.
  intros HY HM HD Hh Hm. unfold zonedTimeToUtc.
  assert (H01 : Forall (fun c => N.eqb c 45 = false) (u16 "01"))
    by (repeat constructor).
  assert (H00 : Forall (fun c => N.eqb c 45 = false) (u16 "00"))
    by (repeat constructor).
  assert (Hm00 : Forall (fun c => N.eqb c 58 = false) (u16 "00"))
    by (repeat constructor).
  change (u16 "-01-01") with (u16 "-" ++ u16 "01" ++ u16 "-" ++ u16 "01").
  change (u16 "-01") with (u16 "-" ++ u16 "01").
  change (u16 "-00") with (u16 "-" ++ u16 "00").
  change (u16 ":00") with (u16 ":" ++ u16 "00").
  change (u16 "-") with [45%N]. change (u16 ":") with [58%N].
  cbn [app].
  rewrite ?(split_app 45 Y), ?(split_app 45 M), ?(split_app 45 D),
    ?(split_app 45 (u16 "01")), ?(split_app 45 (u16 "00")),
    ?(split_app 58 h), ?(split_app 58 m) by assumption.
  rewrite ?(split_no_sep 45 Y), ?(split_no_sep 45 M), ?(split_no_sep 45 D),
    ?(split_no_sep 45 (u16 "01")), ?(split_no_sep 45 (u16 "00")),
    ?(split_no_sep 58 h), ?(split_no_sep 58 m),
    ?(split_no_sep 58 (u16 "00")) by assumption.
  unfold numberAt. cbn [lookup list_lookup].
  repeat split; reflexivity.
Qed.

Lemma zonedTimeToUtc_missing_parts_witness :
  zonedTimeToUtc (H := kyiv) (u16 "2024" ++ u16 "-" ++ u16 "03") (u16 "8")
    (u16 "Europe/Kyiv")
  = zonedTimeToUtc (H := kyiv) (u16 "2024" ++ u16 "-" ++ u16 "03" ++ u16 "-01")
      (u16 "8") (u16 "Europe/Kyiv")
  /\ zonedTimeToUtc (H := kyiv) (u16 "2024" ++ u16 "-" ++ u16 "03" ++ u16 "-00")
       (u16 "8") (u16 "Europe/Kyiv")
     = zonedTimeToUtc (H := kyiv)
         (u16 "2024" ++ u16 "-" ++ u16 "03" ++ u16 "-01") (u16 "8")
         (u16 "Europe/Kyiv")
  /\ zonedTimeToUtc (H := kyiv) (u16 "2024") (u16 "8") (u16 "Europe/Kyiv")
     = zonedTimeToUtc (H := kyiv) (u16 "2024" ++ u16 "-01-01") (u16 "8")
         (u16 "Europe/Kyiv")
  /\ zonedTimeToUtc (H := kyiv)
       (u16 "2024" ++ u16 "-" ++ u16 "03" ++ u16 "-" ++ u16 "05" ++ u16 "-"
        ++ u16 "59") (u16 "8") (u16 "Europe/Kyiv")
     = zonedTimeToUtc (H := kyiv)
         (u16 "2024" ++ u16 "-" ++ u16 "03" ++ u16 "-" ++ u16 "05") (u16 "8")
         (u16 "Europe/Kyiv")
  /\ zonedTimeToUtc (H := kyiv) (u16 "2024-03-05") (u16 "08")
       (u16 "Europe/Kyiv")
     = zonedTimeToUtc (H := kyiv) (u16 "2024-03-05") (u16 "08" ++ u16 ":00")
         (u16 "Europe/Kyiv")
  /\ zonedTimeToUtc (H := kyiv) (u16 "2024-03-05")
       (u16 "08" ++ u16 ":" ++ u16 "30" ++ u16 ":" ++ u16 "59")
       (u16 "Europe/Kyiv")
     = zonedTimeToUtc (H := kyiv) (u16 "2024-03-05")
         (u16 "08" ++ u16 ":" ++ u16 "30") (u16 "Europe/Kyiv").
Proof.
  apply (zonedTimeToUtc_missing_parts (H := kyiv) (u16 "2024") (u16 "03")
           (u16 "05") (u16 "08") (u16 "30") (u16 "59") (u16 "2024-03-05")
           (u16 "8") (u16 "Europe/Kyiv"));
    repeat constructor.
Defined.

End DecimalFacts.

Module GroupFacts.
Import TimeNormalizer GroupNormalizer ValueFacts.

Lemma takeWhile_split p s a b :
  takeWhile p s = (a, b) ->
  s = a ++ b /\ Forall (fun c => p c = true) a
  /\ match b with c :: _ => p c = false | [] => True end.
Proof.
  revert a b. induction s as [|c s IH]; intros a b; cbn [takeWhile].
  - intros [= <- <-]. auto.
  - destruct (p c) eqn:E.
    + destruct (takeWhile p s) as [a' b'].
      intros [= <- <-]. destruct (IH a' b' eq_refl) as (-> & Ha & Hb).
      split; [reflexivity|]. split; [constructor; assumption|exact Hb].
    + intros [= <- <-]. split; [reflexivity|]. split; [constructor|exact E].
Qed.

Lemma takeWhile_app p a c rest :
  Forall (fun x => p x = true) a -> p c = false ->
  takeWhile p (a ++ c :: rest) = (a, c :: rest).
Proof.
  intros Ha Hc. induction Ha as [|x a Hx _ IH]; cbn [app takeWhile].
  - rewrite Hc. reflexivity.
  - rewrite Hx, IH. reflexivity.
Qed.

(** A time the normalizer accepts is one or two digits, a colon and two
    digits; padded, it is two digits, a colon and two digits. *)
Lemma isTime_shape s :
  isTime s = true ->
  (length s = 4%nat \/ length s = 5%nat)
  /\ length (padded s) = 5%nat
  /\ isTime (padded s) = true.
Proof.
  unfold isTime. destruct (takeWhile isDigit s) as [a b] eqn:E. intros Ht.
  destruct (takeWhile_split _ _ _ _ E) as (Hs & Ha & _).
  repeat match type of Ht with
         | context [match ?x with _ => _ end] =>
           destruct x; try discriminate Ht
         end.
  - subst s. split; [left; reflexivity|]. split; [reflexivity|].
    unfold padded. cbn [length app Nat.eqb].
    inversion Ha as [|? ? Hd1 _]; subst.
    match goal with
    | |- context [takeWhile isDigit (48%N :: ?d1 :: ?c :: ?r)] =>
      pose proof (takeWhile_app isDigit [48%N; d1] c r
                    ltac:(repeat constructor; assumption) eq_refl) as Hp;
      cbn [app] in Hp; rewrite Hp
    end.
    exact Ht.
  - subst s. split; [right; reflexivity|]. split; [reflexivity|].
    unfold padded. cbn [length app Nat.eqb]. cbn [app] in E.
    rewrite E. exact Ht.
Qed.

Lemma streq_false a b : a <> b -> streq a b = false.
Proof.
  intros Hne. destruct (streq a b) eqn:E; [|reflexivity].
  apply streq_eq in E. contradiction.
Qed.

Lemma assignProp_new k v out :
  k ∉ List.map fst out ->
  List.map fst (assignProp k v out) = List.map fst out ++ [k].
Proof.
  induction out as [|[k' v'] out IH]; cbn [assignProp List.map app fst];
    intros Hk; [reflexivity|].
  apply not_elem_of_cons in Hk as [Hne Hk].
  rewrite streq_false by exact Hne. cbn [List.map fst].
  rewrite IH by exact Hk. reflexivity.
Qed.

Section WithZones.
Context `{Zones}.

(** The loop over the keys of an object with no key twice. *)
Lemma collect_spec data : forall keys out out',
  NoDup keys ->
  (forall k, k ∈ keys -> k ∉ List.map fst out) ->
  (forall k, k ∈ keys -> is_Some (getProp data k)) ->
  collect data keys out = Some out' ->
  List.map fst out' = List.map fst out ++ List.filter isGroupKey keys
  /\ (forall k, k ∉ keys -> lookupProp k out' = lookupProp k out)
  /\ (forall k v, k ∈ keys -> isGroupKey k = true ->
        getProp data k = Some v ->
        exists stored, groupValue v = Some stored
                       /\ lookupProp k out' = Some stored).
Proof.
  induction keys as [|k keys IH]; intros out out' Hnd Hfresh Hin;
    cbn [collect List.filter].
  - intros [= <-]. rewrite app_nil_r. split; [reflexivity|].
    split; [reflexivity|]. intros k v Hk. inversion Hk.
  - apply NoDup_cons in Hnd as [Hk Hnd].
    destruct (Hin k) as [v Hv]; [left|]. rewrite Hv.
    destruct (isGroupKey k) eqn:Eg; cbn [negb].
    + destruct (groupValue v) as [stored|] eqn:Es; [|discriminate].
      cbn [mbind option_bind]. intros Hc.
      destruct (IH (assignProp k stored out) out' Hnd) as (Hkeys & Hout & Hval).
      { intros k' Hk'. rewrite assignProp_new by (apply Hfresh; left).
        rewrite elem_of_app, list_elem_of_singleton.
        intros [Ho| ->]; [|contradiction].
        revert Ho. apply Hfresh. right. exact Hk'. }
      { intros k' Hk'. apply Hin. right. exact Hk'. }
      { exact Hc. }
      split; [|split].
      * rewrite Hkeys, assignProp_new by (apply Hfresh; left).
        rewrite <- app_assoc. reflexivity.
      * intros k' Hk'. apply not_elem_of_cons in Hk' as [Hne Hk'].
        rewrite (Hout k' Hk').
        apply lookupProp_assignProp_ne, streq_false, Hne.
      * intros k' v' Hk' Hg' Hv'. apply elem_of_cons in Hk' as [->|Hk'].
        -- assert (v' = v) as -> by congruence.
           exists stored. split; [exact Es|].
           rewrite (Hout k Hk). apply lookupProp_assignProp_eq.
        -- exact (Hval k' v' Hk' Hg' Hv').
    + intros Hc.
      destruct (IH out out' Hnd) as (Hkeys & Hout & Hval).
      { intros k' Hk'. apply Hfresh. right. exact Hk'. }
      { intros k' Hk'. apply Hin. right. exact Hk'. }
      { exact Hc. }
      split; [exact Hkeys|]. split.
      * intros k' Hk'. apply not_elem_of_cons in Hk' as [Hne Hk'].
        exact (Hout k' Hk').
      * intros k' v' Hk' Hg' Hv'. apply elem_of_cons in Hk' as [->|Hk'];
          [congruence|]. exact (Hval k' v' Hk' Hg' Hv').
Qed.

Lemma lookupProp_is_Some k props :
  k ∈ List.map fst props -> is_Some (lookupProp k props).
Proof.
  induction props as [|[k' v'] props IH]; cbn [List.map fst lookupProp].
  - intros Hk. inversion Hk.
  - intros Hk. destruct (streq k k') eqn:E; [eauto|].
    apply elem_of_cons in Hk as [->|Hk]; [|auto].
    rewrite streq_refl in E. discriminate.
Qed.

Lemma extract_collects props r :
  NoDup (List.map fst props) ->
  extractGroupsWithIso (VObj props) = Some r ->
  exists out,
    collect (VObj props) (List.map fst props) [] = Some out
    /\ r = match out with [] => VNull | _ => VObj out end
    /\ List.map fst out = List.filter isGroupKey (List.map fst props)
    /\ (forall k v, isGroupKey k = true -> lookupProp k props = Some v ->
          exists stored, groupValue v = Some stored
                         /\ lookupProp k out = Some stored).
Proof.
  intros Hnd. unfold extractGroupsWithIso. cbn [isObject truthy typeofObject
    isArray negb andb BatchRender.objectKeys].
  destruct (collect (VObj props) (List.map fst props) []) as [out|] eqn:Ec;
    [|discriminate].
  cbn [mbind option_bind]. intros [= <-].
  destruct (collect_spec (VObj props) (List.map fst props) [] out Hnd)
    as (Hkeys & _ & Hval).
  { intros k _ Hk. inversion Hk. }
  { intros k Hk. apply lookupProp_is_Some, Hk. }
  { exact Ec. }
  exists out. split; [reflexivity|]. split; [reflexivity|].
  split; [exact Hkeys|]. intros k v Hg Hv.
  apply (Hval k v); [|exact Hg|exact Hv].
  clear -Hv. induction props as [|[k' v'] props IH];
    cbn [lookupProp List.map fst] in *; [discriminate|].
  destruct (streq k k') eqn:E.
  - apply streq_eq in E. subst. left.
  - right. auto.
Qed.

(** X15. [extractGroupsWithIso] returns [null] for data that is not a
    plain object, and for an object none of whose keys looks like a group
    (two letters or more, digits, a dot, digits); for any other object it
    returns an object whose keys are the group-like keys of the data, in
    the order of the data, and no other key. *)
Theorem groups_are_the_group_like_keys
  (props : list (jsstring * value)) (r : value) :
  NoDup (List.map fst props) ->
  extractGroupsWithIso (VObj props) = Some r ->
  let keys := List.filter isGroupKey (List.map fst props) in
  ((keys = [] /\ r = VNull)
   \/ (keys <> [] /\ exists out, r = VObj out /\ List.map fst out = keys))
  /\ (forall data, isObject data = false ->
                   extractGroupsWithIso data = Some VNull).
Proof.
  intros Hnd Hr keys. split.
  - destruct (extract_collects props r Hnd Hr) as (out & _ & -> & Hkeys & _).
    fold keys in Hkeys. destruct out as [|kv out].
    + left. split; [symmetry; exact Hkeys|reflexivity].
    + right. split; [rewrite <- Hkeys; discriminate|].
      exists (kv :: out). auto.
  - intros data Ho. unfold extractGroupsWithIso. rewrite Ho. reflexivity.
Qed.

Lemma normalizeEntry_shape entry item :
  normalizeEntry entry = Some item ->
  item = entry \/ isIsoTuple item.
Proof.
  unfold normalizeEntry.
  destruct (isObject entry); cbv iota; [|intros [= <-]; auto].
  set (date := firstOf entry [u16 "date"; u16 "day"; u16 "d"]).
  set (start := firstOf entry [u16 "start"; u16 "from"; u16 "begin"; u16 "s"]).
  set (end_ := firstOf entry [u16 "end"; u16 "to"; u16 "finish"; u16 "e"]).
  cbv zeta. destruct (_ && _); cbv iota; [|intros [= <-]; auto].
  destruct (testTime start) as [[|]|]; cbn [mbind option_bind]; cbv iota;
    [|intros [= <-]; auto|discriminate].
  destruct (testTime end_) as [[|]|]; cbn [mbind option_bind]; cbv iota;
    [|intros [= <-]; auto|discriminate].
  destruct (padTime start) as [start'|]; cbn [mbind option_bind];
    [|discriminate].
  destruct (padTime end_) as [end'|]; cbn [mbind option_bind];
    [|discriminate].
  destruct (isoTuple date start' end') as [tuple|] eqn:Et;
    intros [= <-]; [|auto].
  right. unfold isoTuple in Et.
  destruct (toString date) as [d|]; [|discriminate].
  destruct (toString start') as [s|]; [|discriminate].
  destruct (toKyivIso d s) as [a|]; [|discriminate].
  destruct (toString end') as [e|]; [|discriminate].
  destruct (toKyivIso d e) as [b|]; [|discriminate].
  injection Et as <-. exists d, a, b. reflexivity.
Qed.

Lemma normalizeEntry_other entry :
  isObject entry = false -> normalizeEntry entry = Some entry.
Proof. unfold normalizeEntry. intros ->. reflexivity. Qed.

(** X16. In what [extractGroupsWithIso] returns, the value of a group
    that is not an array is the value the data has for it; the value of a
    group that is an array is an array of as many items, each of them
    either the entry of the data at its place or the object of a date, a
    local start and a local end made from that entry; an entry that is
    not a plain object is always kept as it is. *)
Theorem group_values_keep_their_entries
  (props out : list (jsstring * value)) (k : jsstring) (v : value) :
  extractGroupsWithIso (VObj props) = Some (VObj out) ->
  NoDup (List.map fst props) ->
  isGroupKey k = true ->
  lookupProp k props = Some v ->
  match v with
  | VArr elems _ =>
    exists items,
      lookupProp k out = Some (VArr items [])
      /\ length items = length elems
      /\ Forall2 (fun entry item =>
                    (item = entry \/ isIsoTuple item)
                    /\ (isObject entry = false -> item = entry))
           elems items
  | _ => lookupProp k out = Some v
  end.
Proof.
  intros Hr Hnd Hg Hv.
  destruct (extract_collects props _ Hnd Hr) as (out' & _ & Hout & _ & Hval).
  assert (out' = out) as -> by (destruct out'; [discriminate|congruence]).
  destruct (Hval k v Hg Hv) as (stored & Hs & Hl).
  destruct v as [| | | |elems ps|]; cbn [groupValue] in Hs;
    try (injection Hs as <-; exact Hl).
  destruct (mapM normalizeEntry elems) as [items|] eqn:Em; [|discriminate].
  cbn [fmap option_fmap option_map] in Hs. injection Hs as <-.
  apply mapM_Some in Em. exists items. split; [exact Hl|].
  split; [symmetry; exact (Forall2_length _ _ _ Em)|].
  eapply Forall2_impl; [exact Em|]. cbv beta. intros entry item Hn.
  split; [exact (normalizeEntry_shape _ _ Hn)|].
  intros Ho. rewrite (normalizeEntry_other _ Ho) in Hn. congruence.
Qed.

(** X17. An entry that is a plain object with a date, a start and an end
    that are texts, the start and the end being times of one or two
    digits, a colon and two digits, is replaced by the object of the
    date and of what [toKyivIso] makes of the date with the start and of
    the date with the end, each time written with two digits for the
    hour; where [toKyivIso] throws for one of them the entry is kept as
    it is. The date is read from [date], [day] or [d], the start from
    [start], [from], [begin] or [s], the end from [end], [to], [finish]
    or [e], the first of them that is truthy. *)
Theorem entry_with_times_is_normalized
  (entry : value) (date start end_ : jsstring) :
  isObject entry = true ->
  firstOf entry [u16 "date"; u16 "day"; u16 "d"] = VStr date ->
  firstOf entry [u16 "start"; u16 "from"; u16 "begin"; u16 "s"]
  = VStr start ->
  firstOf entry [u16 "end"; u16 "to"; u16 "finish"; u16 "e"] = VStr end_ ->
  date <> [] ->
  isTime start = true -> isTime end_ = true ->
  normalizeEntry entry
  = Some match toKyivIso date (padded start), toKyivIso date (padded end_)
         with
         | Some startLocal, Some endLocal =>
           VObj [ (u16 "date", VStr date);
                  (u16 "startLocal", VStr startLocal);
                  (u16 "endLocal", VStr endLocal) ]
         | _, _ => entry
         end
  /\ length (padded start) = 5%nat /\ length (padded end_) = 5%nat
  /\ isTime (padded start) = true /\ isTime (padded end_) = true.
Proof.
  intros Ho Hd Hs He Hne Hts Hte.
  destruct (isTime_shape start Hts) as (Hls & Hps & Hpts).
  destruct (isTime_shape end_ Hte) as (Hle & Hpe & Hpte).
  split; [|auto].
  unfold normalizeEntry. rewrite Ho. cbv zeta. rewrite Hd, Hs, He.
  assert (truthy (VStr date) = true) as ->
    by (destruct date; [contradiction|reflexivity]).
  assert (truthy (VStr start) = true) as ->
    by (destruct start; [discriminate|reflexivity]).
  assert (truthy (VStr end_) = true) as ->
    by (destruct end_; [discriminate|reflexivity]).
  cbn [andb]. unfold testTime. cbn [toString fmap option_fmap option_map].
  rewrite Hts, Hte. cbn [mbind option_bind].
  assert (Hpad : forall s, padTime (VStr s) = Some (VStr (padded s))).
  { intros s. unfold padTime, padded. cbn [lengthIs toString].
    destruct (Nat.eqb (length s) 4); reflexivity. }
  rewrite !Hpad. cbn [mbind option_bind]. f_equal.
  unfold isoTuple. cbn [toString].
  destruct (toKyivIso date (padded start)); [|reflexivity].
  destruct (toKyivIso date (padded end_)); reflexivity.
Qed.

End WithZones.

Lemma sampleGroups_keys : NoDup (List.map fst sampleGroups).
Proof.
  repeat (apply NoDup_cons; split;
          [intros Hin; repeat (apply elem_of_cons in Hin as [Hin|Hin];
                               [discriminate|]); inversion Hin|]).
  apply NoDup_nil. exact I.
Qed.

Lemma sampleGroups_normalized :
  extractGroupsWithIso (H := kyiv) (VObj sampleGroups)
  = Some (VObj sampleNormalized).
Proof. vm_compute. reflexivity. Qed.

Lemma groups_are_the_group_like_keys_witness :
  let keys := List.filter isGroupKey (List.map fst sampleGroups) in
  ((keys = [] /\ VObj sampleNormalized = VNull)
   \/ (keys <> []
       /\ exists out, VObj sampleNormalized = VObj out
                      /\ List.map fst out = keys))
  /\ (forall data, isObject data = false ->
                   extractGroupsWithIso (H := kyiv) data = Some VNull).
Proof.
  apply (groups_are_the_group_like_keys (H := kyiv) sampleGroups
           (VObj sampleNormalized) sampleGroups_keys sampleGroups_normalized).
Defined.

Lemma group_values_keep_their_entries_witness :
  exists items,
    lookupProp (u16 "GPV1.1") sampleNormalized = Some (VArr items [])
    /\ length items = 2%nat
    /\ Forall2 (fun entry item =>
                  (item = entry \/ isIsoTuple item)
                  /\ (isObject entry = false -> item = entry))
         [ sampleEntry; VStr (u16 "raw") ] items.
Proof.
  apply (group_values_keep_their_entries (H := kyiv) sampleGroups
           sampleNormalized (u16 "GPV1.1")
           (VArr [ sampleEntry; VStr (u16 "raw") ] [])
           sampleGroups_normalized sampleGroups_keys eq_refl eq_refl).
Defined.

Lemma entry_with_times_is_normalized_witness :
  normalizeEntry (H := kyiv) sampleEntry
  = Some match toKyivIso (H := kyiv) (u16 "2024-01-05") (padded (u16 "8:00")),
               toKyivIso (H := kyiv) (u16 "2024-01-05") (padded (u16 "12:30"))
         with
         | Some startLocal, Some endLocal =>
           VObj [ (u16 "date", VStr (u16 "2024-01-05"));
                  (u16 "startLocal", VStr startLocal);
                  (u16 "endLocal", VStr endLocal) ]
         | _, _ => sampleEntry
         end
  /\ length (padded (u16 "8:00")) = 5%nat
  /\ length (padded (u16 "12:30")) = 5%nat
  /\ isTime (padded (u16 "8:00")) = true
  /\ isTime (padded (u16 "12:30")) = true.
Proof.
  apply (entry_with_times_is_normalized (H := kyiv) sampleEntry
           (u16 "2024-01-05") (u16 "8:00") (u16 "12:30")
           eq_refl eq_refl eq_refl eq_refl);
    [discriminate|reflexivity|reflexivity].
Defined.

End GroupFacts.

Module RendererLineFacts.
Import BatchRender CommandLine ValueFacts.

Lemma streq_neq a b : a <> b -> streq a b = false.
Proof.
  intros Hne. destruct (streq a b) eqn:E; [|reflexivity].
  apply streq_eq in E. contradiction.
Qed.

Lemma lookupArg_assignArg_eq k v args :
  lookupArg k (assignArg k v args) = Some v.
Proof.
  induction args as [|[k' v'] args IH]; cbn [assignArg lookupArg].
  - rewrite streq_refl. reflexivity.
  - destruct (streq k k') eqn:E; cbn [lookupArg].
    + rewrite streq_refl. reflexivity.
    + rewrite E. exact IH.
Qed.

Lemma lookupArg_assignArg_ne k k' v args :
  streq k k' = false ->
  lookupArg k (assignArg k' v args) = lookupArg k args.
Proof.
  intros Hne. induction args as [|[k0 v0] args IH]; cbn [assignArg lookupArg].
  - rewrite Hne. reflexivity.
  - destruct (streq k' k0) eqn:E; cbn [lookupArg].
    + apply streq_eq in E. subst k0. rewrite Hne. reflexivity.
    + rewrite IH. reflexivity.
Qed.

(** What an assignment leaves under a name. *)
Lemma lookupArg_setArg k k' v args :
  lookupArg k (setArg k' v args)
  = if streq k k' && negb (streq k' (u16 "__proto__")) then Some v
    else lookupArg k args.
Proof.
  unfold setArg. destruct (streq k' (u16 "__proto__")) eqn:Ep.
  - rewrite andb_false_r. reflexivity.
  - rewrite andb_true_r. destruct (streq k k') eqn:E.
    + apply streq_eq in E. subst k'. apply lookupArg_assignArg_eq.
    + apply lookupArg_assignArg_ne, E.
Qed.

Lemma startsWith_drop s m :
  startsWith s m = true -> s = m ++ drop (length m) s.
Proof.
  revert s. induction m as [|a m IH]; intros s; [reflexivity|].
  destruct s as [|b s]; cbn [startsWith]; [discriminate|].
  intros [E1 E2]%andb_true_iff. apply N.eqb_eq in E1. subst b.
  cbn [length drop app]. f_equal. apply IH, E2.
Qed.

Lemma startsWith_dashes k : startsWith (u16 "--" ++ k) (u16 "--") = true.
Proof. destruct k; reflexivity. Qed.

(** What the loop has read where it ends. *)
Lemma parseArgsFrom_sound n : forall rest args k v,
  (length rest <= n)%nat ->
  lookupArg k (parseArgsFrom rest args) = Some v ->
  lookupArg k args = Some v
  \/ exists i,
       rest !! i = Some (u16 "--" ++ k)
       /\ match v with
          | Value s => rest !! S i = Some s /\ isValue s = true
          | Flag => forall s, rest !! S i = Some s -> isValue s = false
          end.
Proof.
  induction n as [|n IH]; intros rest args k v Hn.
  { destruct rest; [|cbn [length] in Hn; lia]. cbn. auto. }
  destruct rest as [|a rest]; [cbn; auto|].
  cbn [parseArgsFrom]. cbn [length] in Hn.
  assert (Hshift1 : forall v,
    (exists i, rest !! i = Some (u16 "--" ++ k)
               /\ match v with
                  | Value s => rest !! S i = Some s /\ isValue s = true
                  | Flag => forall s, rest !! S i = Some s -> isValue s = false
                  end) ->
    exists i, (a :: rest) !! i = Some (u16 "--" ++ k)
              /\ match v with
                 | Value s => (a :: rest) !! S i = Some s /\ isValue s = true
                 | Flag =>
                   forall s, (a :: rest) !! S i = Some s -> isValue s = false
                 end).
  { intros v0 (i & H1 & H2). exists (S i). auto. }
  destruct (startsWith a (u16 "--")) eqn:Ea; cbn [negb].
  2:{ intros Hl. destruct (IH rest args k v ltac:(lia) Hl); auto. }
  cbv zeta. pose proof (startsWith_drop _ _ Ea) as Hka.
  change (length (u16 "--")) with 2%nat in Hka.
  destruct rest as [|next after].
  { rewrite lookupArg_setArg.
    destruct (streq k (drop 2 a) && _) eqn:Ek; [|auto].
    intros [= <-]. right. exists 0%nat.
    apply andb_true_iff in Ek as [Ek _]. apply streq_eq in Ek.
    split; [rewrite Ek, <- Hka; reflexivity|]. intros s [=]. }
  destruct (isValue next) eqn:Ev.
  - intros Hl. cbn [length] in Hn.
    destruct (IH after _ k v ltac:(lia) Hl) as [Hold|(i & H1 & H2)].
    + rewrite lookupArg_setArg in Hold.
      destruct (streq k (drop 2 a) && _) eqn:Ek; [|auto].
      injection Hold as <-. right. exists 0%nat.
      apply andb_true_iff in Ek as [Ek _]. apply streq_eq in Ek.
      split; [rewrite Ek, <- Hka; reflexivity|].
      split; [reflexivity|exact Ev].
    + right. exists (S (S i)). split; [exact H1|].
      destruct v; exact H2.
  - intros Hl.
    destruct (IH (next :: after) _ k v ltac:(lia) Hl) as [Hold|Hnew].
    + rewrite lookupArg_setArg in Hold.
      destruct (streq k (drop 2 a) && _) eqn:Ek; [|auto].
      injection Hold as <-. right. exists 0%nat.
      apply andb_true_iff in Ek as [Ek _]. apply streq_eq in Ek.
      split; [rewrite Ek, <- Hka; reflexivity|]. intros s [= <-]. exact Ev.
    + right. apply Hshift1, Hnew.
Qed.

(** X18. Whatever the renderers' [parseArgs] returns for an option was
    named on the command line, past the first two words, by the option's
    name after two dashes. A value it returns is the word right after
    that, and is neither empty nor a word that starts with two dashes; the
    option is [true] only where the word right after is missing, empty,
    or starts with two dashes. *)
Theorem renderer_options_are_named
  (argv : list jsstring) (k : jsstring) (v : argValue) :
  lookupArg k (parseArgs argv) = Some v ->
  exists i,
    namedAt argv k i
    /\ match v with
       | Value s => argv !! S i = Some s /\ isValue s = true
       | Flag => forall s, argv !! S i = Some s -> isValue s = false
       end.
Proof.
  unfold parseArgs. intros Hl.
  destruct (parseArgsFrom_sound _ (drop 2 argv) [] k v (le_n _) Hl)
    as [Hold|(i & H1 & H2)]; [discriminate|].
  exists (2 + i)%nat. rewrite lookup_drop in H1. split; [split; [lia|exact H1]|].
  destruct v.
  - intros s Hs. apply H2. rewrite lookup_drop. exact Hs.
  - rewrite lookup_drop in H2. exact H2.
Qed.

Lemma renderer_options_are_named_witness :
  exists i,
    namedAt [u16 "node"; u16 "batch_render.mjs"; u16 "--theme"; u16 "dark"]
      (u16 "theme") i
    /\ [u16 "node"; u16 "batch_render.mjs"; u16 "--theme"; u16 "dark"] !! S i
       = Some (u16 "dark")
    /\ isValue (u16 "dark") = true.
Proof.
  apply (renderer_options_are_named
           [u16 "node"; u16 "batch_render.mjs"; u16 "--theme"; u16 "dark"]
           (u16 "theme") (Value (u16 "dark"))).
  reflexivity.
Defined.

(** The loop runs through words put before an option into that option. *)
Lemma parseArgsFrom_before n : forall rest opt tail args,
  (length rest <= n)%nat ->
  startsWith opt (u16 "--") = true ->
  exists args',
    parseArgsFrom (rest ++ opt :: tail) args
    = parseArgsFrom (opt :: tail) args'.
Proof.
  induction n as [|n IH]; intros rest opt tail args Hn Hopt.
  { destruct rest; [|cbn [length] in Hn; lia]. eauto. }
  destruct rest as [|a rest]; [eauto|].
  cbn [length] in Hn.
  change ((a :: rest) ++ opt :: tail) with (a :: (rest ++ opt :: tail)).
  cbn [parseArgsFrom].
  destruct (startsWith a (u16 "--")); cbn [negb]; [|apply IH; [lia|exact Hopt]].
  cbv zeta. destruct rest as [|next after].
  - cbn [app]. assert (isValue opt = false) as ->.
    { unfold isValue. destruct opt; [reflexivity|]. rewrite Hopt. reflexivity. }
    eauto.
  - change ((next :: after) ++ opt :: tail)
      with (next :: (after ++ opt :: tail)).
    cbv iota. destruct (isValue next).
    + apply IH; [cbn [length] in Hn; lia|exact Hopt].
    + change (next :: (after ++ opt :: tail))
        with ((next :: after) ++ opt :: tail).
      apply IH; [lia|exact Hopt].
Qed.

(** X19. An option at the end of the command line is read whatever
    stands before it, and the last naming of an option is the one that
    counts: after any words, the name and a value give the option that
    value, and the name alone, or the name before another option, gives
    it [true]. *)
Theorem last_renderer_option_wins
  (argv : list jsstring) (k s other : jsstring) :
  (2 <= length argv)%nat ->
  k <> u16 "__proto__" ->
  isValue s = true ->
  isValue other = false ->
  lookupArg k (parseArgs (argv ++ [u16 "--" ++ k; s])) = Some (Value s)
  /\ lookupArg k (parseArgs (argv ++ [u16 "--" ++ k])) = Some Flag
  /\ lookupArg k (parseArgs (argv ++ [u16 "--" ++ k; other])) = Some Flag.
Proof.
  intros Hlen Hk Hs Ho. unfold parseArgs.
  rewrite !drop_app_le by exact Hlen.
  assert (Hkp : streq k (u16 "__proto__") = false) by (apply streq_neq, Hk).
  split; [|split].
  - destruct (parseArgsFrom_before _ (drop 2 argv) (u16 "--" ++ k) [s] []
                (le_n _) (startsWith_dashes k)) as [args' ->].
    cbn [parseArgsFrom]. rewrite startsWith_dashes. cbn [negb]. cbv zeta.
    rewrite Hs. cbn [parseArgsFrom].
    change (drop 2 (u16 "--" ++ k)) with k.
    rewrite lookupArg_setArg, streq_refl, Hkp. reflexivity.
  - destruct (parseArgsFrom_before _ (drop 2 argv) (u16 "--" ++ k) [] []
                (le_n _) (startsWith_dashes k)) as [args' ->].
    cbn [parseArgsFrom]. rewrite startsWith_dashes. cbn [negb]. cbv zeta.
    change (drop 2 (u16 "--" ++ k)) with k.
    rewrite lookupArg_setArg, streq_refl, Hkp. reflexivity.
  - destruct (parseArgsFrom_before _ (drop 2 argv) (u16 "--" ++ k) [other] []
                (le_n _) (startsWith_dashes k)) as [args' ->].
    cbn [parseArgsFrom]. rewrite startsWith_dashes. cbn [negb]. cbv zeta.
    rewrite Ho. cbn [parseArgsFrom].
    change (drop 2 (u16 "--" ++ k)) with k.
    destruct (startsWith other (u16 "--")); cbn [negb].
    + rewrite lookupArg_setArg.
      destruct (streq k (drop 2 other) && _); [reflexivity|].
      rewrite lookupArg_setArg, streq_refl, Hkp. reflexivity.
    + rewrite lookupArg_setArg, streq_refl, Hkp. reflexivity.
Qed.

Lemma last_renderer_option_wins_witness :
  lookupArg (u16 "theme")
    (parseArgs ([u16 "node"; u16 "batch_render.mjs"; u16 "--theme";
                 u16 "light"] ++ [u16 "--" ++ u16 "theme"; u16 "dark"]))
  = Some (Value (u16 "dark"))
  /\ lookupArg (u16 "theme")
       (parseArgs ([u16 "node"; u16 "batch_render.mjs"; u16 "--theme";
                    u16 "light"] ++ [u16 "--" ++ u16 "theme"]))
     = Some Flag
  /\ lookupArg (u16 "theme")
       (parseArgs ([u16 "node"; u16 "batch_render.mjs"; u16 "--theme";
                    u16 "light"] ++ [u16 "--" ++ u16 "theme"; u16 "--max"]))
     = Some Flag.
Proof.
  apply (last_renderer_option_wins
           [u16 "node"; u16 "batch_render.mjs"; u16 "--theme"; u16 "light"]
           (u16 "theme") (u16 "dark") (u16 "--max")).
  - cbn [length]. lia.
  - discriminate.
  - reflexivity.
  - reflexivity.
Defined.

(** An option with its value is one turn of the loop. *)
Lemma parseArgsFrom_option k v rest args :
  isValue v = true ->
  parseArgsFrom ((u16 "--" ++ k) :: v :: rest) args
  = parseArgsFrom rest (setArg k (Value v) args).
Proof.
  intros Hv. cbn [parseArgsFrom]. rewrite startsWith_dashes. cbn [negb].
  rewrite Hv. reflexivity.
Qed.

Section WithRenderer.
Context `{Renderer}.

Lemma isGpvKey_isValue k : isGpvKey k = true -> isValue k = true.
Proof.
  unfold isGpvKey. destruct k as [|g [|p [|v rest]]]; try discriminate.
  intros [[[Hg _]%andb_true_iff _]%andb_true_iff _]%andb_true_iff.
  unfold isLetter in Hg.
  apply orb_true_iff in Hg as [E|E]; apply N.eqb_eq in E; subst g;
    reflexivity.
Qed.

(** X20. The single-image renderer, reading with its [parseArgs] the
    command line that [runRenderer] of the batch script starts it with,
    finds the template, the data file, the group and the output path that
    the batch script put there, the dark theme where the batch has it,
    the scale where the batch was given one, and never [max] or
    [quality]: the request of maximum quality is not passed on. *)
Theorem child_reads_what_batch_passes
  (execPath theme jsonPath gpvKey outPath : jsstring)
  (scale : option jsstring) :
  isValue templateHtml = true ->
  isValue jsonPath = true ->
  isGpvKey gpvKey = true ->
  isValue outPath = true ->
  (forall text, scale = Some text -> isValue text = true) ->
  let args :=
    parseArgs (rendererArgv execPath theme scale jsonPath gpvKey outPath) in
  lookupArg (u16 "html") args = Some (Value templateHtml)
  /\ lookupArg (u16 "json") args = Some (Value jsonPath)
  /\ lookupArg (u16 "gpv") args = Some (Value gpvKey)
  /\ lookupArg (u16 "out") args = Some (Value outPath)
  /\ themeOf args
     = (if streq theme (u16 "dark") then u16 "dark" else u16 "light")
  /\ lookupArg (u16 "scale") args = Value <$> scale
  /\ lookupArg (u16 "max") args = None
  /\ lookupArg (u16 "quality") args = None.
Proof.
  intros Hh Hj Hg Ho Hsc. apply isGpvKey_isValue in Hg.
  unfold rendererArgv, rendererArgs, parseArgs. cbn [drop app].
  change (u16 "--html") with (u16 "--" ++ u16 "html").
  change (u16 "--json") with (u16 "--" ++ u16 "json").
  change (u16 "--gpv") with (u16 "--" ++ u16 "gpv").
  change (u16 "--out") with (u16 "--" ++ u16 "out").
  rewrite !parseArgsFrom_option by assumption.
  destruct (streq theme (u16 "dark")); destruct scale as [text|];
    cbn [app];
    change (u16 "--theme") with (u16 "--" ++ u16 "theme");
    change (u16 "--scale") with (u16 "--" ++ u16 "scale");
    rewrite ?parseArgsFrom_option by first [reflexivity|apply Hsc; reflexivity];
    cbn [parseArgsFrom]; unfold themeOf;
    rewrite !lookupArg_setArg; repeat split; reflexivity.
Qed.

End WithRenderer.

Lemma child_reads_what_batch_passes_witness :
  let args :=
    parseArgs (@rendererArgv Samples.renderer (u16 "/usr/bin/node")
                 (u16 "dark") (Some (u16 "2")) (u16 "data/kyiv.json")
                 (u16 "GPV1.1") (u16 "images/kyiv/gpv-1-1.png")) in
  lookupArg (u16 "html") args
  = Some (Value (templateHtml (Renderer := Samples.renderer)))
  /\ lookupArg (u16 "json") args = Some (Value (u16 "data/kyiv.json"))
  /\ lookupArg (u16 "gpv") args = Some (Value (u16 "GPV1.1"))
  /\ lookupArg (u16 "out") args
     = Some (Value (u16 "images/kyiv/gpv-1-1.png"))
  /\ themeOf args
     = (if streq (u16 "dark") (u16 "dark") then u16 "dark" else u16 "light")
  /\ lookupArg (u16 "scale") args = Value <$> Some (u16 "2")
  /\ lookupArg (u16 "max") args = None
  /\ lookupArg (u16 "quality") args = None.
Proof.
  apply (child_reads_what_batch_passes (H := Samples.renderer)
           (u16 "/usr/bin/node") (u16 "dark") (u16 "data/kyiv.json")
           (u16 "GPV1.1") (u16 "images/kyiv/gpv-1-1.png") (Some (u16 "2")));
    try reflexivity.
  intros text [= <-]. reflexivity.
Defined.

End RendererLineFacts.

Module BatchRunFacts.
Import ParseFact BatchRender Observations BatchObservations ProcessFacts.
Import BatchFacts CommandLine BatchLines.

Section WithHost.
Context `{Host} `{Renderer}.




Lemma checkTemplates_lines l missing w :
  checkTemplates l missing w
  = (Return (missing
             || existsb (fun nt => negb (bool_decide
                           (is_Some (files w !! templatePathOf (snd nt)))))
                  l),
     World (files w) (ticks w)
       (console w
        ++ List.map
             (fun nt => u16 "[ERROR] HTML template not found (" ++ fst nt
                        ++ u16 "): " ++ templatePathOf (snd nt))
             (List.filter
                (fun nt => negb (bool_decide
                   (is_Some (files w !! templatePathOf (snd nt))))) l))
       (evals w)).
Proof.
  revert missing w. induction l as [|[n t] rest IH]; intros missing w.
  - cbn. rewrite orb_false_r, app_nil_r. destruct w; reflexivity.
  - cbn [checkTemplates existsb List.filter snd fst].
    rewrite run_bind, existsSync_run. cbv beta iota.
    destruct (bool_decide (is_Some (files w !! templatePathOf t)));
      cbn [negb orb].
    + apply IH.
    + rewrite run_bind, consoleLine_run. cbv beta iota. rewrite IH.
      cbn [printed files ticks console evals List.map fst snd].
      rewrite orb_true_r, <- app_assoc. reflexivity.
Qed.

(** X21. Where one of the five templates is not there, the one-browser
    version ends with code 1 having printed one line for each template
    that is missing, in the order full, emergency, week, groups, summary,
    and nothing else; no data file is read and nothing is rendered. The
    child-process version does the same for its template and for the
    renderer script, with the line of the first of the two that is
    missing. *)
Theorem missing_templates_stop_the_batch
  (cfg : config) (entries : list dirent) (w : world) :
  (templatesMissing (files w) = true ->
   batchConcurrent cfg entries w
   = (Exit 1,
      World (files w) (ticks w) (console w ++ missingLines (files w))
        (evals w))
   /\ missingLines (files w) <> [])
  /\ (files w !! templateHtml = None ->
      batchSubprocess cfg entries w
      = (Exit 1,
         printed (u16 "[ERROR] HTML template not found: " ++ templateHtml) w))
  /\ (is_Some (files w !! templateHtml) ->
      files w !! rendererScript = None ->
      batchSubprocess cfg entries w
      = (Exit 1,
         printed (u16 "[ERROR] Renderer script not found: " ++ rendererScript)
           w)).
Proof.
  split; [|split].
  - intros Hm. split.
    + unfold batchConcurrent. rewrite run_bind, checkTemplates_lines.
      cbv beta iota. cbn [orb]. fold (templatesMissing (files w)).
      rewrite Hm. reflexivity.
    + unfold templatesMissing in Hm. unfold missingLines.
      apply existsb_exists in Hm as (nt & Hin & Hnt).
      intros E. apply map_eq_nil in E.
      assert (Hf : In nt (List.filter
                (fun nt => negb (bool_decide
                   (is_Some (files w !! templatePathOf (snd nt)))))
                templateNames)) by (apply filter_In; auto).
      rewrite E in Hf. exact Hf.
  - intros Ht. unfold batchSubprocess.
    rewrite run_bind, existsSync_run, Ht. cbv beta iota.
    rewrite bool_decide_eq_false_2 by (intros [x Hx]; discriminate).
    cbn [negb]. rewrite run_bind, consoleLine_run. reflexivity.
  - intros Ht Hr. unfold batchSubprocess.
    rewrite run_bind, existsSync_run. cbv beta iota.
    rewrite bool_decide_eq_true_2 by exact Ht. cbn [negb].
    rewrite run_bind, existsSync_run, Hr. cbv beta iota.
    rewrite bool_decide_eq_false_2 by (intros [x Hx]; discriminate).
    cbn [negb]. rewrite run_bind, consoleLine_run. reflexivity.
Qed.










End WithHost.

Lemma missing_templates_stop_the_batch_witness :
  batchConcurrent (H := Node.host []) (H0 := Samples.renderer)
    Samples.lightTheme [Dirent (u16 "kyiv.json") true] BatchSamples.twoMissing
  = (Exit 1,
     World (files BatchSamples.twoMissing) 0
       [ u16 "[ERROR] HTML template not found (week): templates/html/week-template.html";
         u16 "[ERROR] HTML template not found (summary): templates/html/summary-item.html" ]
       []).
Proof.
  destruct (missing_templates_stop_the_batch (H := Node.host [])
              (H0 := Samples.renderer) Samples.lightTheme
              [Dirent (u16 "kyiv.json") true] BatchSamples.twoMissing)
    as [Hrun _].
  destruct (Hrun eq_refl) as [-> _]. reflexivity.
Defined.





End BatchRunFacts.

Module FileNameFacts.
Import BatchRender FileNames DecimalFacts GroupFacts.

Lemma digit_isNameChar c : isDigit c = true -> isNameChar c = true.
Proof. unfold isNameChar. intros ->. reflexivity. Qed.

Lemma sanitize_chars s inRun :
  Forall (fun c => isNameChar c = true) (sanitize s inRun).
Proof.
  revert inRun. induction s as [|c s IH]; intros inRun; cbn [sanitize].
  - constructor.
  - destruct (isAlnum c) eqn:Ea.
    + constructor; [|apply IH]. unfold isAlnum in Ea. unfold isNameChar, lower.
      unfold isDigit in *.
      destruct (N.leb_spec 65 c), (N.leb_spec c 90), (N.leb_spec 48 c),
        (N.leb_spec c 57), (N.leb_spec 97 c), (N.leb_spec c 122);
        cbn [andb orb] in Ea |- *; try discriminate;
        repeat match goal with
               | |- context [(?a <=? ?b)%N] => destruct (N.leb_spec a b)
               | |- context [(?a =? ?b)%N] => destruct (N.eqb_spec a b)
               end; cbn [andb orb]; try reflexivity; lia.
    + destruct inRun; [apply IH|]. constructor; [reflexivity|apply IH].
Qed.

(** A key of a group is three letters, digits, a dot and digits, and its
    image is named by the two numbers. *)
Lemma isGpvKey_shape k :
  isGpvKey k = true ->
  exists g p v major minor,
    k = g :: p :: v :: major ++ 46%N :: minor
    /\ isLetter g 71 = true /\ isLetter p 80 = true /\ isLetter v 86 = true
    /\ Forall (fun c => isDigit c = true) major
    /\ Forall (fun c => isDigit c = true) minor
    /\ major <> [] /\ minor <> []
    /\ gpvToFileName k
       = u16 "gpv-" ++ major ++ u16 "-" ++ minor ++ u16 ".png".
Proof.
  intros Hk. unfold gpvToFileName. rewrite Hk. unfold isGpvKey in Hk.
  destruct k as [|g [|p [|v rest]]]; try discriminate.
  apply andb_true_iff in Hk as [Hk Hrest].
  apply andb_true_iff in Hk as [Hk Hv].
  apply andb_true_iff in Hk as [Hg Hp].
  change (drop 3 (g :: p :: v :: rest)) with rest.
  destruct (takeWhile isDigit rest) as [major after] eqn:E1.
  destruct major as [|m0 major]; [discriminate|].
  destruct after as [|dot rest']; [discriminate|].
  assert (Hdot : dot = 46%N).
  { destruct (N.eq_dec dot 46%N) as [E|Hne]; [exact E|exfalso].
    destruct dot as [|q]; [discriminate|].
    repeat first [ discriminate Hrest | contradiction
                 | destruct q as [q|q|]; cbv beta iota in Hrest ]. }
  subst dot. change (drop 1 (46%N :: rest')) with rest'.
  destruct (takeWhile isDigit rest') as [minor after'] eqn:E2.
  destruct minor as [|n0 minor]; [discriminate|].
  destruct after'; [|discriminate].
  apply takeWhile_split in E1 as (-> & Hmaj & _).
  apply takeWhile_split in E2 as (-> & Hmin & _).
  rewrite app_nil_r.
  exists g, p, v, (m0 :: major), (n0 :: minor).
  repeat split; try reflexivity; try assumption; discriminate.
Qed.

(** X26. The name of an image is [gpv-], a body and [.png], and the body
    holds nothing but digits, small Latin letters and dashes, whatever
    the key is: no separator of a path, no dot and no capital is in
    it. *)
Theorem image_names_are_plain (gpvKey : jsstring) :
  exists body,
    gpvToFileName gpvKey = u16 "gpv-" ++ body ++ u16 ".png"
    /\ Forall (fun c => isNameChar c = true) body.
Proof.
  destruct (isGpvKey gpvKey) eqn:Ek.
  - destruct (isGpvKey_shape gpvKey Ek)
      as (g & p & v & major & minor & _ & _ & _ & _ & Hmaj & Hmin & _ & _
          & ->).
    exists (major ++ u16 "-" ++ minor). split.
    + rewrite <- !app_assoc. reflexivity.
    + apply Forall_app. split.
      * eapply Forall_impl; [exact Hmaj|]. apply digit_isNameChar.
      * apply Forall_app. split; [repeat constructor|].
        eapply Forall_impl; [exact Hmin|]. apply digit_isNameChar.
  - exists (sanitize gpvKey false). split.
    + unfold gpvToFileName. rewrite Ek. reflexivity.
    + apply sanitize_chars.
Qed.

(** Digits before a character that is no digit are read off one way
    only. *)
Lemma digits_then a a' c c' rest rest' :
  Forall (fun x => isDigit x = true) a ->
  Forall (fun x => isDigit x = true) a' ->
  isDigit c = false -> isDigit c' = false ->
  a ++ c :: rest = a' ++ c' :: rest' ->
  a = a' /\ rest = rest'.
Proof.
  intros Ha Ha' Hc Hc' E.
  pose proof (takeWhile_app isDigit a c rest Ha Hc) as E1.
  pose proof (takeWhile_app isDigit a' c' rest' Ha' Hc') as E2.
  rewrite E in E1. rewrite E1 in E2. injection E2 as -> _ ->. auto.
Qed.

Lemma lower_digits l :
  Forall (fun c => isDigit c = true) l -> List.map lower l = l.
Proof.
  induction 1 as [|c l Hc _ IH]; [reflexivity|].
  cbn [List.map]. rewrite IH. f_equal. unfold lower.
  unfold isDigit in Hc. apply andb_true_iff in Hc as [H1 H2].
  apply N.leb_le in H1, H2.
  destruct (N.leb_spec 65 c); [lia|reflexivity].
Qed.

Lemma lower_letter c upper :
  (65 <= upper <= 90)%N -> isLetter c upper = true ->
  lower c = (upper + 32)%N.
Proof.
  intros Hu Hl. unfold isLetter in Hl. unfold lower.
  apply orb_true_iff in Hl as [E|E]; apply N.eqb_eq in E; subst c.
  - destruct (N.leb_spec 65 upper), (N.leb_spec upper 90);
      cbn [andb]; lia.
  - destruct (N.leb_spec 65 (upper + 32)), (N.leb_spec (upper + 32) 90);
      cbn [andb]; lia.
Qed.

(** X27. Two keys of groups get the same image name exactly where they
    are the same but for the case of the letters GPV: keys that differ in
    a number, or in a zero before one, get names of their own, and keys
    that differ in case only share one. *)
Theorem group_image_names_coincide_up_to_case (a b : jsstring) :
  isGpvKey a = true ->
  isGpvKey b = true ->
  (gpvToFileName a = gpvToFileName b
   <-> List.map lower a = List.map lower b).
Proof.
  intros Ha Hb.
  destruct (isGpvKey_shape a Ha)
    as (g & p & v & major & minor & -> & Hg & Hp & Hv & Hmaj & Hmin & _ & _
        & ->).
  destruct (isGpvKey_shape b Hb)
    as (g' & p' & v' & major' & minor' & -> & Hg' & Hp' & Hv' & Hmaj' & Hmin'
        & _ & _ & ->).
  cbn [List.map]. rewrite !map_app. cbn [List.map].
  rewrite !lower_digits by assumption.
  rewrite (lower_letter g 71), (lower_letter g' 71), (lower_letter p 80),
    (lower_letter p' 80), (lower_letter v 86), (lower_letter v' 86)
    by (assumption || lia).
  change (lower 46) with 46%N.
  split.
  - intros E. apply app_inv_head in E. cbn [app] in E.
    change (u16 "-" ++ ?x) with (45%N :: x) in E.
    apply digits_then in E as [-> E]; try assumption; try reflexivity.
    apply app_inv_tail in E. subst. reflexivity.
  - intros E. injection E as E.
    apply digits_then in E as [-> ->]; try assumption; reflexivity.
Qed.

Lemma group_image_names_coincide_up_to_case_witness :
  gpvToFileName (u16 "GPV1.2")
  = gpvToFileName (u16 "gpv1.2")
  /\ gpvToFileName (u16 "GPV1.2")
     = u16 "gpv-1-2.png".
Proof.
  split; [|reflexivity].
  apply (group_image_names_coincide_up_to_case (u16 "GPV1.2") (u16 "gpv1.2"));
    reflexivity.
Defined.

End FileNameFacts.

Module PageFacts.
Import PageRenderer.

Lemma andThen_made {A B} (m : P A) (k : A -> P B) :
  (m ≫= k).2
  = m.2 ++ match m.1 with inl a => (k a).2 | inr _ => [] end.
Proof.
  unfold mbind, P_bind, andThen. destruct m as [[a|e] made]; cbn [fst snd].
  - destruct (k a). reflexivity.
  - rewrite app_nil_r. reflexivity.
Qed.

Lemma andThen_result {A B} (m : P A) (k : A -> P B) :
  (m ≫= k).1
  = match m.1 with inl a => (k a).1 | inr e => inr e end.
Proof.
  unfold mbind, P_bind, andThen. destruct m as [[a|e] made]; cbn [fst snd].
  - destruct (k a). reflexivity.
  - reflexivity.
Qed.

Lemma onPage_bind {A B} (m : P A) (k : A -> P B) :
  onPage m -> (forall a, onPage (k a)) -> onPage (m ≫= k).
Proof.
  unfold onPage. intros Hm Hk. rewrite andThen_made, forallb_app, Hm.
  destruct m.1; [apply Hk|reflexivity].
Qed.

Lemma onPage_resolve {A} (a : A) : onPage (resolve a).
Proof. reflexivity. Qed.

Lemma onPage_reject {A} message : onPage (reject (A := A) message).
Proof. reflexivity. Qed.

Lemma onPage_await c answer : onOpenPage c = true -> onPage (await c answer).
Proof. unfold onPage. cbn. intros ->. reflexivity. Qed.

Lemma onPage_awaitValue {A} c (answer : A + jsstring) :
  onOpenPage c = true -> onPage (awaitValue c answer).
Proof. unfold onPage. cbn. intros ->. reflexivity. Qed.

Lemma in_bind {A B} (m : P A) (k : A -> P B) c :
  In c (m ≫= k).2 ->
  In c m.2 \/ exists a, m.1 = inl a /\ In c (k a).2.
Proof.
  rewrite andThen_made. intros [Hin|Hin]%in_app_or; [left; exact Hin|].
  destruct m.1 as [a|e]; [|contradiction]. right. exists a. auto.
Qed.

Lemma bind_in {A B} (m : P A) (k : A -> P B) c a :
  m.1 = inl a -> In c (k a).2 -> In c (m ≫= k).2.
Proof.
  intros Ea Hin. rewrite andThen_made, Ea. apply in_or_app. right. exact Hin.
Qed.

Lemma bind_resolves {A B} (m : P A) (k : A -> P B) v :
  (m ≫= k).1 = inl v -> exists a, m.1 = inl a /\ (k a).1 = inl v.
Proof.
  rewrite andThen_result. destruct m.1 as [a|e]; [|discriminate].
  intros Hk. exists a. auto.
Qed.

Lemma await_resolves c answer u : (await c answer).1 = inl u -> answer = None.
Proof. destruct answer; [discriminate|reflexivity]. Qed.

Section WithHost.
Context `{Host} `{BatchRender.Renderer}.
Variable sep : N.
Variable b : browser.

Lemma renderBody_onPage fs q : onPage (renderBody sep b fs q).
Proof.
  unfold renderBody.
  apply onPage_bind.
  { unfold readFile. destruct (fs !! jsonPath q) as [[|]|]; reflexivity. }
  intros jsonBuf. apply onPage_bind.
  { destruct (JSON_parse jsonBuf); reflexivity. }
  intros data. apply onPage_bind; [apply onPage_await; reflexivity|].
  intros _. cbv zeta. apply onPage_bind; [apply onPage_await; reflexivity|].
  intros _. apply onPage_bind; [apply onPage_awaitValue; reflexivity|].
  intros hasMatrix. apply onPage_bind; [apply onPage_awaitValue; reflexivity|].
  intros hasToday. apply onPage_bind; [apply onPage_awaitValue; reflexivity|].
  intros hasSummary. apply onPage_bind.
  { destruct hasMatrix; [apply onPage_await|]; reflexivity. }
  intros _. apply onPage_bind.
  { destruct hasToday; [apply onPage_await|]; reflexivity. }
  intros _. apply onPage_bind.
  { destruct hasSummary; [|reflexivity]. apply onPage_bind; [reflexivity|].
    intros []; reflexivity. }
  intros _. apply onPage_bind.
  { destruct (negb hasMatrix && negb hasToday && negb hasSummary);
      reflexivity. }
  intros _. apply onPage_bind; [apply onPage_awaitValue; reflexivity|].
  intros [[width height]|]; [|reflexivity].
  apply onPage_bind; [apply onPage_await; reflexivity|].
  intros _. reflexivity.
Qed.

(** X28. What [renderPage] opens it closes, but for one case. Where the
    context and the page open, the calls end with the closing of the
    page, which comes after every call on the page, and with the closing
    of the context after it, however the rendering went; an error of a
    closing is what the function rejects with, and where the page does
    not close the context is left open. Where the page does not open,
    the context is left open as well. *)
Theorem renderPage_closes_what_it_opened
  (fs : gmap (list N) node) (q : request) :
  (forall message,
     newContext b = Some message ->
     renderPage sep b fs q
     = (inr message, [NewContext (deviceScaleFactor q)]))
  /\ (forall message,
        newContext b = None -> newPage b = Some message ->
        renderPage sep b fs q
        = (inr message, [NewContext (deviceScaleFactor q); NewPage]))
  /\ (newContext b = None -> newPage b = None ->
      exists work,
        (renderPage sep b fs q).2
        = NewContext (deviceScaleFactor q) :: NewPage :: work
          ++ ClosePage :: match closePage b with
                          | None => [CloseContext]
                          | Some _ => []
                          end
        /\ work = (renderBody sep b fs q).2
        /\ forallb onOpenPage work = true
        /\ (renderPage sep b fs q).1
           = match closePage b, closeContext b with
             | Some message, _ => inr message
             | None, Some message => inr message
             | None, None => (renderBody sep b fs q).1
             end).
Proof.
  unfold renderPage. split; [|split].
  - intros message ->. reflexivity.
  - intros message -> ->. reflexivity.
  - intros -> ->. exists (renderBody sep b fs q).2.
    pose proof (renderBody_onPage fs q) as Hon. unfold onPage in Hon.
    destruct (renderBody sep b fs q) as [r made]. cbn [fst snd] in *.
    destruct (closePage b), (closeContext b); cbn; auto.
Qed.

(** What the block under [try] has found where it comes to take the
    image. *)
Lemma renderBody_image fs q path :
  In (Screenshot path) (renderBody sep b fs q).2 ->
  path = outPath q
  /\ (exists text data,
        fs !! jsonPath q = Some (File text) /\ JSON_parse text = inl data
        /\ addInitScript b = None)
  /\ goto b (urlToOpen sep q) (Z.max (timeoutOf q) 10000) = None
  /\ someBlock b
  /\ exists width height, boundingBox b = inl (Some (width, height)).
Proof.
  unfold renderBody. intros Hin.
  apply in_bind in Hin as [Hin|(jsonBuf & Eread & Hin)].
  { unfold readFile in Hin. destruct (fs !! jsonPath q) as [[|]|]; destruct Hin. }
  apply in_bind in Hin as [Hin|(data & Eparse & Hin)].
  { destruct (JSON_parse jsonBuf); destruct Hin. }
  apply in_bind in Hin as [Hin|([] & Einit & Hin)].
  { destruct Hin as [Hin|[]]. discriminate Hin. }
  cbv zeta in Hin.
  apply in_bind in Hin as [Hin|([] & Egoto & Hin)].
  { destruct Hin as [Hin|[]]. discriminate Hin. }
  apply in_bind in Hin as [Hin|(hasMatrix & Ematrix & Hin)].
  { destruct Hin as [Hin|[]]. discriminate Hin. }
  apply in_bind in Hin as [Hin|(hasToday & Etoday & Hin)].
  { destruct Hin as [Hin|[]]. discriminate Hin. }
  apply in_bind in Hin as [Hin|(hasSummary & Esummary & Hin)].
  { destruct Hin as [Hin|[]]. discriminate Hin. }
  apply in_bind in Hin as [Hin|([] & _ & Hin)].
  { destruct hasMatrix; [destruct Hin as [Hin|[]]; discriminate Hin
                        |destruct Hin]. }
  apply in_bind in Hin as [Hin|([] & _ & Hin)].
  { destruct hasToday; [destruct Hin as [Hin|[]]; discriminate Hin
                       |destruct Hin]. }
  apply in_bind in Hin as [Hin|([] & _ & Hin)].
  { destruct hasSummary; [|destruct Hin].
    apply in_bind in Hin as [Hin|(winner & _ & Hin)].
    - destruct Hin as [Hin|[Hin|[]]]; discriminate Hin.
    - destruct winner; destruct Hin. }
  apply in_bind in Hin as [Hin|([] & Eblock & Hin)].
  { destruct (negb hasMatrix && negb hasToday && negb hasSummary);
      destruct Hin. }
  apply in_bind in Hin as [Hin|(bbox & Ebox & Hin)].
  { destruct Hin as [Hin|[]]. discriminate Hin. }
  destruct bbox as [[width height]|]; [|destruct Hin].
  apply in_bind in Hin as [Hin|([] & _ & Hin)]; [|destruct Hin].
  destruct Hin as [[= <-]|[]].
  split; [reflexivity|]. split.
  { unfold readFile in Eread.
    destruct (fs !! jsonPath q) as [[text|]|]; try discriminate Eread.
    injection Eread as ->. exists jsonBuf.
    destruct (JSON_parse jsonBuf) as [data'|]; [|discriminate Eparse].
    exists data'. split; [reflexivity|]. split; [reflexivity|].
    exact (await_resolves _ _ _ Einit). }
  split; [exact (await_resolves _ _ _ Egoto)|]. split.
  { unfold someBlock. cbn [awaitValue fst] in Ematrix, Etoday, Esummary.
    rewrite Ematrix, Etoday, Esummary.
    destruct hasMatrix; [auto|]. destruct hasToday; [auto|].
    destruct hasSummary; [auto|]. discriminate Eblock. }
  exists width, height. exact Ebox.
Qed.

(** What the block under [try] has done where it resolves. *)
Lemma renderBody_resolves fs q size :
  (renderBody sep b fs q).1 = inl size ->
  In (Screenshot (outPath q)) (renderBody sep b fs q).2
  /\ screenshot b (outPath q) = None
  /\ exists width height,
       boundingBox b = inl (Some (width, height))
       /\ size = (Math_round width, Math_round height).
Proof.
  unfold renderBody. intros Hres.
  apply bind_resolves in Hres as (jsonBuf & Eread & Hres).
  split; [|split].
  1: eapply bind_in; [exact Eread|].
  all: apply bind_resolves in Hres as (data & Eparse & Hres).
  1: eapply bind_in; [exact Eparse|].
  all: apply bind_resolves in Hres as ([] & Einit & Hres).
  1: eapply bind_in; [exact Einit|].
  all: cbv zeta in Hres |- *.
  all: apply bind_resolves in Hres as ([] & Egoto & Hres).
  1: eapply bind_in; [exact Egoto|].
  all: apply bind_resolves in Hres as (hasMatrix & Ematrix & Hres).
  1: eapply bind_in; [exact Ematrix|].
  all: apply bind_resolves in Hres as (hasToday & Etoday & Hres).
  1: eapply bind_in; [exact Etoday|].
  all: apply bind_resolves in Hres as (hasSummary & Esummary & Hres).
  1: eapply bind_in; [exact Esummary|].
  all: apply bind_resolves in Hres as ([] & E1 & Hres).
  1: eapply bind_in; [exact E1|].
  all: apply bind_resolves in Hres as ([] & E2 & Hres).
  1: eapply bind_in; [exact E2|].
  all: apply bind_resolves in Hres as ([] & E3 & Hres).
  1: eapply bind_in; [exact E3|].
  all: apply bind_resolves in Hres as ([] & E4 & Hres).
  1: eapply bind_in; [exact E4|].
  all: apply bind_resolves in Hres as (bbox & Ebox & Hres).
  1: eapply bind_in; [exact Ebox|].
  all: destruct bbox as [[width height]|]; [|discriminate Hres].
  all: apply bind_resolves in Hres as ([] & Eshot & Hres).
  - rewrite andThen_made. left. reflexivity.
  - exact (await_resolves _ _ _ Eshot).
  - exists width, height. split; [exact Ebox|].
    injection Hres as <-. reflexivity.
Qed.

(** X29. [renderPage] takes the image of a page that has rendered and of
    no other: where it takes one, at the path it was given, the data
    file was read, decoded and handed to the page, the template was
    opened, one of the three blocks was on the page, and the container
    had a box. Where it resolves it has taken the image and closed the
    page and the context, and what it resolves with are the width and the
    height of the box, rounded. *)
Theorem image_only_of_a_rendered_page
  (fs : gmap (list N) node) (q : request) :
  (forall path,
     In (Screenshot path) (renderPage sep b fs q).2 ->
     path = outPath q
     /\ (exists text data,
           fs !! jsonPath q = Some (File text) /\ JSON_parse text = inl data
           /\ addInitScript b = None)
     /\ goto b (urlToOpen sep q) (Z.max (timeoutOf q) 10000) = None
     /\ someBlock b
     /\ exists width height, boundingBox b = inl (Some (width, height)))
  /\ (forall size,
        (renderPage sep b fs q).1 = inl size ->
        In (Screenshot (outPath q)) (renderPage sep b fs q).2
        /\ screenshot b (outPath q) = None
        /\ closePage b = None /\ closeContext b = None
        /\ In ClosePage (renderPage sep b fs q).2
        /\ In CloseContext (renderPage sep b fs q).2
        /\ exists width height,
             boundingBox b = inl (Some (width, height))
             /\ size = (Math_round width, Math_round height)).
Proof.
  unfold renderPage. split.
  - intros path Hin.
    apply in_bind in Hin as [Hin|([] & _ & Hin)].
    { destruct Hin as [Hin|[]]. discriminate Hin. }
    apply in_bind in Hin as [Hin|([] & _ & Hin)].
    { destruct Hin as [Hin|[]]. discriminate Hin. }
    apply (renderBody_image fs q path).
    unfold finally in Hin.
    destruct (renderBody sep b fs q) as [r made]. cbn [snd].
    destruct (closePage b), (closeContext b); cbn in Hin;
      apply in_app_or in Hin as [Hin|Hin]; try exact Hin;
      cbn in Hin; intuition discriminate.
  - intros size Hres.
    apply bind_resolves in Hres as ([] & Ectx & Hres).
    apply bind_resolves in Hres as ([] & Epage & Hres).
    assert (Hbody : (renderBody sep b fs q).1 = inl size
                    /\ closePage b = None /\ closeContext b = None).
    { unfold finally in Hres. destruct (renderBody sep b fs q) as [r made].
      destruct (closePage b), (closeContext b); cbn in Hres;
        try discriminate Hres. auto. }
    destruct Hbody as (Hbody & Hcp & Hcc).
    destruct (renderBody_resolves fs q size Hbody) as (Hshot & Hok & Hbox).
    assert (Hmade : forall c,
              In c (renderBody sep b fs q).2 \/ c = ClosePage
              \/ c = CloseContext ->
              In c (await (NewContext (deviceScaleFactor q)) (newContext b)
                    ≫= (fun _ => await NewPage (newPage b)
                         ≫= (fun _ => finally (renderBody sep b fs q)
                              (await ClosePage (closePage b)
                               ≫= (fun _ => await CloseContext
                                              (closeContext b)))))).2).
    { intros c Hc. eapply bind_in; [exact Ectx|].
      eapply bind_in; [exact Epage|].
      unfold finally. rewrite Hcp, Hcc.
      destruct (renderBody sep b fs q) as [r made]. cbn in Hc |- *.
      apply in_or_app. destruct Hc as [Hc|[->| ->]]; [left; exact Hc|right..];
        cbn; auto. }
    split; [apply Hmade; left; exact Hshot|]. split; [exact Hok|].
    split; [exact Hcp|]. split; [exact Hcc|].
    split; [apply Hmade; auto|]. split; [apply Hmade; auto|]. exact Hbox.
Qed.

End WithHost.

Lemma renderPage_closes_what_it_opened_witness :
  let run :=
    renderPage (H := Node.host []) (H0 := Samples.renderer) 47%N blankPage
      (files (Samples.withData Samples.twoGroups)) sampleRequest in
  run.1
  = inr (u16 "Template did not render #matrix nor #today nor summary-card")
  /\ exists work,
       run.2
       = NewContext (deviceScaleFactor sampleRequest) :: NewPage :: work
         ++ [ClosePage; CloseContext]
       /\ forallb onOpenPage work = true.
Proof.
  intros run.
  destruct (renderPage_closes_what_it_opened (H := Node.host [])
              (H0 := Samples.renderer) 47%N blankPage
              (files (Samples.withData Samples.twoGroups)) sampleRequest)
    as (_ & _ & Hclosed).
  destruct (Hclosed eq_refl eq_refl) as (work & Hmade & _ & Hwork & Hres).
  split.
  - unfold run. rewrite Hres. vm_compute. reflexivity.
  - exists work. split; [exact Hmade|exact Hwork].
Defined.

Lemma image_only_of_a_rendered_page_witness :
  let run :=
    renderPage (H := Node.host []) (H0 := Samples.renderer) 47%N matrixPage
      (files (Samples.withData Samples.twoGroups)) sampleRequest in
  run.1 = inl (601, 200)
  /\ In (Screenshot (u16 "images/kyiv/gpv-1-1.png")) run.2
  /\ In ClosePage run.2 /\ In CloseContext run.2.
Proof.
  intros run.
  assert (Hres : run.1 = inl (601, 200)) by (vm_compute; reflexivity).
  destruct (image_only_of_a_rendered_page (H := Node.host [])
              (H0 := Samples.renderer) 47%N matrixPage
              (files (Samples.withData Samples.twoGroups)) sampleRequest)
    as [_ Hdone].
  destruct (Hdone (601, 200) Hres) as (Hshot & _ & _ & _ & Hcp & Hcc & _).
  split; [exact Hres|]. split; [exact Hshot|]. split; [exact Hcp|exact Hcc].
Defined.

End PageFacts.
